(** * CorePost server: request authentication and the lock state machine

    A shallow embedding of [main.py] (the FastAPI backend of CorePost) and
    proofs about its HMAC request authentication, its lock / unlock
    handlers and the admin override.

    Modelling conventions
    - A Python [str] is a [string]: a sequence of code points below 256
      (header values reach the handlers decoded as latin-1).
    - A [datetime] is a number of microseconds since the epoch; the process
      is taken to run in UTC, so naive local datetimes subtract like
      instants.  [timedelta.total_seconds()] is the difference divided by
      10^6 and rounded to binary64, as Python computes it.
    - The sqlite table [devices] is the list of its rows in rowid order;
      [SELECT ... fetchone()] is [find], [UPDATE ... WHERE] rewrites every
      matching row.  Each request runs alone on the table.
    - [datetime.now()] and [secrets.token_hex] are inputs of the functions
      that call them.
    - An exception is a value of [exn]; a handler returns the new table
      and either a response or the exception that left it. *)

From Stdlib Require Import ZArith List String Ascii Bool Lia.
Import ListNotations.
Open Scope string_scope.
Open Scope Z_scope.

(** ** Bytes and text *)

Definition code (c : ascii) : Z := Z.of_N (N_of_ascii c).

Definition chr (z : Z) : ascii := ascii_of_N (Z.to_N z).

(** [str.encode()]: UTF-8 of code points below 256. *)
Definition encode_char (c : ascii) : list Z :=
  let z := code c in
  if z <? 128 then [z] else [192 + z / 64; 128 + z mod 64].

Fixpoint encode (s : string) : list Z :=
  match s with
  | EmptyString => []
  | String c s' => encode_char c ++ encode s'
  end.

Fixpoint isascii (s : string) : bool :=
  match s with
  | EmptyString => true
  | String c s' => (code c <? 128) && isascii s'
  end.

Definition hex_digit (z : Z) : ascii :=
  if z <? 10 then chr (48 + z) else chr (87 + z).

Fixpoint hex (bs : list Z) : string :=
  match bs with
  | [] => EmptyString
  | b :: bs' => String (hex_digit (b / 16)) (String (hex_digit (b mod 16)) (hex bs'))
  end.

Definition is_byte (b : Z) : Prop := 0 <= b < 256.

(** ** SHA-256 and HMAC ([hashlib.sha256], [hmac.new]) *)

Module SHA256.

Definition M32 : Z := 4294967296.

Definition add32 (a b : Z) : Z := (a + b) mod M32.

Definition rotr (n x : Z) : Z :=
  Z.lor (Z.shiftr x n) ((Z.shiftl x (32 - n)) mod M32).

Definition not32 (x : Z) : Z := Z.lxor x (M32 - 1).

Definition Ch (x y z : Z) : Z := Z.lxor (Z.land x y) (Z.land (not32 x) z).

Definition Maj (x y z : Z) : Z :=
  Z.lxor (Z.lxor (Z.land x y) (Z.land x z)) (Z.land y z).

Definition Sigma0 (x : Z) : Z := Z.lxor (Z.lxor (rotr 2 x) (rotr 13 x)) (rotr 22 x).
Definition Sigma1 (x : Z) : Z := Z.lxor (Z.lxor (rotr 6 x) (rotr 11 x)) (rotr 25 x).
Definition sigma0 (x : Z) : Z := Z.lxor (Z.lxor (rotr 7 x) (rotr 18 x)) (Z.shiftr x 3).
Definition sigma1 (x : Z) : Z := Z.lxor (Z.lxor (rotr 17 x) (rotr 19 x)) (Z.shiftr x 10).

(** The round constants and the initial state are the first 32 bits of the
    fractional parts of the cube roots of the first 64 primes and of the
    square roots of the first 8. *)

Definition is_prime (n : nat) : bool :=
  forallb (fun d => negb (Nat.eqb (Nat.modulo n d) 0)) (seq 2 (n - 2)).

Definition primes : list Z := map Z.of_nat (filter is_prime (seq 2 310)).

(** The largest [x + k] with [(x + k)^3 <= n], [k] below [2^(bit + 1)]. *)
Fixpoint cube_root (bit : nat) (n x : Z) : Z :=
  let y := x + 2 ^ Z.of_nat bit in
  let x' := if y * y * y <=? n then y else x in
  match bit with
  | O => x'
  | S bit' => cube_root bit' n x'
  end.

Definition K : list Z :=
  Eval vm_compute in map (fun p => cube_root 40 (p * 2 ^ 96) 0 mod M32) primes.

Definition init_words : list Z :=
  Eval vm_compute in map (fun p => Z.sqrt (p * 2 ^ 64) mod M32) (firstn 8 primes).

(** Big-endian bytes of a number, [n] of them. *)
Fixpoint be_bytes (n : nat) (x : Z) : list Z :=
  match n with
  | O => []
  | S n' => be_bytes n' (x / 256) ++ [x mod 256]
  end.

Definition pad (msg : list Z) : list Z :=
  let len := Z.of_nat (List.length msg) in
  let zeros := Z.to_nat ((55 - len) mod 64) in
  msg ++ [128] ++ repeat 0 zeros ++ be_bytes 8 (8 * len).

(** The words of a byte sequence, four bytes each. *)
Fixpoint words (fuel : nat) (bs : list Z) : list Z :=
  match fuel, bs with
  | S f, b0 :: b1 :: b2 :: b3 :: rest =>
      (((b0 * 256 + b1) * 256 + b2) * 256 + b3) :: words f rest
  | _, _ => []
  end.

(** The message schedule, newest word first. *)
Fixpoint schedule (n : nat) (rev_w : list Z) : list Z :=
  match n with
  | O => rev_w
  | S n' =>
      let w := add32 (add32 (sigma1 (nth 1 rev_w 0)) (nth 6 rev_w 0))
                     (add32 (sigma0 (nth 14 rev_w 0)) (nth 15 rev_w 0)) in
      schedule n' (w :: rev_w)
  end.

Definition state : Type := (Z * Z * Z * Z * Z * Z * Z * Z)%type.

Definition round (s : state) (kw : Z * Z) : state :=
  let '(a, b, c, d, e, f, g, h) := s in
  let t1 := add32 (add32 (add32 h (Sigma1 e)) (add32 (Ch e f g) (fst kw))) (snd kw) in
  let t2 := add32 (Sigma0 a) (Maj a b c) in
  (add32 t1 t2, a, b, c, add32 d t1, e, f, g).

Definition compress (s : state) (block : list Z) : state :=
  let w := rev (schedule 48 (rev (words 16 block))) in
  let '(a, b, c, d, e, f, g, h) := fold_left round (combine K w) s in
  let '(a0, b0, c0, d0, e0, f0, g0, h0) := s in
  (add32 a0 a, add32 b0 b, add32 c0 c, add32 d0 d,
   add32 e0 e, add32 f0 f, add32 g0 g, add32 h0 h).

Fixpoint blocks (fuel : nat) (s : state) (bs : list Z) : state :=
  match fuel, bs with
  | S f, _ :: _ => blocks f (compress s (firstn 64 bs)) (skipn 64 bs)
  | _, _ => s
  end.

Definition init : state :=
  match init_words with
  | [a; b; c; d; e; f; g; h] => (a, b, c, d, e, f, g, h)
  | _ => (0, 0, 0, 0, 0, 0, 0, 0)
  end.

Definition digest (msg : list Z) : list Z :=
  let p := pad msg in
  let '(a, b, c, d, e, f, g, h) := blocks (List.length p) init p in
  flat_map (be_bytes 4) [a; b; c; d; e; f; g; h].

End SHA256.

Module HMAC.

Definition block_size : nat := 64.

Definition key_block (key : list Z) : list Z :=
  let k := if (Z.of_nat block_size <? Z.of_nat (List.length key)) then SHA256.digest key else key in
  k ++ repeat 0 (block_size - List.length k)%nat.

Definition digest (key msg : list Z) : list Z :=
  let k := key_block key in
  let inner := SHA256.digest (map (Z.lxor 0x36) k ++ msg) in
  SHA256.digest (map (Z.lxor 0x5c) k ++ inner).

Definition hexdigest (key msg : list Z) : string := hex (digest key msg).

End HMAC.

(** ** Python's [int(str)] in base 10

    Leading and trailing whitespace is dropped, one sign is allowed, the
    digits may be grouped by single underscores, and more than 4300 digits
    are refused (CPython's default limit). *)

Definition is_space (c : ascii) : bool :=
  let z := code c in
  ((9 <=? z) && (z <=? 13)) || (z =? 32) || (z =? 133) || (z =? 160).

Definition is_digit (c : ascii) : bool :=
  let z := code c in (48 <=? z) && (z <=? 57).

Fixpoint lstrip (s : string) : string :=
  match s with
  | String c s' => if is_space c then lstrip s' else s
  | EmptyString => EmptyString
  end.

Fixpoint all_space (s : string) : bool :=
  match s with
  | String c s' => is_space c && all_space s'
  | EmptyString => true
  end.

(** [scan_digits s need acc n]: read digits and underscores from [s];
    [need] says that a digit must come next (at the start and after an
    underscore).  Gives the value, the number of digits and what follows. *)
Fixpoint scan_digits (s : string) (need : bool) (acc n : Z) : option (Z * Z * string) :=
  match s with
  | String c s' =>
      if is_digit c then scan_digits s' false (10 * acc + (code c - 48)) (n + 1)
      else if (code c =? 95) then
        if need then None else scan_digits s' true acc n
      else if need then None else Some (acc, n, s)
  | EmptyString => if need then None else Some (acc, n, s)
  end.

Definition max_str_digits : Z := 4300.

Definition py_int (s : string) : option Z :=
  let body := lstrip s in
  let '(sign, ds) :=
    match body with
    | String c s' =>
        if code c =? 45 then (-1, s')
        else if code c =? 43 then (1, s')
        else (1, body)
    | EmptyString => (1, body)
    end in
  match scan_digits ds true 0 0 with
  | Some (v, n, rest) =>
      if all_space rest && (n <=? max_str_digits) then Some (sign * v) else None
  | None => None
  end.

(** ** Time *)

Definition datetime : Type := Z.

Definition MIN_TIMESTAMP : Z := -62135510400.
Definition MAX_TIMESTAMP : Z := 253402300799.

(** [datetime.fromtimestamp(t)] raises outside the years 1 to 9999. *)
Definition fromtimestamp (t : Z) : option datetime :=
  if (MIN_TIMESTAMP <=? t) && (t <=? MAX_TIMESTAMP) then Some (t * 1000000) else None.

(** *** [timedelta.total_seconds()]

    The difference of two datetimes is a whole number of microseconds;
    [total_seconds()] divides it by 10^6 and rounds the quotient to the
    nearest binary64 number, ties to even.  A binary64 number is kept as
    [mantissa * 2 ^ exponent]; the quotients met here are far from the
    subnormal and the overflow range.  Comparing a float with an [int] is
    exact in Python. *)

Record binary64 : Type := { mantissa : Z; exponent : Z }.

(** [p / q] rounded to the nearest integer, ties to even ([0 <= p], [0 < q]). *)
Definition round_half_even (p q : Z) : Z :=
  let k := p / q in
  let r := p mod q in
  if 2 * r <? q then k
  else if q <? 2 * r then k + 1
  else if Z.even k then k else k + 1.

Definition us_per_second : Z := 1000000.

(** [floor (log2 (a / 10^6))] for [1 <= a], read off the quotient scaled by
    [2^60], which is at least 1. *)
Definition seconds_log2 (a : Z) : Z := Z.log2 (a * 2 ^ 60 / us_per_second) - 60.

Definition total_seconds (delta : Z) : binary64 :=
  if delta =? 0 then {| mantissa := 0; exponent := 0 |}
  else
    let a := Z.abs delta in
    let e := seconds_log2 a - 52 in
    let m := if 0 <=? e then round_half_even a (us_per_second * 2 ^ e)
             else round_half_even (a * 2 ^ (- e)) us_per_second in
    {| mantissa := Z.sgn delta * m; exponent := e |}.

Definition fabs (x : binary64) : binary64 :=
  {| mantissa := Z.abs (mantissa x); exponent := exponent x |}.

(** [x <= n] and [x > n] for a float [x] and an [int] [n]. *)
Definition float_le_int (x : binary64) (n : Z) : bool :=
  if 0 <=? exponent x then mantissa x * 2 ^ exponent x <=? n
  else mantissa x <=? n * 2 ^ (- exponent x).

Definition float_gt_int (x : binary64) (n : Z) : bool := negb (float_le_int x n).

(** [datetime.max - datetime.min] in microseconds: no two datetimes are
    farther apart. *)
Definition DATETIME_SPAN : Z := 315537897599999999.

(** [(a - b).total_seconds() <= secs], [delta] being [a - b] in
    microseconds.  For a [delta] that no two datetimes have (beyond
    [DATETIME_SPAN]) nothing is rounded. *)
Definition seconds_le (delta : Z) (secs : Z) : bool :=
  if Z.abs delta <=? DATETIME_SPAN then float_le_int (total_seconds delta) secs
  else delta <=? secs * us_per_second.

(** [abs((a - b).total_seconds()) > secs], likewise. *)
Definition abs_seconds_gt (delta : Z) (secs : Z) : bool :=
  if Z.abs delta <=? DATETIME_SPAN
  then float_gt_int (fabs (total_seconds delta)) secs
  else secs * us_per_second <? Z.abs delta.

(** ** Configuration ([server.conf]) *)

Record config : Type := {
  needRegistrationApproval : bool;
  needHWID : bool;
  needLockApproval : bool;
  lockApprovalTimeSecond : Z;
  adminToken : string;
  hmacWindow : Z
}.

(** The fallbacks of [config.get...]. *)
Definition default_config : config := {|
  needRegistrationApproval := false;
  needHWID := false;
  needLockApproval := false;
  lockApprovalTimeSecond := 30;
  adminToken := "supersecretadmin";
  hmacWindow := 5
|}.

(** ** The [devices] table *)

Record device : Type := {
  deviceId : string;
  emergencyId : string;
  emergencyState : Z;
  token : string;
  lastSeen : option datetime;
  hwid : option string;
  pendingLockTime : option datetime;
  userCanUnlock : Z
}.

Definition db : Type := list device.

Definition set_emergencyState (v : Z) (d : device) : device :=
  {| deviceId := deviceId d; emergencyId := emergencyId d; emergencyState := v;
     token := token d; lastSeen := lastSeen d; hwid := hwid d;
     pendingLockTime := pendingLockTime d; userCanUnlock := userCanUnlock d |}.

Definition set_lastSeen (v : option datetime) (d : device) : device :=
  {| deviceId := deviceId d; emergencyId := emergencyId d;
     emergencyState := emergencyState d; token := token d; lastSeen := v;
     hwid := hwid d; pendingLockTime := pendingLockTime d;
     userCanUnlock := userCanUnlock d |}.

Definition set_hwid (v : option string) (d : device) : device :=
  {| deviceId := deviceId d; emergencyId := emergencyId d;
     emergencyState := emergencyState d; token := token d;
     lastSeen := lastSeen d; hwid := v; pendingLockTime := pendingLockTime d;
     userCanUnlock := userCanUnlock d |}.

Definition set_pendingLockTime (v : option datetime) (d : device) : device :=
  {| deviceId := deviceId d; emergencyId := emergencyId d;
     emergencyState := emergencyState d; token := token d;
     lastSeen := lastSeen d; hwid := hwid d; pendingLockTime := v;
     userCanUnlock := userCanUnlock d |}.

Definition set_token (v : string) (d : device) : device :=
  {| deviceId := deviceId d; emergencyId := emergencyId d;
     emergencyState := emergencyState d; token := v;
     lastSeen := lastSeen d; hwid := hwid d;
     pendingLockTime := pendingLockTime d; userCanUnlock := userCanUnlock d |}.

Definition by_deviceId (id : string) (d : device) : bool := (deviceId d =? id)%string.
Definition by_emergencyId (id : string) (d : device) : bool := (emergencyId d =? id)%string.

(** [UPDATE devices SET ... WHERE ...] and its [rowcount]. *)
Definition update (where_ : device -> bool) (set : device -> device) (t : db) : db :=
  map (fun d => if where_ d then set d else d) t.

Definition rowcount (where_ : device -> bool) (t : db) : nat :=
  List.length (filter where_ t).

Definition get_client_device (t : db) (deviceId : string) : option device :=
  find (by_deviceId deviceId) t.

Definition get_mobile_device_by_emergency (t : db) (emergencyId : string) : option device :=
  find (by_emergencyId emergencyId) t.

(** [deviceId TEXT PRIMARY KEY]. *)
Definition primary_key (t : db) : Prop := NoDup (map deviceId t).

(** ** Exceptions and responses *)

Inductive exn : Type :=
| HTTPException (status_code : Z) (detail : string)
| TypeError.

Inductive result (A : Type) : Type :=
| Return (a : A)
| Raise (e : exn).

Arguments Return {A} a.
Arguments Raise {A} e.

Inductive response : Type :=
| JSONDetail (status_code : Z) (detail : string)
| JSONStatus (status : string)
| PlainText (body : string)
| JSONCheck (emergencyState : bool) (needLockApproval : bool) (lockApprovalTimeSecond : Z)
| JSONRegister (deviceId emergencyId token : string)
| AdminRegisterResponse (deviceId : string).

(** ** Request authentication *)

(** [hmac.compare_digest] on two [str]: both must be ASCII. *)
Definition compare_digest (a b : string) : result bool :=
  if isascii a && isascii b then Return (a =? b)%string else Raise TypeError.

Definition verify_hmac (cfg : config) (now : datetime)
    (secret timestamp signature : string) : result bool :=
  match py_int timestamp with
  | None => Return false
  | Some ts =>
      match fromtimestamp ts with
      | None => Return false
      | Some req_time =>
          if abs_seconds_gt (now - req_time) (hmacWindow cfg) then Return false
          else
            let message := timestamp in
            let expected := HMAC.hexdigest (encode secret) (encode message) in
            compare_digest expected signature
      end
  end.

Definition verifyClientAuth (cfg : config) (now : datetime) (t : db)
    (x_deviceid x_timestamp x_signature : string) : result device :=
  match get_client_device t x_deviceid with
  | None => Raise (HTTPException 401 "Device not found")
  | Some device =>
      match verify_hmac cfg now (token device) x_timestamp x_signature with
      | Raise e => Raise e
      | Return false => Raise (HTTPException 401 "Invalid HMAC signature")
      | Return true => Return device
      end
  end.

Definition verifyMobileAuth (cfg : config) (now : datetime) (t : db)
    (x_emergencyid x_timestamp x_signature : string) : result device :=
  match get_mobile_device_by_emergency t x_emergencyid with
  | None => Raise (HTTPException 401 "Device not found")
  | Some device =>
      match verify_hmac cfg now (token device) x_timestamp x_signature with
      | Raise e => Raise e
      | Return false => Raise (HTTPException 401 "Invalid HMAC signature")
      | Return true => Return device
      end
  end.

Definition verifyAdmin (cfg : config) (admin_token : string) : result unit :=
  if (admin_token =? adminToken cfg)%string then Return tt
  else Raise (HTTPException 401 "Invalid admin token").

(** ** Request bodies *)

Record ClientRegisterRequest : Type := {
  register_deviceId : option string;
  register_hwid : option string
}.

Record AdminUnlockRequest : Type := {
  unlock_deviceId : option string;
  unlock_emergencyId : option string
}.

(** The value of an optional string that Python takes as true. *)
Definition truthy (s : option string) : option string :=
  match s with
  | Some EmptyString => None
  | other => other
  end.

(** A row as [INSERT] creates it: the columns given, the others at their
    defaults. *)
Definition new_row (deviceId emergencyId token : string) (lastSeen : datetime)
    (hwid : option string) : device :=
  {| deviceId := deviceId; emergencyId := emergencyId; emergencyState := 0;
     token := token; lastSeen := Some lastSeen; hwid := hwid;
     pendingLockTime := None; userCanUnlock := 1 |}.

(** [INSERT INTO devices]: refused when the primary key is taken. *)
Definition insert (row : device) (t : db) : option db :=
  match find (by_deviceId (deviceId row)) t with
  | Some _ => None
  | None => Some (t ++ [row])%list
  end.

(** ** Handlers *)

Definition clientRegister (cfg : config) (now : datetime) (t : db)
    (requestBody : ClientRegisterRequest)
    (newDeviceId newEmergencyId newToken : string) : db * result response :=
  if needRegistrationApproval cfg then
    match truthy (register_deviceId requestBody) with
    | None =>
        (t, Raise (HTTPException 400 "deviceId is required for registration approval"))
    | Some id =>
        match find (by_deviceId id) t with
        | None => (t, Raise (HTTPException 404 "Device not pre-registered"))
        | Some _ =>
            let updated :=
              if needHWID cfg then
                match truthy (register_hwid requestBody) with
                | None => None
                | Some h =>
                    Some (update (by_deviceId id)
                            (fun d => set_hwid (Some h) (set_lastSeen (Some now) d)) t)
                end
              else Some (update (by_deviceId id) (set_lastSeen (Some now)) t) in
            match updated with
            | None => (t, Raise (HTTPException 400 "HWID is required"))
            | Some t' =>
                match get_client_device t' id with
                | None => (t', Raise TypeError)
                | Some device =>
                    (t', Return (JSONRegister (deviceId device) (emergencyId device)
                                   (token device)))
                end
            end
        end
    end
  else
    if needHWID cfg && (match truthy (register_hwid requestBody) with
                        | None => true | Some _ => false end)
    then (t, Raise (HTTPException 400 "HWID is required"))
    else
      let hwid := if needHWID cfg then register_hwid requestBody else None in
      match insert (new_row newDeviceId newEmergencyId newToken now hwid) t with
      | None => (t, Raise (HTTPException 500 "Database error"))
      | Some t' => (t', Return (JSONRegister newDeviceId newEmergencyId newToken))
      end.

Definition clientAmIOk (cfg : config) (now : datetime) (t : db) (device : device)
    : db * result response :=
  let deviceId := deviceId device in
  let t' := update (by_deviceId deviceId) (set_lastSeen (Some now)) t in
  match find (by_deviceId deviceId) t' with
  | Some row =>
      if emergencyState row =? 0 then (t', Return (JSONStatus "ok"))
      else (t', Raise (HTTPException 403 "Device marked as stolen"))
  | None => (t', Raise (HTTPException 403 "Device marked as stolen"))
  end.

Definition clientDecrypt (cfg : config) (now : datetime) (t : db) (device : device)
    : db * result response :=
  if negb (emergencyState device =? 0)
  then (t, Raise (HTTPException 403 "Device marked as stolen"))
  else (t, Return (PlainText (token device))).

Definition mobileCheck (cfg : config) (now : datetime) (t : db) (device : device)
    : db * result response :=
  (t, Return (JSONCheck (negb (emergencyState device =? 0))
                (needLockApproval cfg) (lockApprovalTimeSecond cfg))).

Definition lock_pending : response :=
  JSONDetail 201 "Lock request received. Please confirm within the approval window.".

Definition unlock_pending : response :=
  JSONDetail 201 "Unlock request received. Please confirm within the approval window.".

Definition mobileLock (cfg : config) (now : datetime) (t : db) (device : device)
    : db * result response :=
  let deviceId := deviceId device in
  match find (by_deviceId deviceId) t with
  | None => (t, Raise (HTTPException 404 "Device not found"))
  | Some row =>
      let pendingLockTime := pendingLockTime row in
      if needLockApproval cfg then
        match pendingLockTime with
        | None =>
            (update (by_deviceId deviceId) (set_pendingLockTime (Some now)) t,
             Return lock_pending)
        | Some prevTime =>
            if seconds_le (now - prevTime) (lockApprovalTimeSecond cfg) then
              (update (by_deviceId deviceId)
                 (fun d => set_lastSeen (Some now)
                             (set_pendingLockTime None (set_emergencyState 1 d))) t,
               Return (JSONDetail 200 "Device locked (stolen)"))
            else
              (update (by_deviceId deviceId) (set_pendingLockTime (Some now)) t,
               Return lock_pending)
        end
      else
        (update (by_deviceId deviceId)
           (fun d => set_lastSeen (Some now) (set_emergencyState 1 d)) t,
         Return (JSONDetail 200 "Device locked (stolen)"))
  end.

Definition mobileUnlock (cfg : config) (now : datetime) (t : db) (device : device)
    : db * result response :=
  let deviceId := deviceId device in
  if userCanUnlock device =? 0 then
    (t, Raise (HTTPException 403 "Device is not allowed to unlock"))
  else if needLockApproval cfg then
    match find (by_deviceId deviceId) t with
    | None => (t, Raise TypeError)
    | Some row =>
        match pendingLockTime row with
        | None =>
            (update (by_deviceId deviceId) (set_pendingLockTime (Some now)) t,
             Return unlock_pending)
        | Some prevTime =>
            if seconds_le (now - prevTime) (lockApprovalTimeSecond cfg) then
              (update (by_deviceId deviceId)
                 (fun d => set_lastSeen (Some now)
                             (set_pendingLockTime None (set_emergencyState 0 d))) t,
               Return (JSONDetail 200 "Device unlocked"))
            else
              (update (by_deviceId deviceId) (set_pendingLockTime None) t,
               Raise (HTTPException 408 "Unlock approval timeout. Please try again."))
        end
    end
  else
    (update (by_deviceId deviceId)
       (fun d => set_lastSeen (Some now) (set_emergencyState 0 d)) t,
     Return (JSONDetail 200 "Device unlocked")).

(** [request.headers.get("X-Admin-Token") != adminToken] *)
Definition admin_token_ok (cfg : config) (admin_token : option string) : bool :=
  match admin_token with
  | Some s => (s =? adminToken cfg)%string
  | None => false
  end.

Definition adminRegister (cfg : config) (now : datetime) (t : db)
    (admin_token : option string)
    (newDeviceId newEmergencyId newToken : string) : db * result response :=
  if negb (admin_token_ok cfg admin_token)
  then (t, Raise (HTTPException 401 "Invalid admin token"))
  else
    match insert (new_row newDeviceId newEmergencyId newToken now None) t with
    | None => (t, Raise (HTTPException 500 "Database error"))
    | Some t' => (t', Return (AdminRegisterResponse newDeviceId))
    end.

(** The [WHERE] clause [adminUnlock] picks: [emergencyId] first. *)
Definition unlock_target (unlockRequest : AdminUnlockRequest) : option (device -> bool) :=
  match truthy (unlock_emergencyId unlockRequest) with
  | Some eid => Some (by_emergencyId eid)
  | None =>
      match truthy (unlock_deviceId unlockRequest) with
      | Some id => Some (by_deviceId id)
      | None => None
      end
  end.

Definition adminUnlock (cfg : config) (now : datetime) (t : db)
    (admin_token : option string) (unlockRequest : AdminUnlockRequest)
    : db * result response :=
  if negb (admin_token_ok cfg admin_token)
  then (t, Raise (HTTPException 401 "Invalid admin token"))
  else
    match unlock_target unlockRequest with
    | None => (t, Raise (HTTPException 400 "Must provide deviceId or emergencyId"))
    | Some where_ =>
        if (rowcount where_ t =? 0)%nat
        then (t, Raise (HTTPException 404 "Device not found"))
        else
          (update where_ (fun d => set_lastSeen (Some now) (set_emergencyState 0 d)) t,
           Return (JSONDetail 200 "Device unlocked by admin"))
    end.

(** ** Routes behind [Depends(verifyClientAuth)] / [Depends(verifyMobileAuth)] *)

Inductive endpoint : Type :=
| ClientAmIOk | ClientDecrypt | MobileCheck | MobileLock | MobileUnlock.

Definition handler (e : endpoint) : config -> datetime -> db -> device -> db * result response :=
  match e with
  | ClientAmIOk => clientAmIOk
  | ClientDecrypt => clientDecrypt
  | MobileCheck => mobileCheck
  | MobileLock => mobileLock
  | MobileUnlock => mobileUnlock
  end.

Definition dependency (e : endpoint)
    : config -> datetime -> db -> string -> string -> string -> result device :=
  match e with
  | ClientAmIOk | ClientDecrypt => verifyClientAuth
  | MobileCheck | MobileLock | MobileUnlock => verifyMobileAuth
  end.

(** One request: the dependency reads the clock at [t_auth], the handler at
    [now]. *)
Definition serve (e : endpoint) (cfg : config) (t_auth now : datetime) (t : db)
    (x_id x_timestamp x_signature : string) : db * result response :=
  match dependency e cfg t_auth t x_id x_timestamp x_signature with
  | Raise ex => (t, Raise ex)
  | Return device => handler e cfg now t device
  end.

(** The lookup a route's dependency performs. *)
Definition resolver (e : endpoint) : db -> string -> option device :=
  match e with
  | ClientAmIOk | ClientDecrypt => get_client_device
  | MobileCheck | MobileLock | MobileUnlock => get_mobile_device_by_emergency
  end.

(** What the dependency of a route finds out about a request: no row, or
    the verifier's result on the row's token. *)
Definition verdict (e : endpoint) (cfg : config) (t_auth : datetime) (t : db)
    (x_id x_timestamp x_signature : string) : option (result bool) :=
  option_map (fun d => verify_hmac cfg t_auth (token d) x_timestamp x_signature)
    (resolver e t x_id).

(** A table with every token blanked: what is left when the secrets are
    ignored. *)
Definition erase_tokens (t : db) : db := map (set_token EmptyString) t.

(** ** Sample data *)

Module Sample.

Definition laptop : device := {|
  deviceId := "9f8e7d6c5b4a3921";
  emergencyId := "0a1b2c3d4e5f6071";
  emergencyState := 0;
  token := "00112233445566778899aabbccddeeff00112233445566778899aabbccddeeff";
  lastSeen := Some 1699999000000000;
  hwid := None;
  pendingLockTime := None;
  userCanUnlock := 1
|}.

Definition tablet : device := {|
  deviceId := "1122334455667788";
  emergencyId := "8877665544332211";
  emergencyState := 1;
  token := "ffeeddccbbaa99887766554433221100ffeeddccbbaa99887766554433221100";
  lastSeen := Some 1699990000000000;
  hwid := None;
  pendingLockTime := None;
  userCanUnlock := 0
|}.

(** The laptop, flagged stolen, with a first-phase request recorded at
    1700000000 s. *)
Definition laptop_pending : device :=
  set_pendingLockTime (Some 1700000000000000) (set_emergencyState 1 laptop).

(** The same with the request recorded 20 s earlier. *)
Definition laptop_stale : device :=
  set_pendingLockTime (Some 1699999980000000) (set_emergencyState 1 laptop).

(** The tablet (which may not unlock itself) with a request pending. *)
Definition tablet_pending : device :=
  set_pendingLockTime (Some 1700000000000000) tablet.
Definition tablet_stale : device :=
  set_pendingLockTime (Some 1699999980000000) tablet.

Definition table : db := [laptop; tablet].
Definition table_pending : db := [laptop_pending; tablet_pending].
Definition table_stale : db := [laptop_stale; tablet_stale].

Definition two_phase : config := {|
  needRegistrationApproval := false;
  needHWID := false;
  needLockApproval := true;
  lockApprovalTimeSecond := 30;
  adminToken := "supersecretadmin";
  hmacWindow := 5
|}.


(** Signatures made with the laptop's token. *)
Definition sig_1700000000 : string :=
  "f22862ce6d4cf456de489432c4d0a7ac207aed43587f7b62cdde6cda8549bdad".
Definition sig_1700000020 : string :=
  "0f960c06fc1108c2474e6e0133fe9b5bd4c7f536d4e3a5bdbc253c6d95cc5e9b".

(** Signatures made with the tablet's token. *)
Definition tablet_sig_1700000000 : string :=
  "b3e53fb8ddd9ceaeda3b93f27110f9d87739d9390a107765996ecb7628581325".
Definition tablet_sig_1700000020 : string :=
  "b2dd1db1d3c997ec77a6dfd89c224f3749efd59ced5111415dd9a85966ab49ce".

End Sample.

(** The columns no request may rewrite once a row exists. *)
Definition credentials (d : device) : string * string * string * Z :=
  (deviceId d, emergencyId d, token d, userCanUnlock d).

(** ** Sample requests *)

Module Scenario.

(** A fresh request stamped 1700000000 s, read by the dependency one
    second later and by the handler a little after that. *)
Definition t_auth : datetime := 1700000001000000.
Definition now : datetime := 1700000001000250.

(** The same for a request stamped 1700000020 s. *)
Definition t_auth' : datetime := 1700000021000000.
Definition now' : datetime := 1700000021000300.

Definition approval : config := {|
  needRegistrationApproval := true;
  needHWID := true;
  needLockApproval := false;
  lockApprovalTimeSecond := 30;
  adminToken := "supersecretadmin";
  hmacWindow := 5
|}.


(** Two-phase mode with both windows at 10^11 s, and a request stamped
    101700000000 s, signed with the laptop's token. *)
Definition long_window : config := {|
  needRegistrationApproval := false;
  needHWID := false;
  needLockApproval := true;
  lockApprovalTimeSecond := 100000000000;
  adminToken := "supersecretadmin";
  hmacWindow := 100000000000
|}.

Definition sig_101700000000 : string :=
  "027c337b86a58d2a8dbea535aa6c245255cd62a332711f009db70deee027ec24".

(** A phone registered by hand with the laptop's [emergencyId]. *)
Definition newDeviceId : string := "c0ffee0011223344".
Definition newToken : string :=
  "ffeeddccbbaa99887766554433221100ffeeddccbbaa99887766554433221100".

End Scenario.

(** * Properties *)

(** ** The library models against known answers *)

Example sha256_constants :
  List.length SHA256.K = 64%nat
  /\ nth 0 SHA256.K 0 = 0x428a2f98 /\ nth 63 SHA256.K 0 = 0xc67178f2
  /\ nth 0 SHA256.init_words 0 = 0x6a09e667 /\ nth 7 SHA256.init_words 0 = 0x5be0cd19.
Proof. vm_compute. repeat split. Qed.

Example sha256_abc :
  hex (SHA256.digest (encode "abc"))
  = "ba7816bf8f01cfea414140de5dae2223b00361a396177a9cb410ff61f20015ad".
Proof. vm_compute. reflexivity. Qed.

Example hmac_rfc4231_case2 :
  HMAC.hexdigest (encode "Jefe") (encode "what do ya want for nothing?")
  = "5bdcc146bf60754e6a042426089575c75a003f089d2739839dec58b964ec3843".
Proof. vm_compute. reflexivity. Qed.

Example py_int_plain : py_int "1700000000" = Some 1700000000.
Proof. reflexivity. Qed.

Example py_int_padded : py_int " -1_000 " = Some (-1000).
Proof. reflexivity. Qed.

Example py_int_rejects :
  map py_int [""; "+"; "+ 1"; "_1"; "1_"; "1__0"; "1.5"; "--1"; "12 3"; "0x10"]
  = repeat None 10.
Proof. reflexivity. Qed.

Example sample_signature :
  HMAC.hexdigest (encode (token Sample.laptop)) (encode "1700000000")
  = Sample.sig_1700000000.
Proof. vm_compute. reflexivity. Qed.

Example hmac_utf8_key :
  HMAC.hexdigest (encode (String "k" (String (chr 233) EmptyString))) (encode "1700000000")
  = "b3be0c8e2619c9a73c02ca7024a8e9e3ef5b7cea03aa67594d2637de86a41fcb".
Proof. vm_compute. reflexivity. Qed.

(** A fresh request whose signature has a character outside ASCII leaves
    [verify_hmac] by the [TypeError] of [hmac.compare_digest]. *)
Example non_ascii_signature_raises :
  verify_hmac default_config 1700000001000000 (token Sample.laptop) "1700000000"
    (String (chr 233) EmptyString)
  = Raise TypeError.
Proof. vm_compute. reflexivity. Qed.

Example fromtimestamp_range :
  fromtimestamp 253402300799 = Some 253402300799000000
  /\ fromtimestamp 253402300800 = None
  /\ fromtimestamp 300000000000 = None.
Proof. repeat split. Qed.

Example sample_request_accepted :
  verifyMobileAuth default_config 1700000002500000 Sample.table
    "0a1b2c3d4e5f6071" "1700000000" Sample.sig_1700000000
  = Return Sample.laptop.
Proof. vm_compute. reflexivity. Qed.

(** ** Tables: lookups and updates *)

Section Tables.

Variable p : device -> bool.
Variable g : device -> device.
Hypothesis p_stable : forall d, p (g d) = p d.

Lemma find_map_stable (t : db) : find p (map g t) = option_map g (find p t).
Proof.
  induction t as [|d t IH]; simpl; [reflexivity|].
  rewrite p_stable. destruct (p d); [reflexivity | exact IH].
Qed.

Lemma filter_map_stable (t : db) : filter p (map g t) = map g (filter p t).
Proof.
  induction t as [|d t IH]; simpl; [reflexivity|].
  rewrite p_stable. destruct (p d); simpl; now rewrite IH.
Qed.

End Tables.

Lemma find_update (p w : device -> bool) (f : device -> device) (t : db) :
  (forall d, p (f d) = p d) ->
  find p (update w f t) = option_map (fun d => if w d then f d else d) (find p t).
Proof.
  intros Hf. unfold update. apply find_map_stable.
  intros d. destruct (w d); [apply Hf | reflexivity].
Qed.

Lemma by_deviceId_true (k : string) (d : device) :
  by_deviceId k d = true <-> deviceId d = k.
Proof. unfold by_deviceId. apply String.eqb_eq. Qed.

Lemma by_deviceId_self (d : device) : by_deviceId (deviceId d) d = true.
Proof. now apply by_deviceId_true. Qed.

Lemma find_by_deviceId_In (k : string) (t : db) (d : device) :
  find (by_deviceId k) t = Some d -> In d t /\ deviceId d = k.
Proof.
  intros H. apply find_some in H. destruct H as [Hin Hk].
  split; [exact Hin | now apply by_deviceId_true].
Qed.

Lemma find_by_emergencyId_In (k : string) (t : db) (d : device) :
  find (by_emergencyId k) t = Some d -> In d t /\ emergencyId d = k.
Proof.
  intros H. apply find_some in H. destruct H as [Hin Hk].
  split; [exact Hin | now apply String.eqb_eq].
Qed.

Lemma In_find_by_deviceId (t : db) (d : device) :
  In d t -> exists row, find (by_deviceId (deviceId d)) t = Some row.
Proof.
  intros Hin.
  destruct (find (by_deviceId (deviceId d)) t) as [row|] eqn:E; [now exists row|].
  exfalso. pose proof (find_none _ _ E d Hin) as H.
  rewrite by_deviceId_self in H. discriminate.
Qed.

(** Under the primary key the row read back by [deviceId] is the row itself. *)
Lemma primary_key_find (t : db) (d : device) :
  primary_key t -> In d t -> find (by_deviceId (deviceId d)) t = Some d.
Proof.
  unfold primary_key.
  induction t as [|a t IH]; simpl; intros Hk Hin; [contradiction|].
  inversion Hk as [|x l Hnotin Hnodup]; subst.
  destruct (by_deviceId (deviceId d) a) eqn:E.
  - apply by_deviceId_true in E.
    destruct Hin as [->|Hin]; [reflexivity|].
    exfalso. apply Hnotin. rewrite E. now apply in_map.
  - destruct Hin as [->|Hin]; [|now apply IH].
    rewrite by_deviceId_self in E. discriminate.
Qed.

Lemma update_preserves_primary_key (w : device -> bool) (f : device -> device) (t : db) :
  (forall d, deviceId (f d) = deviceId d) ->
  primary_key t -> primary_key (update w f t).
Proof.
  intros Hf. unfold primary_key, update. rewrite map_map.
  replace (map (fun x => deviceId (if w x then f x else x)) t) with (map deviceId t);
    [trivial|].
  apply map_ext. intros d. destruct (w d); [now rewrite Hf | reflexivity].
Qed.

(** ** What a successful dependency guarantees *)

Lemma verifyMobileAuth_Return cfg now t eid ts sig device :
  verifyMobileAuth cfg now t eid ts sig = Return device ->
  get_mobile_device_by_emergency t eid = Some device
  /\ verify_hmac cfg now (token device) ts sig = Return true.
Proof.
  unfold verifyMobileAuth.
  destruct (get_mobile_device_by_emergency t eid) as [d|]; [|discriminate].
  destruct (verify_hmac cfg now (token d) ts sig) as [[|]|ex] eqn:E; try discriminate.
  intros H. injection H as <-. now split.
Qed.

Lemma verifyClientAuth_Return cfg now t id ts sig device :
  verifyClientAuth cfg now t id ts sig = Return device ->
  get_client_device t id = Some device
  /\ verify_hmac cfg now (token device) ts sig = Return true.
Proof.
  unfold verifyClientAuth.
  destruct (get_client_device t id) as [d|]; [|discriminate].
  destruct (verify_hmac cfg now (token d) ts sig) as [[|]|ex] eqn:E; try discriminate.
  intros H. injection H as <-. now split.
Qed.

Lemma verifyMobileAuth_intro cfg now t eid ts sig device :
  get_mobile_device_by_emergency t eid = Some device ->
  verify_hmac cfg now (token device) ts sig = Return true ->
  verifyMobileAuth cfg now t eid ts sig = Return device.
Proof. unfold verifyMobileAuth. intros -> ->. reflexivity. Qed.

(** The row a mobile request resolves to, after an update keyed by that
    row's [deviceId]. *)
Lemma mobile_row_after_update (t : db) (eid : string) (dev : device)
    (f : device -> device) :
  (forall d, emergencyId (f d) = emergencyId d) ->
  get_mobile_device_by_emergency t eid = Some dev ->
  get_mobile_device_by_emergency (update (by_deviceId (deviceId dev)) f t) eid
  = Some (f dev).
Proof.
  intros Hf Hfind. unfold get_mobile_device_by_emergency in *.
  rewrite find_update.
  - rewrite Hfind. simpl. now rewrite by_deviceId_self.
  - intros d. unfold by_emergencyId. now rewrite Hf.
Qed.

Lemma client_row_after_update (t : db) (id : string) (dev : device)
    (f : device -> device) :
  (forall d, deviceId (f d) = deviceId d) ->
  get_client_device t id = Some dev ->
  get_client_device (update (by_deviceId (deviceId dev)) f t) id
  = Some (f dev).
Proof.
  intros Hf Hfind. unfold get_client_device in *.
  rewrite find_update.
  - rewrite Hfind. simpl. now rewrite by_deviceId_self.
  - intros d. unfold by_deviceId. now rewrite Hf.
Qed.

Lemma mobile_row_is_device (t : db) (eid : string) (dev : device) :
  primary_key t ->
  get_mobile_device_by_emergency t eid = Some dev ->
  find (by_deviceId (deviceId dev)) t = Some dev.
Proof.
  intros Hk Hfind. apply primary_key_find; [exact Hk|].
  now apply find_by_emergencyId_In in Hfind.
Qed.

Lemma serve_authenticated_mobile (e : endpoint) cfg t_auth now t eid ts sig dev :
  dependency e = verifyMobileAuth ->
  verifyMobileAuth cfg t_auth t eid ts sig = Return dev ->
  serve e cfg t_auth now t eid ts sig = handler e cfg now t dev.
Proof. intros He Hauth. unfold serve. now rewrite He, Hauth. Qed.

Lemma serve_authenticated_client (e : endpoint) cfg t_auth now t id ts sig dev :
  dependency e = verifyClientAuth ->
  verifyClientAuth cfg t_auth t id ts sig = Return dev ->
  serve e cfg t_auth now t id ts sig = handler e cfg now t dev.
Proof. intros He Hauth. unfold serve. now rewrite He, Hauth. Qed.

(** ** Rounded seconds *)

Section Rounding.

Variables p q k : Z.
Hypothesis q_pos : 0 < q.

Lemma round_half_even_le : p <= k * q -> round_half_even p q <= k.
Proof.
  intros H. unfold round_half_even.
  pose proof (Z.div_mod p q ltac:(lia)) as E.
  pose proof (Z.mod_pos_bound p q q_pos) as B.
  assert (Hk : p / q <= k)
    by (apply Z.div_le_upper_bound; [exact q_pos | lia]).
  destruct (2 * (p mod q) <? q) eqn:E1; [assumption|].
  apply Z.ltb_ge in E1.
  assert (p / q + 1 <= k).
  { destruct (Z.eq_dec (p / q) k) as [Ek|Ek]; [|lia].
    rewrite Ek in E. nia. }
  destruct (q <? 2 * (p mod q)); [assumption|].
  destruct (Z.even (p / q)); assumption.
Qed.

Lemma round_half_even_ge : k * q <= p -> k <= round_half_even p q.
Proof.
  intros H. unfold round_half_even.
  pose proof (Z.div_mod p q ltac:(lia)) as E.
  pose proof (Z.mod_pos_bound p q q_pos) as B.
  assert (k <= p / q)
    by (apply Z.div_le_lower_bound; [exact q_pos | lia]).
  destruct (2 * (p mod q) <? q); [assumption|].
  destruct (q <? 2 * (p mod q)); [lia|].
  destruct (Z.even (p / q)); lia.
Qed.

Lemma round_half_even_above (r : Z) :
  k * q + r <= p -> q < 2 * r -> k + 1 <= round_half_even p q.
Proof.
  intros H Hr. unfold round_half_even.
  pose proof (Z.div_mod p q ltac:(lia)) as E.
  pose proof (Z.mod_pos_bound p q q_pos) as B.
  assert (Hk : k <= p / q)
    by (apply Z.div_le_lower_bound; [exact q_pos | lia]).
  destruct (Z.eq_dec (p / q) k) as [Ek|Ek].
  - rewrite Ek in E.
    assert (E1 : (2 * (p mod q) <? q) = false) by (apply Z.ltb_ge; lia).
    assert (E2 : (q <? 2 * (p mod q)) = true) by (apply Z.ltb_lt; lia).
    rewrite E1, E2. lia.
  - destruct (2 * (p mod q) <? q); [lia|].
    destruct (q <? 2 * (p mod q)); [lia|].
    destruct (Z.even (p / q)); lia.
Qed.

End Rounding.

Lemma pow2_pos (n : Z) : 0 <= n -> 0 < 2 ^ n.
Proof. intros H. apply Z.pow_pos_nonneg; lia. Qed.

(** Within the span of the datetimes the exponent of the seconds is
    negative: the float keeps a fraction. *)
Lemma seconds_log2_upper (a : Z) :
  a <= DATETIME_SPAN -> seconds_log2 a <= 38.
Proof.
  intros Ha. unfold seconds_log2.
  assert (H : a * 2 ^ 60 / us_per_second <= DATETIME_SPAN * 2 ^ 60 / us_per_second).
  { apply Z.div_le_mono; [reflexivity|].
    apply Z.mul_le_mono_nonneg_r; [|exact Ha]. apply Z.pow_nonneg. lia. }
  apply Z.log2_le_mono in H.
  replace (Z.log2 (DATETIME_SPAN * 2 ^ 60 / us_per_second)) with 98 in H
    by (vm_compute; reflexivity).
  lia.
Qed.

Lemma seconds_log2_lower (a : Z) :
  1 <= a -> 0 <= seconds_log2 a ->
  us_per_second * 2 ^ seconds_log2 a <= a.
Proof.
  intros Ha Hfl. unfold seconds_log2 in *.
  set (Q := a * 2 ^ 60 / us_per_second) in *.
  assert (HQ : 0 < Q).
  { unfold Q. apply Z.div_str_pos. split; [reflexivity|].
    unfold us_per_second.
    assert (1000000 <= 2 ^ 60) by (vm_compute; discriminate). nia. }
  destruct (Z.log2_spec Q HQ) as [Hlo _].
  assert (Hmul : us_per_second * Q <= a * 2 ^ 60)
    by (unfold Q; apply Z.mul_div_le; reflexivity).
  replace (Z.log2 Q) with ((Z.log2 Q - 60) + 60) in Hlo by lia.
  rewrite Z.pow_add_r in Hlo by lia.
  pose proof (pow2_pos 60 ltac:(lia)) as P60.
  pose proof (pow2_pos (Z.log2 Q - 60) Hfl) as Pfl.
  unfold us_per_second in *. nia.
Qed.

Section Seconds.

Variable delta secs : Z.

Lemma seconds_le_within :
  delta <= secs * 1000000 -> seconds_le delta secs = true.
Proof.
  intros H. unfold seconds_le.
  destruct (Z.abs delta <=? DATETIME_SPAN) eqn:Espan;
    [|now apply Z.leb_le].
  apply Z.leb_le in Espan.
  unfold total_seconds.
  destruct (delta =? 0) eqn:E0.
  - unfold float_le_int. simpl. apply Z.leb_le. lia.
  - apply Z.eqb_neq in E0.
    pose proof (seconds_log2_upper (Z.abs delta) Espan) as Hfl.
    set (e := seconds_log2 (Z.abs delta) - 52) in *.
    assert (He : e < 0) by lia.
    unfold float_le_int. cbn [mantissa exponent].
    assert (He' : (0 <=? e) = false) by (apply Z.leb_gt; exact He).
    rewrite He'.
    pose proof (pow2_pos (- e) ltac:(lia)) as PS.
    apply Z.leb_le.
    destruct (Z.lt_total delta 0) as [Hneg | [Hz | Hpos]]; [|contradiction|].
    + rewrite Z.sgn_neg by assumption. rewrite Z.abs_neq by lia.
      pose proof (round_half_even_ge (- delta * 2 ^ (- e)) us_per_second
                    (- (secs * 2 ^ (- e))) ltac:(reflexivity)) as R.
      unfold us_per_second in *. nia.
    + rewrite Z.sgn_pos by assumption. rewrite Z.abs_eq by lia.
      pose proof (round_half_even_le (delta * 2 ^ (- e)) us_per_second
                    (secs * 2 ^ (- e)) ltac:(reflexivity)) as R.
      unfold us_per_second in *. nia.
Qed.

Lemma seconds_le_beyond :
  0 <= secs < 2 ^ 34 -> secs * 1000000 < delta -> seconds_le delta secs = false.
Proof.
  intros [Hs0 Hs] H. unfold seconds_le.
  destruct (Z.abs delta <=? DATETIME_SPAN) eqn:Espan;
    [|now apply Z.leb_gt].
  apply Z.leb_le in Espan.
  assert (Hpos : 0 < delta) by lia.
  unfold total_seconds.
  assert (E0 : (delta =? 0) = false) by (apply Z.eqb_neq; lia).
  rewrite E0. rewrite Z.abs_eq in * by lia. rewrite Z.sgn_pos by assumption.
  pose proof (seconds_log2_upper delta Espan) as Hfl.
  set (fl := seconds_log2 delta) in *.
  assert (He : (0 <=? fl - 52) = false) by (apply Z.leb_gt; lia).
  unfold float_le_int. cbn [mantissa exponent]. rewrite He.
  replace (- (fl - 52)) with (52 - fl) by lia.
  pose proof (pow2_pos (52 - fl) ltac:(lia)) as PS.
  apply Z.leb_gt. rewrite Z.mul_1_l.
  destruct (Z.le_gt_cases fl 33) as [Hsmall | Hbig].
  - assert (HS : 2 ^ 19 <= 2 ^ (52 - fl)) by (apply Z.pow_le_mono_r; lia).
    replace (2 ^ 19) with 524288 in HS by reflexivity.
    pose proof (round_half_even_above (delta * 2 ^ (52 - fl)) us_per_second
                  (secs * 2 ^ (52 - fl)) ltac:(reflexivity) (2 ^ (52 - fl))) as R.
    unfold us_per_second in *.
    assert (secs * 2 ^ (52 - fl) + 1
            <= round_half_even (delta * 2 ^ (52 - fl)) 1000000)
      by (apply R; nia).
    lia.
  - pose proof (seconds_log2_lower delta ltac:(lia) ltac:(fold fl; lia)) as Hlow.
    fold fl in Hlow.
    assert (Hsplit : 2 ^ 52 = 2 ^ fl * 2 ^ (52 - fl)).
    { rewrite <- Z.pow_add_r by lia. f_equal. lia. }
    pose proof (pow2_pos fl ltac:(lia)) as Pfl.
    pose proof (round_half_even_ge (delta * 2 ^ (52 - fl)) us_per_second
                  (2 ^ 52) ltac:(reflexivity)) as R.
    assert (2 ^ 52 <= round_half_even (delta * 2 ^ (52 - fl)) us_per_second).
    { apply R. rewrite Hsplit. unfold us_per_second in *. nia. }
    assert (Hcap : 2 ^ 34 <= 2 ^ fl) by (apply Z.pow_le_mono_r; lia).
    assert (secs * 2 ^ (52 - fl) < 2 ^ 52) by (rewrite Hsplit; nia).
    lia.
Qed.


End Seconds.








Lemma seconds_le_exact (delta secs : Z) :
  0 <= secs < 2 ^ 34 ->
  seconds_le delta secs = (delta <=? secs * 1000000).
Proof.
  intros Hs. destruct (delta <=? secs * 1000000) eqn:E.
  - apply Z.leb_le in E. now apply seconds_le_within.
  - apply Z.leb_gt in E. now apply seconds_le_beyond.
Qed.

(** ** The branches of [mobileLock] and [mobileUnlock] *)

Section Branches.

Variable cfg : config.
Variable now : datetime.
Variable t : db.
Variable dev row : device.
Hypothesis row_read : find (by_deviceId (deviceId dev)) t = Some row.

#[local] Abbreviation rewrite_row f := (update (by_deviceId (deviceId dev)) f t).

Lemma mobileLock_single_phase :
  needLockApproval cfg = false ->
  mobileLock cfg now t dev
  = (rewrite_row (fun d => set_lastSeen (Some now) (set_emergencyState 1 d)),
     Return (JSONDetail 200 "Device locked (stolen)")).
Proof. intros Hc. unfold mobileLock. now rewrite row_read, Hc. Qed.

Lemma mobileLock_first_phase :
  needLockApproval cfg = true -> pendingLockTime row = None ->
  mobileLock cfg now t dev
  = (rewrite_row (set_pendingLockTime (Some now)), Return lock_pending).
Proof. intros Hc Hp. unfold mobileLock. now rewrite row_read, Hc, Hp. Qed.

Lemma mobileLock_confirmed (prevTime : datetime) :
  needLockApproval cfg = true -> pendingLockTime row = Some prevTime ->
  now - prevTime <= lockApprovalTimeSecond cfg * 1000000 ->
  mobileLock cfg now t dev
  = (rewrite_row (fun d => set_lastSeen (Some now)
                             (set_pendingLockTime None (set_emergencyState 1 d))),
     Return (JSONDetail 200 "Device locked (stolen)")).
Proof.
  intros Hc Hp Hw. unfold mobileLock. rewrite row_read, Hc, Hp.
  now rewrite (seconds_le_within _ _ Hw).
Qed.

Lemma mobileLock_expired (prevTime : datetime) :
  needLockApproval cfg = true -> pendingLockTime row = Some prevTime ->
  seconds_le (now - prevTime) (lockApprovalTimeSecond cfg) = false ->
  mobileLock cfg now t dev
  = (rewrite_row (set_pendingLockTime (Some now)), Return lock_pending).
Proof.
  intros Hc Hp Hw. unfold mobileLock. rewrite row_read, Hc, Hp.
  now rewrite Hw.
Qed.

Lemma mobileUnlock_single_phase :
  userCanUnlock dev <> 0 -> needLockApproval cfg = false ->
  mobileUnlock cfg now t dev
  = (rewrite_row (fun d => set_lastSeen (Some now) (set_emergencyState 0 d)),
     Return (JSONDetail 200 "Device unlocked")).
Proof.
  intros Hu Hc. unfold mobileUnlock.
  apply Z.eqb_neq in Hu as ->. now rewrite Hc.
Qed.

Lemma mobileUnlock_first_phase :
  userCanUnlock dev <> 0 -> needLockApproval cfg = true ->
  pendingLockTime row = None ->
  mobileUnlock cfg now t dev
  = (rewrite_row (set_pendingLockTime (Some now)), Return unlock_pending).
Proof.
  intros Hu Hc Hp. unfold mobileUnlock.
  apply Z.eqb_neq in Hu as ->. now rewrite Hc, row_read, Hp.
Qed.

Lemma mobileUnlock_confirmed (prevTime : datetime) :
  userCanUnlock dev <> 0 -> needLockApproval cfg = true ->
  pendingLockTime row = Some prevTime ->
  now - prevTime <= lockApprovalTimeSecond cfg * 1000000 ->
  mobileUnlock cfg now t dev
  = (rewrite_row (fun d => set_lastSeen (Some now)
                             (set_pendingLockTime None (set_emergencyState 0 d))),
     Return (JSONDetail 200 "Device unlocked")).
Proof.
  intros Hu Hc Hp Hw. unfold mobileUnlock.
  apply Z.eqb_neq in Hu as ->. rewrite Hc, row_read, Hp.
  now rewrite (seconds_le_within _ _ Hw).
Qed.

Lemma mobileUnlock_expired (prevTime : datetime) :
  userCanUnlock dev <> 0 -> needLockApproval cfg = true ->
  pendingLockTime row = Some prevTime ->
  seconds_le (now - prevTime) (lockApprovalTimeSecond cfg) = false ->
  mobileUnlock cfg now t dev
  = (rewrite_row (set_pendingLockTime None),
     Raise (HTTPException 408 "Unlock approval timeout. Please try again.")).
Proof.
  intros Hu Hc Hp Hw. unfold mobileUnlock.
  apply Z.eqb_neq in Hu as ->. rewrite Hc, row_read, Hp.
  now rewrite Hw.
Qed.

End Branches.

(** ** The lock state machine *)

(** C7: an authenticated unlock request for a device whose [userCanUnlock]
    is 0 fails with 403 "Device is not allowed to unlock", whatever
    [needLockApproval] and the pending state are, and the table is left
    exactly as it was. *)
Theorem unlock_denied_without_permission cfg t_auth now t eid ts sig dev :
  verifyMobileAuth cfg t_auth t eid ts sig = Return dev ->
  userCanUnlock dev = 0 ->
  serve MobileUnlock cfg t_auth now t eid ts sig
  = (t, Raise (HTTPException 403 "Device is not allowed to unlock")).
Proof.
  intros Hauth Hu.
  rewrite (serve_authenticated_mobile MobileUnlock _ _ _ _ _ _ _ dev eq_refl Hauth).
  simpl. unfold mobileUnlock. now rewrite Hu.
Qed.

Lemma unlock_denied_without_permission_witness :
  verifyMobileAuth Sample.two_phase 1700000001000000 Sample.table
    "8877665544332211" "1700000000" Sample.tablet_sig_1700000000 = Return Sample.tablet
  /\ userCanUnlock Sample.tablet = 0
  /\ serve MobileUnlock Sample.two_phase 1700000001000000 1700000001000250 Sample.table
       "8877665544332211" "1700000000" Sample.tablet_sig_1700000000
     = (Sample.table, Raise (HTTPException 403 "Device is not allowed to unlock")).
Proof.
  assert (Hauth : verifyMobileAuth Sample.two_phase 1700000001000000 Sample.table
            "8877665544332211" "1700000000" Sample.tablet_sig_1700000000
          = Return Sample.tablet) by (vm_compute; reflexivity).
  split; [exact Hauth|]. split; [reflexivity|].
  apply (unlock_denied_without_permission _ _ _ _ _ _ _ Sample.tablet Hauth).
  reflexivity.
Defined.

(** C2, as the code has it: with [needLockApproval] false an authenticated
    lock request sets [emergencyState] to 1, stamps [lastSeen] and answers
    200 "Device locked (stolen)"; an authenticated unlock request from a
    device that may unlock sets it to 0, stamps [lastSeen] and answers 200
    "Device unlocked".  Both leave [pendingLockTime] as it was. *)
Theorem single_phase_keeps_pending cfg t_auth now t eid ts sig dev :
  needLockApproval cfg = false ->
  verifyMobileAuth cfg t_auth t eid ts sig = Return dev ->
  (exists t' d',
      serve MobileLock cfg t_auth now t eid ts sig
      = (t', Return (JSONDetail 200 "Device locked (stolen)"))
      /\ get_mobile_device_by_emergency t' eid = Some d'
      /\ emergencyState d' = 1
      /\ lastSeen d' = Some now
      /\ pendingLockTime d' = pendingLockTime dev)
  /\ (userCanUnlock dev <> 0 ->
      exists t' d',
        serve MobileUnlock cfg t_auth now t eid ts sig
        = (t', Return (JSONDetail 200 "Device unlocked"))
        /\ get_mobile_device_by_emergency t' eid = Some d'
        /\ emergencyState d' = 0
        /\ lastSeen d' = Some now
        /\ pendingLockTime d' = pendingLockTime dev).
Proof.
  intros Hc Hauth.
  destruct (verifyMobileAuth_Return _ _ _ _ _ _ _ Hauth) as [Hfind _].
  destruct (find_by_emergencyId_In _ _ _ Hfind) as [Hin _].
  destruct (In_find_by_deviceId _ _ Hin) as [row Hrow].
  split; [|intros Hu]; eexists; eexists.
  - rewrite (serve_authenticated_mobile MobileLock _ _ _ _ _ _ _ dev eq_refl Hauth).
    simpl handler. rewrite (mobileLock_single_phase _ _ _ _ _ Hrow Hc).
    split; [reflexivity|].
    split; [apply mobile_row_after_update; [reflexivity | exact Hfind]|].
    repeat split.
  - rewrite (serve_authenticated_mobile MobileUnlock _ _ _ _ _ _ _ dev eq_refl Hauth).
    simpl handler. rewrite (mobileUnlock_single_phase _ _ _ _ Hu Hc).
    split; [reflexivity|].
    split; [apply mobile_row_after_update; [reflexivity | exact Hfind]|].
    repeat split.
Qed.

Lemma single_phase_keeps_pending_witness :
  (exists t' d',
      serve MobileLock default_config 1700000001000000 1700000001000250 Sample.table
        "0a1b2c3d4e5f6071" "1700000000" Sample.sig_1700000000
      = (t', Return (JSONDetail 200 "Device locked (stolen)"))
      /\ get_mobile_device_by_emergency t' "0a1b2c3d4e5f6071" = Some d'
      /\ emergencyState d' = 1
      /\ lastSeen d' = Some 1700000001000250
      /\ pendingLockTime d' = pendingLockTime Sample.laptop)
  /\ (exists t' d',
      serve MobileUnlock default_config 1700000001000000 1700000001000250 Sample.table
        "0a1b2c3d4e5f6071" "1700000000" Sample.sig_1700000000
      = (t', Return (JSONDetail 200 "Device unlocked"))
      /\ get_mobile_device_by_emergency t' "0a1b2c3d4e5f6071" = Some d'
      /\ emergencyState d' = 0
      /\ lastSeen d' = Some 1700000001000250
      /\ pendingLockTime d' = pendingLockTime Sample.laptop).
Proof.
  assert (Hauth : verifyMobileAuth default_config 1700000001000000 Sample.table
            "0a1b2c3d4e5f6071" "1700000000" Sample.sig_1700000000
          = Return Sample.laptop) by (vm_compute; reflexivity).
  destruct (single_phase_keeps_pending default_config 1700000001000000
              1700000001000250 Sample.table _ _ _ Sample.laptop eq_refl Hauth)
    as [Hlock Hunlock].
  split; [exact Hlock | apply Hunlock; simpl; lia].
Defined.

(** C2 as stated fails, twice over.  A lock request served with
    [needLockApproval] false is applied, yet the [pendingLockTime] the row
    carried is still there afterwards.  And an authenticated unlock request
    from a device whose [userCanUnlock] is 0 is refused with 403 and leaves
    [emergencyState] at 1. *)
Lemma single_phase_leaves_pending_and_gates_unlock :
  needLockApproval default_config = false
  /\ snd (serve MobileLock default_config 1700000001000000 1700000001000250
            [set_pendingLockTime (Some 1699999990000000) Sample.laptop; Sample.tablet]
            "0a1b2c3d4e5f6071" "1700000000" Sample.sig_1700000000)
     = Return (JSONDetail 200 "Device locked (stolen)")
  /\ option_map pendingLockTime
       (get_mobile_device_by_emergency
          (fst (serve MobileLock default_config 1700000001000000 1700000001000250
                  [set_pendingLockTime (Some 1699999990000000) Sample.laptop;
                   Sample.tablet]
                  "0a1b2c3d4e5f6071" "1700000000" Sample.sig_1700000000))
          "0a1b2c3d4e5f6071")
     = Some (Some 1699999990000000)
  /\ verifyMobileAuth default_config 1700000001000000 Sample.table
       "8877665544332211" "1700000000" Sample.tablet_sig_1700000000
     = Return Sample.tablet
  /\ serve MobileUnlock default_config 1700000001000000 1700000001000250 Sample.table
       "8877665544332211" "1700000000" Sample.tablet_sig_1700000000
     = (Sample.table, Raise (HTTPException 403 "Device is not allowed to unlock"))
  /\ emergencyState Sample.tablet = 1.
Proof. vm_compute. repeat split. Qed.

(** C6: in the two-phase branch (with [needLockApproval] true), an
    authenticated lock request, or an authenticated unlock request past
    the [userCanUnlock] gate, that finds a [pendingLockTime] no older than
    [lockApprovalTimeSecond] applies its target value to [emergencyState],
    clears [pendingLockTime], stamps [lastSeen] and answers 200. *)
Theorem confirmation_within_window cfg t_auth now t eid ts sig dev prevTime :
  primary_key t ->
  needLockApproval cfg = true ->
  verifyMobileAuth cfg t_auth t eid ts sig = Return dev ->
  pendingLockTime dev = Some prevTime ->
  now - prevTime <= lockApprovalTimeSecond cfg * 1000000 ->
  (exists t' d',
      serve MobileLock cfg t_auth now t eid ts sig
      = (t', Return (JSONDetail 200 "Device locked (stolen)"))
      /\ get_mobile_device_by_emergency t' eid = Some d'
      /\ emergencyState d' = 1
      /\ pendingLockTime d' = None
      /\ lastSeen d' = Some now)
  /\ (userCanUnlock dev <> 0 ->
      exists t' d',
        serve MobileUnlock cfg t_auth now t eid ts sig
        = (t', Return (JSONDetail 200 "Device unlocked"))
        /\ get_mobile_device_by_emergency t' eid = Some d'
        /\ emergencyState d' = 0
        /\ pendingLockTime d' = None
        /\ lastSeen d' = Some now).
Proof.
  intros Hk Hc Hauth Hp Hw.
  destruct (verifyMobileAuth_Return _ _ _ _ _ _ _ Hauth) as [Hfind _].
  pose proof (mobile_row_is_device _ _ _ Hk Hfind) as Hrow.
  split; [|intros Hu]; eexists; eexists.
  - rewrite (serve_authenticated_mobile MobileLock _ _ _ _ _ _ _ dev eq_refl Hauth).
    simpl handler. rewrite (mobileLock_confirmed _ _ _ _ _ Hrow _ Hc Hp Hw).
    split; [reflexivity|].
    split; [apply mobile_row_after_update; [reflexivity | exact Hfind]|].
    repeat split.
  - rewrite (serve_authenticated_mobile MobileUnlock _ _ _ _ _ _ _ dev eq_refl Hauth).
    simpl handler. rewrite (mobileUnlock_confirmed _ _ _ _ _ Hrow _ Hu Hc Hp Hw).
    split; [reflexivity|].
    split; [apply mobile_row_after_update; [reflexivity | exact Hfind]|].
    repeat split.
Qed.

(** C5, as the code has it: in the two-phase branch (with
    [needLockApproval] true), an authenticated request that finds the
    window expired as the code tests it, that is, the binary64 value of
    [(now - pendingLockTime).total_seconds()] exceeds
    [lockApprovalTimeSecond] (for a window from 0 to below 2^34 s: exactly
    when now - pendingLockTime > lockApprovalTimeSecond): a lock request
    rewrites [pendingLockTime] to now and answers 201 again; an unlock
    request past the [userCanUnlock] gate clears [pendingLockTime] and
    fails with 408.  Nothing else in the row changes. *)
Theorem expired_window_diverges cfg t_auth now t eid ts sig dev prevTime :
  primary_key t ->
  needLockApproval cfg = true ->
  verifyMobileAuth cfg t_auth t eid ts sig = Return dev ->
  pendingLockTime dev = Some prevTime ->
  seconds_le (now - prevTime) (lockApprovalTimeSecond cfg) = false
  \/ (0 <= lockApprovalTimeSecond cfg < 2 ^ 34
      /\ lockApprovalTimeSecond cfg * 1000000 < now - prevTime) ->
  (exists t',
      serve MobileLock cfg t_auth now t eid ts sig = (t', Return lock_pending)
      /\ get_mobile_device_by_emergency t' eid
         = Some (set_pendingLockTime (Some now) dev))
  /\ (userCanUnlock dev <> 0 ->
      exists t',
        serve MobileUnlock cfg t_auth now t eid ts sig
        = (t', Raise (HTTPException 408 "Unlock approval timeout. Please try again."))
        /\ get_mobile_device_by_emergency t' eid
           = Some (set_pendingLockTime None dev)).
Proof.
  intros Hk Hc Hauth Hp Hlate.
  assert (Hw : seconds_le (now - prevTime) (lockApprovalTimeSecond cfg) = false)
    by (destruct Hlate as [H | [Hs H]]; [exact H | now apply seconds_le_beyond]).
  destruct (verifyMobileAuth_Return _ _ _ _ _ _ _ Hauth) as [Hfind _].
  pose proof (mobile_row_is_device _ _ _ Hk Hfind) as Hrow.
  split; [|intros Hu]; eexists.
  - rewrite (serve_authenticated_mobile MobileLock _ _ _ _ _ _ _ dev eq_refl Hauth).
    simpl handler. rewrite (mobileLock_expired _ _ _ _ _ Hrow _ Hc Hp Hw).
    split; [reflexivity|].
    apply mobile_row_after_update; [reflexivity | exact Hfind].
  - rewrite (serve_authenticated_mobile MobileUnlock _ _ _ _ _ _ _ dev eq_refl Hauth).
    simpl handler. rewrite (mobileUnlock_expired _ _ _ _ _ Hrow _ Hu Hc Hp Hw).
    split; [reflexivity|].
    apply mobile_row_after_update; [reflexivity | exact Hfind].
Qed.

Lemma sample_tables_keyed :
  primary_key Sample.table
  /\ primary_key Sample.table_pending
  /\ primary_key Sample.table_stale.
Proof.
  repeat split; unfold primary_key; simpl;
    repeat constructor; simpl; intuition discriminate.
Qed.

Lemma confirmation_within_window_witness :
  (exists t' d',
      serve MobileLock Sample.two_phase 1700000021000000 1700000021000300
        Sample.table_pending "0a1b2c3d4e5f6071" "1700000020" Sample.sig_1700000020
      = (t', Return (JSONDetail 200 "Device locked (stolen)"))
      /\ get_mobile_device_by_emergency t' "0a1b2c3d4e5f6071" = Some d'
      /\ emergencyState d' = 1
      /\ pendingLockTime d' = None
      /\ lastSeen d' = Some 1700000021000300)
  /\ (exists t' d',
      serve MobileUnlock Sample.two_phase 1700000021000000 1700000021000300
        Sample.table_pending "0a1b2c3d4e5f6071" "1700000020" Sample.sig_1700000020
      = (t', Return (JSONDetail 200 "Device unlocked"))
      /\ get_mobile_device_by_emergency t' "0a1b2c3d4e5f6071" = Some d'
      /\ emergencyState d' = 0
      /\ pendingLockTime d' = None
      /\ lastSeen d' = Some 1700000021000300).
Proof.
  assert (Hauth : verifyMobileAuth Sample.two_phase 1700000021000000
            Sample.table_pending "0a1b2c3d4e5f6071" "1700000020" Sample.sig_1700000020
          = Return Sample.laptop_pending) by (vm_compute; reflexivity).
  destruct (confirmation_within_window Sample.two_phase 1700000021000000
              1700000021000300 Sample.table_pending _ _ _ Sample.laptop_pending
              1700000000000000 (proj1 (proj2 sample_tables_keyed)) eq_refl Hauth eq_refl
              ltac:(simpl; lia))
    as [Hlock Hunlock].
  split; [exact Hlock | apply Hunlock; simpl; lia].
Defined.

Lemma expired_window_diverges_witness :
  (exists t',
      serve MobileLock Sample.two_phase 1700000021000000 1700000021000300
        Sample.table_stale "0a1b2c3d4e5f6071" "1700000020" Sample.sig_1700000020
      = (t', Return lock_pending)
      /\ get_mobile_device_by_emergency t' "0a1b2c3d4e5f6071"
         = Some (set_pendingLockTime (Some 1700000021000300) Sample.laptop_stale))
  /\ (exists t',
      serve MobileUnlock Sample.two_phase 1700000021000000 1700000021000300
        Sample.table_stale "0a1b2c3d4e5f6071" "1700000020" Sample.sig_1700000020
      = (t', Raise (HTTPException 408 "Unlock approval timeout. Please try again."))
      /\ get_mobile_device_by_emergency t' "0a1b2c3d4e5f6071"
         = Some (set_pendingLockTime None Sample.laptop_stale)).
Proof.
  assert (Hauth : verifyMobileAuth Sample.two_phase 1700000021000000
            Sample.table_stale "0a1b2c3d4e5f6071" "1700000020" Sample.sig_1700000020
          = Return Sample.laptop_stale) by (vm_compute; reflexivity).
  destruct (expired_window_diverges Sample.two_phase 1700000021000000
              1700000021000300 Sample.table_stale _ _ _ Sample.laptop_stale
              1699999980000000 (proj2 (proj2 sample_tables_keyed)) eq_refl Hauth eq_refl
              ltac:(right; simpl; lia))
    as [Hlock Hunlock].
  split; [exact Hlock | apply Hunlock; simpl; lia].
Defined.

(** C5 as stated fails for a wide window.  Two-phase mode,
    [lockApprovalTimeSecond] = 10^11; the laptop may unlock and has a
    request pending since 1700000000 s; the next request is handled
    10^11 s and one microsecond later, after the window.  The quotient
    rounds to 10^11 exactly, the test [<=] succeeds, and the request is
    confirmed: the lock answers 200 instead of 201, the unlock 200
    instead of 408. *)
Lemma late_request_confirmed_by_rounding :
  needLockApproval Scenario.long_window = true
  /\ verifyMobileAuth Scenario.long_window 101700000000000000 Sample.table_pending
       "0a1b2c3d4e5f6071" "101700000000" Scenario.sig_101700000000
     = Return Sample.laptop_pending
  /\ pendingLockTime Sample.laptop_pending = Some 1700000000000000
  /\ userCanUnlock Sample.laptop_pending <> 0
  /\ lockApprovalTimeSecond Scenario.long_window * 1000000
     < 101700000000000001 - 1700000000000000
  /\ snd (serve MobileLock Scenario.long_window 101700000000000000 101700000000000001
            Sample.table_pending "0a1b2c3d4e5f6071" "101700000000"
            Scenario.sig_101700000000)
     = Return (JSONDetail 200 "Device locked (stolen)")
  /\ snd (serve MobileUnlock Scenario.long_window 101700000000000000 101700000000000001
            Sample.table_pending "0a1b2c3d4e5f6071" "101700000000"
            Scenario.sig_101700000000)
     = Return (JSONDetail 200 "Device unlocked").
Proof.
  split; [reflexivity|]. split; [vm_compute; reflexivity|].
  split; [reflexivity|]. split; [simpl; lia|]. split; [simpl; lia|].
  split; vm_compute; reflexivity.
Qed.

(** C10: [pendingLockTime] carries no direction.  From a row with no
    pending request, in two-phase mode, a first lock request and a first
    unlock request leave the very same table; on that table an unlock
    request within the window is taken as the confirmation and sets
    [emergencyState] to 0, and a lock request within the window is taken as
    the confirmation and sets it to 1. *)
Theorem pending_confirms_either_direction cfg t eid dev
    t0_auth t0 ts0 sig0 t1_auth t1 ts1 sig1 :
  primary_key t ->
  needLockApproval cfg = true ->
  verifyMobileAuth cfg t0_auth t eid ts0 sig0 = Return dev ->
  pendingLockTime dev = None ->
  userCanUnlock dev <> 0 ->
  verify_hmac cfg t1_auth (token dev) ts1 sig1 = Return true ->
  t1 - t0 <= lockApprovalTimeSecond cfg * 1000000 ->
  exists ta,
    serve MobileLock cfg t0_auth t0 t eid ts0 sig0 = (ta, Return lock_pending)
    /\ serve MobileUnlock cfg t0_auth t0 t eid ts0 sig0 = (ta, Return unlock_pending)
    /\ (exists tb d',
          serve MobileUnlock cfg t1_auth t1 ta eid ts1 sig1
          = (tb, Return (JSONDetail 200 "Device unlocked"))
          /\ get_mobile_device_by_emergency tb eid = Some d'
          /\ emergencyState d' = 0 /\ pendingLockTime d' = None)
    /\ (exists tb d',
          serve MobileLock cfg t1_auth t1 ta eid ts1 sig1
          = (tb, Return (JSONDetail 200 "Device locked (stolen)"))
          /\ get_mobile_device_by_emergency tb eid = Some d'
          /\ emergencyState d' = 1 /\ pendingLockTime d' = None).
Proof.
  intros Hk Hc Hauth Hp Hu Hsig Hw.
  destruct (verifyMobileAuth_Return _ _ _ _ _ _ _ Hauth) as [Hfind _].
  pose proof (mobile_row_is_device _ _ _ Hk Hfind) as Hrow.
  set (ta := update (by_deviceId (deviceId dev)) (set_pendingLockTime (Some t0)) t).
  set (dev1 := set_pendingLockTime (Some t0) dev).
  assert (Hfind1 : get_mobile_device_by_emergency ta eid = Some dev1)
    by (apply mobile_row_after_update; [reflexivity | exact Hfind]).
  assert (Hk1 : primary_key ta)
    by (apply update_preserves_primary_key; [reflexivity | exact Hk]).
  pose proof (mobile_row_is_device _ _ _ Hk1 Hfind1) as Hrow1.
  assert (Hauth1 : verifyMobileAuth cfg t1_auth ta eid ts1 sig1 = Return dev1)
    by (apply verifyMobileAuth_intro; [exact Hfind1 | exact Hsig]).
  exists ta. repeat split.
  - rewrite (serve_authenticated_mobile MobileLock _ _ _ _ _ _ _ dev eq_refl Hauth).
    simpl handler. now rewrite (mobileLock_first_phase _ _ _ _ _ Hrow Hc Hp).
  - rewrite (serve_authenticated_mobile MobileUnlock _ _ _ _ _ _ _ dev eq_refl Hauth).
    simpl handler. now rewrite (mobileUnlock_first_phase _ _ _ _ _ Hrow Hu Hc Hp).
  - eexists; eexists.
    rewrite (serve_authenticated_mobile MobileUnlock _ _ _ _ _ _ _ dev1 eq_refl Hauth1).
    simpl handler.
    rewrite (mobileUnlock_confirmed cfg t1 ta dev1 dev1 Hrow1 t0 Hu Hc eq_refl Hw).
    split; [reflexivity|].
    split; [apply mobile_row_after_update; [reflexivity | exact Hfind1]|].
    split; reflexivity.
  - eexists; eexists.
    rewrite (serve_authenticated_mobile MobileLock _ _ _ _ _ _ _ dev1 eq_refl Hauth1).
    simpl handler.
    rewrite (mobileLock_confirmed cfg t1 ta dev1 dev1 Hrow1 t0 Hc eq_refl Hw).
    split; [reflexivity|].
    split; [apply mobile_row_after_update; [reflexivity | exact Hfind1]|].
    split; reflexivity.
Qed.

Lemma pending_confirms_either_direction_witness :
  exists ta,
    serve MobileLock Sample.two_phase 1700000001000000 1700000001000250 Sample.table
      "0a1b2c3d4e5f6071" "1700000000" Sample.sig_1700000000 = (ta, Return lock_pending)
    /\ serve MobileUnlock Sample.two_phase 1700000001000000 1700000001000250 Sample.table
         "0a1b2c3d4e5f6071" "1700000000" Sample.sig_1700000000
       = (ta, Return unlock_pending)
    /\ (exists tb d',
          serve MobileUnlock Sample.two_phase 1700000021000000 1700000021000300 ta
            "0a1b2c3d4e5f6071" "1700000020" Sample.sig_1700000020
          = (tb, Return (JSONDetail 200 "Device unlocked"))
          /\ get_mobile_device_by_emergency tb "0a1b2c3d4e5f6071" = Some d'
          /\ emergencyState d' = 0 /\ pendingLockTime d' = None)
    /\ (exists tb d',
          serve MobileLock Sample.two_phase 1700000021000000 1700000021000300 ta
            "0a1b2c3d4e5f6071" "1700000020" Sample.sig_1700000020
          = (tb, Return (JSONDetail 200 "Device locked (stolen)"))
          /\ get_mobile_device_by_emergency tb "0a1b2c3d4e5f6071" = Some d'
          /\ emergencyState d' = 1 /\ pendingLockTime d' = None).
Proof.
  apply (pending_confirms_either_direction Sample.two_phase Sample.table
           "0a1b2c3d4e5f6071" Sample.laptop
           1700000001000000 1700000001000250 "1700000000" Sample.sig_1700000000
           1700000021000000 1700000021000300 "1700000020" Sample.sig_1700000020).
  - exact (proj1 sample_tables_keyed).
  - reflexivity.
  - vm_compute; reflexivity.
  - reflexivity.
  - simpl; lia.
  - vm_compute; reflexivity.
  - simpl; lia.
Defined.

(** ** Status checks *)

Lemma update_Forall2 (R : device -> device -> Prop) (w : device -> bool)
    (f : device -> device) (t : db) :
  (forall d, w d = true -> R d (f d)) ->
  (forall d, w d = false -> R d d) ->
  Forall2 R t (update w f t).
Proof.
  intros Hf Hid. induction t as [|d t IH]; simpl; constructor; [|exact IH].
  destruct (w d) eqn:E; [now apply Hf | now apply Hid].
Qed.

(** C9, as the code has it: an authenticated [/client/AmIOk] stamps
    [lastSeen] of the caller's row with the current time and changes no
    [emergencyState] and no [pendingLockTime] in the table (it answers "ok"
    or 403 by the row's [emergencyState]); an authenticated [/mobile/check]
    leaves the whole table as it was, [lastSeen] included. *)
Theorem status_checks_frame cfg t_auth now t x_id ts sig dev :
  (verifyClientAuth cfg t_auth t x_id ts sig = Return dev ->
   exists t',
     serve ClientAmIOk cfg t_auth now t x_id ts sig
     = (t', if emergencyState dev =? 0 then Return (JSONStatus "ok")
            else Raise (HTTPException 403 "Device marked as stolen"))
     /\ get_client_device t' x_id = Some (set_lastSeen (Some now) dev)
     /\ Forall2 (fun d d' => emergencyState d' = emergencyState d
                             /\ pendingLockTime d' = pendingLockTime d) t t')
  /\ (verifyMobileAuth cfg t_auth t x_id ts sig = Return dev ->
      serve MobileCheck cfg t_auth now t x_id ts sig
      = (t, Return (JSONCheck (negb (emergencyState dev =? 0))
                      (needLockApproval cfg) (lockApprovalTimeSecond cfg)))).
Proof.
  split; intros Hauth.
  - destruct (verifyClientAuth_Return _ _ _ _ _ _ _ Hauth) as [Hfind _].
    destruct (find_by_deviceId_In _ _ _ Hfind) as [_ Hid].
    subst x_id. eexists.
    rewrite (serve_authenticated_client ClientAmIOk _ _ _ _ _ _ _ dev eq_refl Hauth).
    simpl handler. unfold clientAmIOk.
    pose proof (client_row_after_update t (deviceId dev) dev (set_lastSeen (Some now))
                  (fun _ => eq_refl) Hfind) as Hrow.
    unfold get_client_device in Hrow at 1.
    rewrite Hrow. simpl emergencyState.
    split; [destruct (emergencyState dev =? 0); reflexivity|].
    split.
    + apply client_row_after_update; [reflexivity | exact Hfind].
    + apply update_Forall2; intros d _; split; reflexivity.
  - rewrite (serve_authenticated_mobile MobileCheck _ _ _ _ _ _ _ dev eq_refl Hauth).
    reflexivity.
Qed.

Lemma status_checks_frame_witness :
  (exists t',
     serve ClientAmIOk default_config 1700000001000000 1700000001000250 Sample.table
       "9f8e7d6c5b4a3921" "1700000000" Sample.sig_1700000000
     = (t', Return (JSONStatus "ok"))
     /\ get_client_device t' "9f8e7d6c5b4a3921"
        = Some (set_lastSeen (Some 1700000001000250) Sample.laptop)
     /\ Forall2 (fun d d' => emergencyState d' = emergencyState d
                             /\ pendingLockTime d' = pendingLockTime d)
          Sample.table t')
  /\ serve MobileCheck default_config 1700000001000000 1700000001000250 Sample.table
       "0a1b2c3d4e5f6071" "1700000000" Sample.sig_1700000000
     = (Sample.table, Return (JSONCheck false false 30)).
Proof.
  split.
  - apply (proj1 (status_checks_frame default_config 1700000001000000
                    1700000001000250 Sample.table "9f8e7d6c5b4a3921" "1700000000"
                    Sample.sig_1700000000 Sample.laptop)).
    vm_compute; reflexivity.
  - apply (proj2 (status_checks_frame default_config 1700000001000000
                    1700000001000250 Sample.table "0a1b2c3d4e5f6071" "1700000000"
                    Sample.sig_1700000000 Sample.laptop)).
    vm_compute; reflexivity.
Defined.

(** C9 as stated fails for [/mobile/check]: the request is authenticated
    and answered, and the row's [lastSeen] is the old one, not the time of
    the check. *)
Lemma mobileCheck_leaves_lastSeen :
  snd (serve MobileCheck default_config 1700000001000000 1700000001000250 Sample.table
         "0a1b2c3d4e5f6071" "1700000000" Sample.sig_1700000000)
  = Return (JSONCheck false false 30)
  /\ option_map lastSeen
       (get_mobile_device_by_emergency
          (fst (serve MobileCheck default_config 1700000001000000 1700000001000250
                  Sample.table "0a1b2c3d4e5f6071" "1700000000" Sample.sig_1700000000))
          "0a1b2c3d4e5f6071")
     = Some (Some 1699999000000000)
  /\ Some 1699999000000000 <> Some 1700000001000250.
Proof. vm_compute. repeat split. discriminate. Qed.

(** ** Admin override *)

Lemma rowcount_pos (w : device -> bool) (t : db) (d : device) :
  In d t -> w d = true -> (rowcount w t =? 0)%nat = false.
Proof.
  intros Hin Hw. unfold rowcount.
  assert (Hf : In d (filter w t)) by (apply filter_In; now split).
  destruct (filter w t); [contradiction | reflexivity].
Qed.

(** C1, as the code has it: with the configured admin token and a request
    whose identifier ([emergencyId] when given, else [deviceId]) matches a
    row, [adminUnlock] answers 200 "Device unlocked by admin"; every
    matching row gets [emergencyState] 0 and [lastSeen] now and keeps its
    [pendingLockTime], whatever it was; the other rows are untouched. *)
Theorem adminUnlock_clears_armed_keeps_pending cfg now t unlockRequest where_ :
  unlock_target unlockRequest = Some where_ ->
  (exists d, In d t /\ where_ d = true) ->
  exists t',
    adminUnlock cfg now t (Some (adminToken cfg)) unlockRequest
    = (t', Return (JSONDetail 200 "Device unlocked by admin"))
    /\ Forall2 (fun d d' =>
                  (where_ d = true ->
                   emergencyState d' = 0
                   /\ lastSeen d' = Some now
                   /\ pendingLockTime d' = pendingLockTime d)
                  /\ (where_ d = false -> d' = d)) t t'.
Proof.
  intros Htarget [d [Hin Hw]].
  unfold adminUnlock. simpl admin_token_ok. rewrite String.eqb_refl. simpl.
  rewrite Htarget, (rowcount_pos _ _ _ Hin Hw).
  eexists. split; [reflexivity|].
  apply update_Forall2; intros d0 Hd0; (split; [intros H | intros H]);
    try congruence; repeat split.
Qed.

Lemma adminUnlock_clears_armed_keeps_pending_witness :
  exists t',
    adminUnlock Sample.two_phase 1700000050000000 Sample.table_pending
      (Some "supersecretadmin")
      {| unlock_deviceId := Some "ignored"; unlock_emergencyId := Some "0a1b2c3d4e5f6071" |}
    = (t', Return (JSONDetail 200 "Device unlocked by admin"))
    /\ Forall2 (fun d d' =>
                  (by_emergencyId "0a1b2c3d4e5f6071" d = true ->
                   emergencyState d' = 0
                   /\ lastSeen d' = Some 1700000050000000
                   /\ pendingLockTime d' = pendingLockTime d)
                  /\ (by_emergencyId "0a1b2c3d4e5f6071" d = false -> d' = d))
         Sample.table_pending t'.
Proof.
  apply (adminUnlock_clears_armed_keeps_pending Sample.two_phase 1700000050000000
           Sample.table_pending
           {| unlock_deviceId := Some "ignored";
              unlock_emergencyId := Some "0a1b2c3d4e5f6071" |}
           (by_emergencyId "0a1b2c3d4e5f6071")).
  - reflexivity.
  - exists Sample.laptop_pending. split; [simpl; auto | reflexivity].
Defined.

(** C1 as stated fails: the admin token is right and the [deviceId]
    matches the laptop's row, which is armed and has a first-phase request
    pending; the override answers 200 and clears [emergencyState], and the
    row's [pendingLockTime] is still set. *)
Lemma adminUnlock_leaves_pendingLockTime :
  get_client_device Sample.table_pending "9f8e7d6c5b4a3921" = Some Sample.laptop_pending
  /\ snd (adminUnlock Sample.two_phase 1700000050000000 Sample.table_pending
            (Some (adminToken Sample.two_phase))
            {| unlock_deviceId := Some "9f8e7d6c5b4a3921"; unlock_emergencyId := None |})
     = Return (JSONDetail 200 "Device unlocked by admin")
  /\ option_map (fun d => (emergencyState d, pendingLockTime d))
       (get_client_device
          (fst (adminUnlock Sample.two_phase 1700000050000000 Sample.table_pending
                  (Some (adminToken Sample.two_phase))
                  {| unlock_deviceId := Some "9f8e7d6c5b4a3921";
                     unlock_emergencyId := None |}))
          "9f8e7d6c5b4a3921")
     = Some (0, Some 1700000000000000).
Proof. vm_compute. repeat split. Qed.

(** ** The signature verifier *)

Lemma be_bytes_are_bytes (n : nat) (x : Z) : Forall is_byte (SHA256.be_bytes n x).
Proof.
  revert x. induction n as [|n IH]; intros x; simpl; [constructor|].
  apply Forall_app. split; [apply IH|].
  constructor; [|constructor]. unfold is_byte. apply Z.mod_pos_bound. lia.
Qed.

Lemma sha256_digest_bytes (msg : list Z) : Forall is_byte (SHA256.digest msg).
Proof.
  unfold SHA256.digest.
  destruct (SHA256.blocks _ _ _) as [[[[[[[a b] c] d] e] f] g] h].
  generalize [a; b; c; d; e; f; g; h]. intros ws.
  induction ws as [|w ws IH]; [constructor|].
  cbn [flat_map]. apply Forall_app. split; [apply be_bytes_are_bytes | exact IH].
Qed.

Lemma hex_digit_ascii (z : Z) : 0 <= z < 16 -> (code (hex_digit z) <? 128) = true.
Proof.
  intros Hz.
  assert (H : z = 0 \/ z = 1 \/ z = 2 \/ z = 3 \/ z = 4 \/ z = 5 \/ z = 6 \/ z = 7
              \/ z = 8 \/ z = 9 \/ z = 10 \/ z = 11 \/ z = 12 \/ z = 13 \/ z = 14
              \/ z = 15) by lia.
  repeat (destruct H as [->|H]; [reflexivity|]). now subst.
Qed.

Lemma hex_of_bytes_ascii (bs : list Z) : Forall is_byte bs -> isascii (hex bs) = true.
Proof.
  induction 1 as [|b bs Hb _ IH]; simpl; [reflexivity|].
  unfold is_byte in Hb.
  rewrite !hex_digit_ascii, IH; [reflexivity| |].
  - apply Z.mod_pos_bound. lia.
  - split; [apply Z.div_pos; lia | apply Z.div_lt_upper_bound; lia].
Qed.

Lemma hexdigest_ascii (key msg : list Z) : isascii (HMAC.hexdigest key msg) = true.
Proof. apply hex_of_bytes_ascii. apply sha256_digest_bytes. Qed.

Lemma compare_digest_true (a b : string) :
  isascii a = true -> (compare_digest a b = Return true <-> b = a).
Proof.
  intros Ha. unfold compare_digest. rewrite Ha. simpl. split.
  - destruct (isascii b); [|discriminate].
    intros H. injection H as H. apply String.eqb_eq in H. now symmetry.
  - intros ->. now rewrite Ha, String.eqb_refl.
Qed.

Lemma fromtimestamp_Some (ts : Z) (dt : datetime) :
  fromtimestamp ts = Some dt <->
  MIN_TIMESTAMP <= ts <= MAX_TIMESTAMP /\ dt = ts * 1000000.
Proof.
  unfold fromtimestamp. split.
  - destruct ((MIN_TIMESTAMP <=? ts) && (ts <=? MAX_TIMESTAMP)) eqn:E; [|discriminate].
    apply andb_true_iff in E. destruct E as [E1 E2].
    apply Z.leb_le in E1. apply Z.leb_le in E2.
    intros H. injection H as <-. now repeat split.
  - intros [[H1 H2] ->].
    apply Z.leb_le in H1. apply Z.leb_le in H2. now rewrite H1, H2.
Qed.






(** ** Authentication failures *)

(** C4, as the code has it: on every route behind a dependency, an
    identifier that matches no row and a matching identifier whose
    timestamp or signature check returns False both fail with status 401
    and leave the table alone, but with two different details: "Device not
    found" for the first, "Invalid HMAC signature" for the second (the same
    for every failing sub-check). *)
Theorem auth_failures_share_status_only e cfg t_auth now t x_id ts sig :
  (resolver e t x_id = None ->
   serve e cfg t_auth now t x_id ts sig
   = (t, Raise (HTTPException 401 "Device not found")))
  /\ (forall dev,
        resolver e t x_id = Some dev ->
        verify_hmac cfg t_auth (token dev) ts sig = Return false ->
        serve e cfg t_auth now t x_id ts sig
        = (t, Raise (HTTPException 401 "Invalid HMAC signature")))
  /\ HTTPException 401 "Device not found" <> HTTPException 401 "Invalid HMAC signature".
Proof.
  split; [|split; [|discriminate]].
  - intros Hnone. unfold serve.
    destruct e; simpl in *; unfold verifyClientAuth, verifyMobileAuth;
      now rewrite Hnone.
  - intros dev Hsome Hbad. unfold serve.
    destruct e; simpl in *; unfold verifyClientAuth, verifyMobileAuth;
      now rewrite Hsome, Hbad.
Qed.

Lemma auth_failures_share_status_only_witness :
  serve MobileLock default_config 1700000001000000 1700000001000250 Sample.table
    "0000000000000000" "1700000000" Sample.sig_1700000000
  = (Sample.table, Raise (HTTPException 401 "Device not found"))
  /\ serve MobileLock default_config 1700000009000000 1700000009000250 Sample.table
       "0a1b2c3d4e5f6071" "1700000000" Sample.sig_1700000000
     = (Sample.table, Raise (HTTPException 401 "Invalid HMAC signature")).
Proof.
  split.
  - apply (proj1 (auth_failures_share_status_only MobileLock default_config
                    1700000001000000 1700000001000250 Sample.table
                    "0000000000000000" "1700000000" Sample.sig_1700000000)).
    reflexivity.
  - apply (proj1 (proj2 (auth_failures_share_status_only MobileLock default_config
                           1700000009000000 1700000009000250 Sample.table
                           "0a1b2c3d4e5f6071" "1700000000" Sample.sig_1700000000))
             Sample.laptop); [reflexivity | vm_compute; reflexivity].
Defined.

(** C4 as stated fails: an unknown [X-EmergencyId] and a known one with a
    stale timestamp are both refused, and the two refusals are not the
    same response. *)
Lemma unknown_id_and_bad_signature_differ :
  serve MobileCheck default_config 1700000009000000 1700000009000250 Sample.table
    "0000000000000000" "1700000000" Sample.sig_1700000000
  = (Sample.table, Raise (HTTPException 401 "Device not found"))
  /\ serve MobileCheck default_config 1700000009000000 1700000009000250 Sample.table
       "0a1b2c3d4e5f6071" "1700000000" Sample.sig_1700000000
     = (Sample.table, Raise (HTTPException 401 "Invalid HMAC signature"))
  /\ serve MobileCheck default_config 1700000009000000 1700000009000250 Sample.table
       "0000000000000000" "1700000000" Sample.sig_1700000000
     <> serve MobileCheck default_config 1700000009000000 1700000009000250 Sample.table
          "0a1b2c3d4e5f6071" "1700000000" Sample.sig_1700000000.
Proof.
  assert (H1 : serve MobileCheck default_config 1700000009000000 1700000009000250
                 Sample.table "0000000000000000" "1700000000" Sample.sig_1700000000
               = (Sample.table, Raise (HTTPException 401 "Device not found")))
    by (vm_compute; reflexivity).
  assert (H2 : serve MobileCheck default_config 1700000009000000 1700000009000250
                 Sample.table "0a1b2c3d4e5f6071" "1700000000" Sample.sig_1700000000
               = (Sample.table, Raise (HTTPException 401 "Invalid HMAC signature")))
    by (vm_compute; reflexivity).
  split; [exact H1|]. split; [exact H2|].
  rewrite H1, H2. discriminate.
Qed.

(** ** Where the token travels *)

Lemma some_inj {A : Type} (x y : A) : Some x = Some y -> x = y.
Proof. congruence. Qed.

Lemma erased_fields (d1 d2 : device) :
  set_token EmptyString d1 = set_token EmptyString d2 ->
  deviceId d1 = deviceId d2
  /\ emergencyId d1 = emergencyId d2
  /\ emergencyState d1 = emergencyState d2
  /\ pendingLockTime d1 = pendingLockTime d2
  /\ userCanUnlock d1 = userCanUnlock d2.
Proof. unfold set_token. intros H. injection H. intros. now repeat split. Qed.

Lemma erased_find (w : device -> bool) (t1 t2 : db) :
  (forall d, w (set_token EmptyString d) = w d) ->
  erase_tokens t1 = erase_tokens t2 ->
  option_map (set_token EmptyString) (find w t1)
  = option_map (set_token EmptyString) (find w t2).
Proof.
  intros Hw H. unfold erase_tokens in H.
  rewrite <- !(find_map_stable w (set_token EmptyString) Hw). now rewrite H.
Qed.

Lemma erased_rowcount (w : device -> bool) (t1 t2 : db) :
  (forall d, w (set_token EmptyString d) = w d) ->
  erase_tokens t1 = erase_tokens t2 ->
  rowcount w t1 = rowcount w t2.
Proof.
  intros Hw H. unfold rowcount, erase_tokens in *.
  rewrite <- (length_map (set_token EmptyString) (filter w t1)).
  rewrite <- (length_map (set_token EmptyString) (filter w t2)).
  rewrite <- !(filter_map_stable w (set_token EmptyString) Hw). now rewrite H.
Qed.

Lemma erased_find_pending (k : string) (t1 t2 : db) :
  erase_tokens t1 = erase_tokens t2 ->
  option_map pendingLockTime (find (by_deviceId k) t1)
  = option_map pendingLockTime (find (by_deviceId k) t2).
Proof.
  intros H. pose proof (erased_find (by_deviceId k) t1 t2 (fun _ => eq_refl) H) as E.
  destruct (find (by_deviceId k) t1) as [r1|], (find (by_deviceId k) t2) as [r2|];
    simpl in *; try discriminate; [|reflexivity].
  apply some_inj in E. f_equal. now apply erased_fields in E.
Qed.

Lemma erased_find_armed (k : string) (f : device -> device) (t1 t2 : db) :
  (forall d, emergencyState (f d) = emergencyState d) ->
  (forall d, deviceId (f d) = deviceId d) ->
  erase_tokens t1 = erase_tokens t2 ->
  option_map emergencyState (find (by_deviceId k) (update (by_deviceId k) f t1))
  = option_map emergencyState (find (by_deviceId k) (update (by_deviceId k) f t2)).
Proof.
  intros Hf Hid H.
  rewrite !find_update by (intros d; unfold by_deviceId; now rewrite Hid).
  pose proof (erased_find (by_deviceId k) t1 t2 (fun _ => eq_refl) H) as E.
  destruct (find (by_deviceId k) t1) as [r1|], (find (by_deviceId k) t2) as [r2|];
    simpl in *; try discriminate; [|reflexivity].
  apply some_inj in E. apply erased_fields in E. f_equal.
  destruct (by_deviceId k r1), (by_deviceId k r2); rewrite ?Hf; tauto.
Qed.

(** The handlers other than [clientDecrypt] answer without looking at a
    token. *)
Lemma handler_token_blind (e : endpoint) cfg now t1 t2 d1 d2 :
  e <> ClientDecrypt ->
  erase_tokens t1 = erase_tokens t2 ->
  set_token EmptyString d1 = set_token EmptyString d2 ->
  snd (handler e cfg now t1 d1) = snd (handler e cfg now t2 d2).
Proof.
  intros He Ht Hd.
  destruct (erased_fields _ _ Hd) as (Hid & _ & Harmed & _ & Hcan).
  destruct e; simpl handler; try congruence.
  - unfold clientAmIOk. rewrite <- Hid.
    pose proof (erased_find_armed (deviceId d1) (set_lastSeen (Some now)) t1 t2
                  (fun _ => eq_refl) (fun _ => eq_refl) Ht) as E.
    destruct (find _ (update _ _ t1)) as [r1|], (find _ (update _ _ t2)) as [r2|];
      simpl in *; try discriminate; [|reflexivity].
    injection E as ->. now destruct (emergencyState r2 =? 0).
  - unfold mobileCheck. simpl. now rewrite Harmed.
  - unfold mobileLock. rewrite <- Hid.
    pose proof (erased_find_pending (deviceId d1) t1 t2 Ht) as E.
    destruct (find _ t1) as [r1|], (find _ t2) as [r2|];
      simpl in *; try discriminate; [|reflexivity].
    injection E as ->.
    destruct (needLockApproval cfg); [|reflexivity].
    destruct (pendingLockTime r2) as [prev|]; [|reflexivity].
    now destruct (seconds_le _ _).
  - unfold mobileUnlock. rewrite <- Hid, <- Hcan.
    destruct (userCanUnlock d1 =? 0); [reflexivity|].
    destruct (needLockApproval cfg); [|reflexivity].
    pose proof (erased_find_pending (deviceId d1) t1 t2 Ht) as E.
    destruct (find _ t1) as [r1|], (find _ t2) as [r2|];
      simpl in *; try discriminate; [|reflexivity].
    injection E as ->.
    destruct (pendingLockTime r2) as [prev|]; [|reflexivity].
    now destruct (seconds_le _ _).
Qed.

Lemma resolver_token_blind (e : endpoint) (t1 t2 : db) (x_id : string) :
  erase_tokens t1 = erase_tokens t2 ->
  option_map (set_token EmptyString) (resolver e t1 x_id)
  = option_map (set_token EmptyString) (resolver e t2 x_id).
Proof.
  intros H. destruct e; simpl;
    unfold get_client_device, get_mobile_device_by_emergency;
    apply erased_find; trivial.
Qed.

Lemma dependency_Return (e : endpoint) cfg now t x_id ts sig dev :
  dependency e cfg now t x_id ts sig = Return dev -> resolver e t x_id = Some dev.
Proof.
  destruct e; simpl; intros H;
    first [ now apply verifyClientAuth_Return in H
          | now apply verifyMobileAuth_Return in H ].
Qed.

(** Self-registration answers with the token it has just drawn. *)
Lemma clientRegister_sends_token cfg now t requestBody id eid tok t' r :
  needRegistrationApproval cfg = false ->
  clientRegister cfg now t requestBody id eid tok = (t', Return r) ->
  r = JSONRegister id eid tok.
Proof.
  intros Hc. unfold clientRegister. rewrite Hc.
  destruct (needHWID cfg && _); [discriminate|].
  destruct (insert _ t); [|discriminate]. congruence.
Qed.

Lemma dependency_unfold (e : endpoint) cfg t_auth t x_id ts sig :
  dependency e cfg t_auth t x_id ts sig
  = match resolver e t x_id with
    | None => Raise (HTTPException 401 "Device not found")
    | Some d =>
        match verify_hmac cfg t_auth (token d) ts sig with
        | Raise ex => Raise ex
        | Return false => Raise (HTTPException 401 "Invalid HMAC signature")
        | Return true => Return d
        end
    end.
Proof. destruct e; reflexivity. Qed.

Lemma verify_hmac_Raise cfg now secret ts sig ex :
  verify_hmac cfg now secret ts sig = Raise ex -> ex = TypeError.
Proof.
  unfold verify_hmac, compare_digest.
  destruct (py_int ts) as [n|]; [|discriminate].
  destruct (fromtimestamp n) as [req|]; [|discriminate].
  destruct (abs_seconds_gt _ _); [discriminate|].
  destruct (isascii _ && isascii sig); [discriminate|].
  intros H. now injection H as <-.
Qed.

(** C8, as the code has it: take two tables that agree on everything but
    the tokens.  Whenever the dependency reaches the same verdict on both
    (no such row, accepted, rejected, or [TypeError]), the request gets
    the same response on both from every route behind a dependency,
    refusals included; the one exception is the body of a successful
    [/client/decrypt], which is the caller's token.  A refusal by a
    dependency is one of three fixed exceptions.  [/admin/unlock] and
    [/admin/register] answer the same on both tables, the latter whatever
    token it has just drawn.  So besides [/client/register], the one
    response that carries the token is that of [/client/decrypt] for a
    device that is not flagged stolen. *)
Theorem token_leaves_only_by_decrypt cfg t_auth now t1 t2 :
  erase_tokens t1 = erase_tokens t2 ->
  (forall e x_id ts sig1 sig2,
      verdict e cfg t_auth t1 x_id ts sig1 = verdict e cfg t_auth t2 x_id ts sig2 ->
      snd (serve e cfg t_auth now t1 x_id ts sig1)
      = snd (serve e cfg t_auth now t2 x_id ts sig2)
      \/ (e = ClientDecrypt
          /\ exists d1 d2,
               snd (serve e cfg t_auth now t1 x_id ts sig1)
               = Return (PlainText (token d1))
               /\ snd (serve e cfg t_auth now t2 x_id ts sig2)
                  = Return (PlainText (token d2))))
  /\ (forall e x_id ts sig ex,
        dependency e cfg t_auth t1 x_id ts sig = Raise ex ->
        ex = HTTPException 401 "Device not found"
        \/ ex = HTTPException 401 "Invalid HMAC signature"
        \/ ex = TypeError)
  /\ (forall admin_token unlockRequest,
        snd (adminUnlock cfg now t1 admin_token unlockRequest)
        = snd (adminUnlock cfg now t2 admin_token unlockRequest))
  /\ (forall admin_token newDeviceId newEmergencyId newToken1 newToken2,
        snd (adminRegister cfg now t1 admin_token newDeviceId newEmergencyId newToken1)
        = snd (adminRegister cfg now t2 admin_token newDeviceId newEmergencyId newToken2))
  /\ (forall d, emergencyState d = 0 ->
        clientDecrypt cfg now t1 d = (t1, Return (PlainText (token d)))).
Proof.
  intros Ht. split; [|split; [|repeat split]].
  - intros e x_id ts sig1 sig2 Hv.
    pose proof (resolver_token_blind e t1 t2 x_id Ht) as Hr.
    unfold verdict in Hv. unfold serve. rewrite !dependency_unfold.
    destruct (resolver e t1 x_id) as [d1|], (resolver e t2 x_id) as [d2|];
      simpl in Hr, Hv; try discriminate; [|now left].
    apply some_inj in Hr. apply some_inj in Hv. rewrite Hv.
    destruct (verify_hmac cfg t_auth (token d2) ts sig2) as [[|]|ex];
      [|now left|now left].
    destruct e;
      try (left; apply handler_token_blind; [discriminate | exact Ht | exact Hr]).
    simpl handler. unfold clientDecrypt.
    destruct (erased_fields _ _ Hr) as (_ & _ & Harmed & _).
    rewrite Harmed. destruct (negb (emergencyState d2 =? 0)); [now left|].
    right. split; [reflexivity|]. now exists d1, d2.
  - intros e x_id ts sig ex. rewrite dependency_unfold.
    destruct (resolver e t1 x_id) as [d|].
    + destruct (verify_hmac cfg t_auth (token d) ts sig) as [[|]|ex'] eqn:E;
        intros H; try discriminate; injection H as <-; [now right; left|].
      right; right. now apply verify_hmac_Raise in E.
    + intros H. injection H as <-. now left.
  - intros admin_token unlockRequest. unfold adminUnlock.
    destruct (negb (admin_token_ok cfg admin_token)); [reflexivity|].
    destruct (unlock_target unlockRequest) as [w|] eqn:Ew; [|reflexivity].
    assert (Hw : forall d, w (set_token EmptyString d) = w d).
    { unfold unlock_target in Ew.
      destruct (truthy (unlock_emergencyId unlockRequest));
        [|destruct (truthy (unlock_deviceId unlockRequest)); [|discriminate]];
        injection Ew as <-; reflexivity. }
    rewrite (erased_rowcount w t1 t2 Hw Ht).
    now destruct (rowcount w t2 =? 0)%nat.
  - intros admin_token newDeviceId newEmergencyId newToken1 newToken2.
    unfold adminRegister.
    destruct (negb (admin_token_ok cfg admin_token)); [reflexivity|].
    unfold insert. simpl deviceId.
    pose proof (erased_find (by_deviceId newDeviceId) t1 t2 (fun _ => eq_refl) Ht) as E.
    destruct (find _ t1), (find _ t2); simpl in E; try discriminate; reflexivity.
  - intros d Hd. unfold clientDecrypt. now rewrite Hd.
Qed.

(** Two requests on two tables that differ in the laptop's token: one
    refused on both with a stale timestamp, one accepted on both with the
    signature that fits each token. *)
Lemma token_leaves_only_by_decrypt_witness :
  snd (serve MobileLock Sample.two_phase 1700000009000000 1700000009000250
         Sample.table "0a1b2c3d4e5f6071" "1700000000" Sample.sig_1700000000)
  = snd (serve MobileLock Sample.two_phase 1700000009000000 1700000009000250
           [set_token (token Sample.tablet) Sample.laptop; Sample.tablet]
           "0a1b2c3d4e5f6071" "1700000000" Sample.sig_1700000000)
  /\ snd (serve MobileLock Sample.two_phase 1700000001000000 1700000001000250
            Sample.table "0a1b2c3d4e5f6071" "1700000000" Sample.sig_1700000000)
     = snd (serve MobileLock Sample.two_phase 1700000001000000 1700000001000250
              [set_token (token Sample.tablet) Sample.laptop; Sample.tablet]
              "0a1b2c3d4e5f6071" "1700000000" Sample.tablet_sig_1700000000).
Proof.
  split.
  - destruct (proj1 (token_leaves_only_by_decrypt Sample.two_phase 1700000009000000
                       1700000009000250 Sample.table
                       [set_token (token Sample.tablet) Sample.laptop; Sample.tablet]
                       eq_refl)
                MobileLock "0a1b2c3d4e5f6071" "1700000000"
                Sample.sig_1700000000 Sample.sig_1700000000
                ltac:(vm_compute; reflexivity)) as [H | [H _]];
      [exact H | discriminate H].
  - destruct (proj1 (token_leaves_only_by_decrypt Sample.two_phase 1700000001000000
                       1700000001000250 Sample.table
                       [set_token (token Sample.tablet) Sample.laptop; Sample.tablet]
                       eq_refl)
                MobileLock "0a1b2c3d4e5f6071" "1700000000"
                Sample.sig_1700000000 Sample.tablet_sig_1700000000
                ltac:(vm_compute; reflexivity)) as [H | [H _]];
      [exact H | discriminate H].
Defined.

(** C8 as stated fails: [/client/decrypt] is not a registration, and its
    response to an authenticated device that is not flagged stolen is that
    device's token. *)
Lemma clientDecrypt_sends_token :
  emergencyState Sample.laptop = 0
  /\ serve ClientDecrypt default_config 1700000001000000 1700000001000250 Sample.table
       "9f8e7d6c5b4a3921" "1700000000" Sample.sig_1700000000
     = (Sample.table, Return (PlainText (token Sample.laptop))).
Proof. split; vm_compute; reflexivity. Qed.

(** * Further properties of the handlers *)

(** ** What a request can do to the table *)

Lemma update_id (w : device -> bool) (t : db) : update w (fun d => d) t = t.
Proof.
  unfold update. induction t as [|d t IH]; simpl; [reflexivity|].
  rewrite IH. now destruct (w d).
Qed.

Lemma serve_cases (e : endpoint) cfg t_auth now t x_id ts sig :
  (exists ex, dependency e cfg t_auth t x_id ts sig = Raise ex
              /\ serve e cfg t_auth now t x_id ts sig = (t, Raise ex))
  \/ (exists dev, dependency e cfg t_auth t x_id ts sig = Return dev
                  /\ serve e cfg t_auth now t x_id ts sig = handler e cfg now t dev).
Proof.
  unfold serve. destruct (dependency e cfg t_auth t x_id ts sig) as [dev|ex].
  - right. now exists dev.
  - left. now exists ex.
Qed.

(** Every handler rewrites the rows of the caller's [deviceId] by one row
    function, which keeps the credentials and [hwid] and moves
    [emergencyState] only the way the route says. *)
Lemma handler_is_update (e : endpoint) cfg now t dev :
  exists f,
    fst (handler e cfg now t dev) = update (by_deviceId (deviceId dev)) f t
    /\ (forall d, credentials (f d) = credentials d)
    /\ (forall d, hwid (f d) = hwid d)
    /\ (forall d, emergencyState (f d) = emergencyState d
                  \/ (emergencyState (f d) = 1 /\ e = MobileLock)
                  \/ (emergencyState (f d) = 0 /\ e = MobileUnlock
                      /\ userCanUnlock dev <> 0)).
Proof.
  assert (Hid : exists f,
             t = update (by_deviceId (deviceId dev)) f t
             /\ (forall d, credentials (f d) = credentials d)
             /\ (forall d, hwid (f d) = hwid d)
             /\ (forall d, emergencyState (f d) = emergencyState d
                  \/ (emergencyState (f d) = 1 /\ e = MobileLock)
                  \/ (emergencyState (f d) = 0 /\ e = MobileUnlock
                      /\ userCanUnlock dev <> 0))).
  { exists (fun d => d). rewrite update_id. repeat split; auto. }
  destruct e; simpl handler.
  - unfold clientAmIOk.
    exists (set_lastSeen (Some now)). split.
    + now destruct (find _ _) as [row|]; [destruct (emergencyState row =? 0)|].
    + repeat split; auto.
  - unfold clientDecrypt. now destruct (negb _).
  - exact Hid.
  - unfold mobileLock.
    destruct (find _ t) as [row|]; [|exact Hid].
    destruct (needLockApproval cfg);
      [destruct (pendingLockTime row) as [prev|];
       [destruct (seconds_le _ _)|]|];
      eexists; (split; [reflexivity|]); repeat split; simpl; auto.
  - unfold mobileUnlock.
    destruct (userCanUnlock dev =? 0) eqn:Eu; [exact Hid|].
    apply Z.eqb_neq in Eu.
    destruct (needLockApproval cfg);
      [destruct (find _ t) as [row|]; [|exact Hid];
       destruct (pendingLockTime row) as [prev|];
       [destruct (seconds_le _ _)|]|];
      eexists; (split; [reflexivity|]); repeat split; simpl; auto.
Qed.

Lemma insert_Some (row : device) (t t' : db) :
  insert row t = Some t' ->
  t' = (t ++ [row])%list /\ find (by_deviceId (deviceId row)) t = None.
Proof.
  unfold insert. destruct (find _ t) eqn:E; [discriminate|].
  intros H. injection H as <-. now split.
Qed.

Lemma find_None_not_In (k : string) (t : db) :
  find (by_deviceId k) t = None -> ~ In k (map deviceId t).
Proof.
  intros Hnone Hin. apply in_map_iff in Hin. destruct Hin as [d [Hk Hd]].
  pose proof (find_none _ _ Hnone d Hd) as H.
  apply not_true_iff_false in H. apply H. now apply by_deviceId_true.
Qed.

Lemma insert_preserves_primary_key (row : device) (t t' : db) :
  insert row t = Some t' -> primary_key t -> primary_key t'.
Proof.
  intros Hins Hk. apply insert_Some in Hins. destruct Hins as [-> Hnone].
  unfold primary_key in *. rewrite map_app. simpl.
  rewrite <- (rev_involutive (map deviceId t ++ [deviceId row])).
  apply NoDup_rev. rewrite rev_app_distr. simpl.
  constructor.
  - intros Hin. apply in_rev in Hin. now apply find_None_not_In in Hnone.
  - now apply NoDup_rev.
Qed.

Lemma update_Forall2_In (R : device -> device -> Prop) (w : device -> bool)
    (f : device -> device) (t : db) :
  (forall d, In d t -> w d = true -> R d (f d)) ->
  (forall d, In d t -> w d = false -> R d d) ->
  Forall2 R t (update w f t).
Proof.
  induction t as [|d t IH]; simpl; intros Hf Hid; constructor.
  - destruct (w d) eqn:E; [apply Hf | apply Hid]; auto.
  - apply IH; intros d0 Hin; [apply Hf | apply Hid]; auto.
Qed.

Lemma Forall2_same (R : device -> device -> Prop) (t : db) :
  (forall d, R d d) -> Forall2 R t t.
Proof. intros HR. induction t; constructor; auto. Qed.

Lemma primary_key_inj (t : db) (d1 d2 : device) :
  primary_key t -> In d1 t -> In d2 t -> deviceId d1 = deviceId d2 -> d1 = d2.
Proof.
  intros Hk H1 H2 Heq.
  pose proof (primary_key_find t d1 Hk H1) as F1.
  pose proof (primary_key_find t d2 Hk H2) as F2.
  rewrite Heq in F1. congruence.
Qed.

Lemma map_credentials_update (w : device -> bool) (f : device -> device) (t : db) :
  (forall d, credentials (f d) = credentials d) ->
  map credentials (update w f t) = map credentials t.
Proof.
  intros Hf. unfold update. rewrite map_map. apply map_ext.
  intros d. destruct (w d); [apply Hf | reflexivity].
Qed.

Lemma map_deviceId_credentials (t1 t2 : db) :
  map credentials t1 = map credentials t2 -> map deviceId t1 = map deviceId t2.
Proof.
  intros H.
  assert (E : forall t, map deviceId t = map (fun c => fst (fst (fst c))) (map credentials t))
    by (intros t; rewrite map_map; reflexivity).
  now rewrite !E, H.
Qed.

Lemma dependency_In (e : endpoint) cfg now t x_id ts sig dev :
  dependency e cfg now t x_id ts sig = Return dev -> In dev t.
Proof.
  intros H. apply dependency_Return in H.
  destruct e; simpl in H;
    first [ now apply find_by_deviceId_In in H
          | now apply find_by_emergencyId_In in H ].
Qed.

(** X2: no authenticated route and no admin unlock ever rewrites a row's
    [deviceId], [emergencyId], [token] or [userCanUnlock]; the two
    registrations leave those columns of the existing rows alone and at
    most append one row. *)
Theorem credentials_are_never_rewritten cfg t_auth now t :
  (forall e x_id ts sig,
      map credentials (fst (serve e cfg t_auth now t x_id ts sig)) = map credentials t)
  /\ (forall admin_token unlockRequest,
        map credentials (fst (adminUnlock cfg now t admin_token unlockRequest))
        = map credentials t)
  /\ (forall requestBody id eid tok,
        map credentials (fst (clientRegister cfg now t requestBody id eid tok))
        = map credentials t
        \/ map credentials (fst (clientRegister cfg now t requestBody id eid tok))
           = (map credentials t ++ [(id, eid, tok, 1)])%list)
  /\ (forall admin_token id eid tok,
        map credentials (fst (adminRegister cfg now t admin_token id eid tok))
        = map credentials t
        \/ map credentials (fst (adminRegister cfg now t admin_token id eid tok))
           = (map credentials t ++ [(id, eid, tok, 1)])%list).
Proof.
  repeat split.
  - intros e x_id ts sig.
    destruct (serve_cases e cfg t_auth now t x_id ts sig)
      as [[ex [_ ->]] | [dev [_ ->]]]; [reflexivity|].
    destruct (handler_is_update e cfg now t dev) as [f [-> [Hf _]]].
    now apply map_credentials_update.
  - intros admin_token unlockRequest. unfold adminUnlock.
    destruct (negb _); [reflexivity|].
    destruct (unlock_target unlockRequest) as [w|]; [|reflexivity].
    destruct (rowcount w t =? 0)%nat; [reflexivity|].
    simpl. now apply map_credentials_update.
  - intros requestBody id eid tok. unfold clientRegister.
    destruct (needRegistrationApproval cfg).
    + left.
      destruct (truthy (register_deviceId requestBody)) as [k|]; [|reflexivity].
      destruct (find (by_deviceId k) t); [|reflexivity].
      destruct (needHWID cfg);
        [destruct (truthy (register_hwid requestBody)); [|reflexivity]|];
        (destruct (get_client_device _ k); simpl;
         now apply map_credentials_update).
    + destruct (needHWID cfg && _); [now left|].
      destruct (insert _ t) as [t'|] eqn:E; [|now left].
      right. apply insert_Some in E. destruct E as [-> _].
      simpl. now rewrite map_app.
  - intros admin_token id eid tok. unfold adminRegister.
    destruct (negb _); [now left|].
    destruct (insert _ t) as [t'|] eqn:E; [|now left].
    right. apply insert_Some in E. destruct E as [-> _].
    simpl. now rewrite map_app.
Qed.

(** X1: the primary key survives every request: behind each route, after
    either registration and after an admin unlock, no two rows share a
    [deviceId] if none did before. *)
Theorem every_request_keeps_primary_key cfg t_auth now t :
  primary_key t ->
  (forall e x_id ts sig, primary_key (fst (serve e cfg t_auth now t x_id ts sig)))
  /\ (forall requestBody id eid tok,
        primary_key (fst (clientRegister cfg now t requestBody id eid tok)))
  /\ (forall admin_token id eid tok,
        primary_key (fst (adminRegister cfg now t admin_token id eid tok)))
  /\ (forall admin_token unlockRequest,
        primary_key (fst (adminUnlock cfg now t admin_token unlockRequest))).
Proof.
  intros Hk. repeat split.
  - intros e x_id ts sig.
    destruct (serve_cases e cfg t_auth now t x_id ts sig)
      as [[ex [_ ->]] | [dev [_ ->]]]; [exact Hk|].
    destruct (handler_is_update e cfg now t dev) as [f [-> [Hf _]]].
    apply update_preserves_primary_key; [|exact Hk].
    intros d. now pose proof (f_equal (fun c => fst (fst (fst c))) (Hf d)).
  - intros requestBody id eid tok. unfold clientRegister.
    destruct (needRegistrationApproval cfg).
    + destruct (truthy (register_deviceId requestBody)) as [k|]; [|exact Hk].
      destruct (find (by_deviceId k) t); [|exact Hk].
      destruct (needHWID cfg);
        [destruct (truthy (register_hwid requestBody)); [|exact Hk]|];
        (destruct (get_client_device _ k); simpl;
         now apply update_preserves_primary_key).
    + destruct (needHWID cfg && _); [exact Hk|].
      destruct (insert _ t) as [t'|] eqn:E; [|exact Hk].
      simpl. now apply (insert_preserves_primary_key _ _ _ E).
  - intros admin_token id eid tok. unfold adminRegister.
    destruct (negb _); [exact Hk|].
    destruct (insert _ t) as [t'|] eqn:E; [|exact Hk].
    simpl. now apply (insert_preserves_primary_key _ _ _ E).
  - intros admin_token unlockRequest. unfold adminUnlock.
    destruct (negb _); [exact Hk|].
    destruct (unlock_target unlockRequest) as [w|]; [|exact Hk].
    destruct (rowcount w t =? 0)%nat; [exact Hk|].
    simpl. now apply update_preserves_primary_key.
Qed.

Lemma every_request_keeps_primary_key_witness :
  primary_key (fst (serve MobileLock Sample.two_phase Scenario.t_auth Scenario.now
                      Sample.table "0a1b2c3d4e5f6071" "1700000000" Sample.sig_1700000000))
  /\ primary_key (fst (clientRegister default_config Scenario.now Sample.table
                         {| register_deviceId := None; register_hwid := None |}
                         Scenario.newDeviceId "0a1b2c3d4e5f6071" Scenario.newToken)).
Proof.
  pose proof (every_request_keeps_primary_key Sample.two_phase Scenario.t_auth
                Scenario.now Sample.table (proj1 sample_tables_keyed)) as [H1 _].
  pose proof (every_request_keeps_primary_key default_config Scenario.t_auth
                Scenario.now Sample.table (proj1 sample_tables_keyed)) as [_ [H2 _]].
  split; [apply H1 | apply H2].
Defined.

(** X3: an authenticated request changes only rows that carry the caller's
    [deviceId]; every other row comes back as it was. *)
Theorem request_touches_only_the_caller e cfg t_auth now t x_id ts sig dev :
  dependency e cfg t_auth t x_id ts sig = Return dev ->
  Forall2 (fun d d' => deviceId d <> deviceId dev -> d' = d)
    t (fst (serve e cfg t_auth now t x_id ts sig)).
Proof.
  intros Hauth. unfold serve. rewrite Hauth.
  destruct (handler_is_update e cfg now t dev) as [f [-> _]].
  apply update_Forall2.
  - intros d Hw Hneq. apply by_deviceId_true in Hw. contradiction.
  - reflexivity.
Qed.

Lemma request_touches_only_the_caller_witness :
  Forall2 (fun d d' => deviceId d <> deviceId Sample.laptop -> d' = d)
    Sample.table
    (fst (serve MobileLock default_config Scenario.t_auth Scenario.now Sample.table
            "0a1b2c3d4e5f6071" "1700000000" Sample.sig_1700000000)).
Proof.
  apply (request_touches_only_the_caller MobileLock default_config Scenario.t_auth
           Scenario.now Sample.table "0a1b2c3d4e5f6071" "1700000000"
           Sample.sig_1700000000 Sample.laptop).
  vm_compute; reflexivity.
Defined.

Lemma update_length (w : device -> bool) (f : device -> device) (t : db) :
  List.length (update w f t) = List.length t.
Proof. unfold update. apply length_map. Qed.

Lemma firstn_update (w : device -> bool) (f : device -> device) (t : db) :
  firstn (List.length t) (update w f t) = update w f t.
Proof. rewrite <- (update_length w f t). apply firstn_all. Qed.

Lemma firstn_appended (t : db) (row : device) :
  firstn (List.length t) (t ++ [row])%list = t.
Proof.
  rewrite firstn_app, Nat.sub_diag, firstn_all. simpl. apply app_nil_r.
Qed.

(** X4: a row whose [userCanUnlock] is 0 and whose [emergencyState] is not
    0 keeps a non-zero [emergencyState] through any request to any route
    other than [/admin/unlock]: the five routes behind a dependency,
    accepted or refused, and both registrations (whose new row, if any,
    comes after the rows compared). *)
Theorem unlock_forbidden_rows_stay_armed cfg t_auth now t :
  primary_key t ->
  (forall e x_id ts sig,
      Forall2 (fun d d' => userCanUnlock d = 0 -> emergencyState d <> 0 ->
                           emergencyState d' <> 0)
        t (fst (serve e cfg t_auth now t x_id ts sig)))
  /\ (forall requestBody id eid tok,
        Forall2 (fun d d' => userCanUnlock d = 0 -> emergencyState d <> 0 ->
                             emergencyState d' <> 0)
          t (firstn (List.length t)
               (fst (clientRegister cfg now t requestBody id eid tok))))
  /\ (forall admin_token id eid tok,
        Forall2 (fun d d' => userCanUnlock d = 0 -> emergencyState d <> 0 ->
                             emergencyState d' <> 0)
          t (firstn (List.length t)
               (fst (adminRegister cfg now t admin_token id eid tok)))).
Proof.
  intros Hk.
  assert (Hsame : Forall2 (fun d d' => userCanUnlock d = 0 -> emergencyState d <> 0 ->
                                       emergencyState d' <> 0) t t)
    by now apply Forall2_same.
  split; [|split].
  - intros e x_id ts sig.
    destruct (serve_cases e cfg t_auth now t x_id ts sig)
      as [[ex [_ ->]] | [dev [Hauth ->]]]; [exact Hsame|].
    pose proof (dependency_In _ _ _ _ _ _ _ _ Hauth) as Hdev.
    destruct (handler_is_update e cfg now t dev) as [f [-> [_ [_ Hf]]]].
    apply update_Forall2_In; [|auto].
    intros d Hin Hw Hcan Harmed. apply by_deviceId_true in Hw.
    assert (d = dev) by now apply (primary_key_inj t). subst d.
    destruct (Hf dev) as [E | [[E _] | [_ [_ Hu]]]];
      [now rewrite E | rewrite E; discriminate | contradiction].
  - intros requestBody id eid tok. unfold clientRegister.
    destruct (needRegistrationApproval cfg).
    + destruct (truthy (register_deviceId requestBody)) as [k|];
        [|simpl; now rewrite firstn_all].
      destruct (find (by_deviceId k) t); [|simpl; now rewrite firstn_all].
      destruct (needHWID cfg);
        [destruct (truthy (register_hwid requestBody));
         [|simpl; now rewrite firstn_all]|];
        (destruct (get_client_device _ k); simpl; rewrite firstn_update;
         apply update_Forall2; auto).
    + destruct (needHWID cfg && _); [simpl; now rewrite firstn_all|].
      destruct (insert _ t) as [t'|] eqn:E; [|simpl; now rewrite firstn_all].
      apply insert_Some in E. destruct E as [-> _].
      simpl. now rewrite firstn_appended.
  - intros admin_token id eid tok. unfold adminRegister.
    destruct (negb _); [simpl; now rewrite firstn_all|].
    destruct (insert _ t) as [t'|] eqn:E; [|simpl; now rewrite firstn_all].
    apply insert_Some in E. destruct E as [-> _].
    simpl. now rewrite firstn_appended.
Qed.

Lemma unlock_forbidden_rows_stay_armed_witness :
  Forall2 (fun d d' => userCanUnlock d = 0 -> emergencyState d <> 0 ->
                       emergencyState d' <> 0)
    Sample.table
    (fst (serve MobileUnlock default_config Scenario.t_auth Scenario.now Sample.table
            "8877665544332211" "1700000000" Sample.tablet_sig_1700000000))
  /\ Forall2 (fun d d' => userCanUnlock d = 0 -> emergencyState d <> 0 ->
                          emergencyState d' <> 0)
       Sample.table
       (firstn (List.length Sample.table)
          (fst (clientRegister Scenario.approval Scenario.now Sample.table
                  {| register_deviceId := Some "1122334455667788";
                     register_hwid := Some "board-7" |}
                  "aaaaaaaaaaaaaaaa" "bbbbbbbbbbbbbbbb" "cccc"))).
Proof.
  split.
  - apply (proj1 (unlock_forbidden_rows_stay_armed default_config Scenario.t_auth
                    Scenario.now Sample.table (proj1 sample_tables_keyed))).
  - apply (proj1 (proj2 (unlock_forbidden_rows_stay_armed Scenario.approval
                           Scenario.t_auth Scenario.now Sample.table
                           (proj1 sample_tables_keyed)))).
Defined.

(** ** Refusals *)

(** X5: a request that ends in an exception leaves the table as it was,
    with two exceptions: [/client/AmIOk] has already stamped [lastSeen]
    when it answers 403 for a stolen device, and [/mobile/unlock] has
    already cleared [pendingLockTime] when it answers 408. *)
Theorem refused_request_effects e cfg t_auth now t x_id ts sig t' ex :
  serve e cfg t_auth now t x_id ts sig = (t', Raise ex) ->
  t' = t
  \/ (e = ClientAmIOk
      /\ ex = HTTPException 403 "Device marked as stolen"
      /\ t' = update (by_deviceId x_id) (set_lastSeen (Some now)) t)
  \/ (e = MobileUnlock
      /\ ex = HTTPException 408 "Unlock approval timeout. Please try again."
      /\ exists dev,
           get_mobile_device_by_emergency t x_id = Some dev
           /\ t' = update (by_deviceId (deviceId dev)) (set_pendingLockTime None) t).
Proof.
  destruct (serve_cases e cfg t_auth now t x_id ts sig)
    as [[ex0 [_ ->]] | [dev [Hauth ->]]].
  - intros H. injection H as <- _. now left.
  - pose proof (dependency_Return _ _ _ _ _ _ _ _ Hauth) as Hres.
    destruct e; simpl handler; simpl in Hres.
    + unfold clientAmIOk.
      destruct (find_by_deviceId_In _ _ _ Hres) as [_ Hid]. rewrite Hid.
      destruct (find _ _) as [row|]; [destruct (emergencyState row =? 0)|];
        intros H; try discriminate; injection H as <- <-; right; left; auto.
    + unfold clientDecrypt. destruct (negb _); intros H; [|discriminate].
      injection H as <- _. now left.
    + unfold mobileCheck. discriminate.
    + unfold mobileLock.
      destruct (find _ t) as [row|];
        [destruct (needLockApproval cfg);
         [destruct (pendingLockTime row) as [prev|];
          [destruct (seconds_le _ _)|]|]|];
        intros H; try discriminate.
      injection H as <- _. now left.
    + unfold mobileUnlock.
      destruct (userCanUnlock dev =? 0).
      { intros H. injection H as <- _. now left. }
      destruct (needLockApproval cfg); [|discriminate].
      destruct (find _ t) as [row|].
      * destruct (pendingLockTime row) as [prev|]; [|discriminate].
        destruct (seconds_le _ _); [discriminate|].
        intros H. injection H as <- <-. right; right.
        repeat split. now exists dev.
      * intros H. injection H as <- _. now left.
Qed.

Lemma refused_request_effects_witness :
  update (by_deviceId "9f8e7d6c5b4a3921") (set_pendingLockTime None) Sample.table_stale
  = Sample.table_stale
  \/ (MobileUnlock = ClientAmIOk
      /\ HTTPException 408 "Unlock approval timeout. Please try again."
         = HTTPException 403 "Device marked as stolen"
      /\ update (by_deviceId "9f8e7d6c5b4a3921") (set_pendingLockTime None)
           Sample.table_stale
         = update (by_deviceId "0a1b2c3d4e5f6071") (set_lastSeen (Some Scenario.now'))
             Sample.table_stale)
  \/ (MobileUnlock = MobileUnlock
      /\ HTTPException 408 "Unlock approval timeout. Please try again."
         = HTTPException 408 "Unlock approval timeout. Please try again."
      /\ exists dev,
           get_mobile_device_by_emergency Sample.table_stale "0a1b2c3d4e5f6071" = Some dev
           /\ update (by_deviceId "9f8e7d6c5b4a3921") (set_pendingLockTime None)
                Sample.table_stale
              = update (by_deviceId (deviceId dev)) (set_pendingLockTime None)
                  Sample.table_stale).
Proof.
  apply (refused_request_effects MobileUnlock Sample.two_phase Scenario.t_auth'
           Scenario.now' Sample.table_stale "0a1b2c3d4e5f6071" "1700000020"
           Sample.sig_1700000020).
  vm_compute; reflexivity.
Defined.

(** X6: [/client/decrypt] answers with a body exactly when the request
    authenticates and the caller's row has [emergencyState] 0; the body is
    then that row's token, and the table is never written. *)
Theorem decrypt_iff_authenticated_and_clear cfg t_auth now t x_id ts sig :
  fst (serve ClientDecrypt cfg t_auth now t x_id ts sig) = t
  /\ (forall r,
        snd (serve ClientDecrypt cfg t_auth now t x_id ts sig) = Return r <->
        exists dev,
          verifyClientAuth cfg t_auth t x_id ts sig = Return dev
          /\ emergencyState dev = 0
          /\ r = PlainText (token dev)).
Proof.
  unfold serve. simpl dependency. simpl handler.
  destruct (verifyClientAuth cfg t_auth t x_id ts sig) as [dev|ex].
  - unfold clientDecrypt.
    destruct (emergencyState dev =? 0) eqn:E; simpl.
    + apply Z.eqb_eq in E. split; [reflexivity|]. intros r. split.
      * intros H. injection H as <-. now exists dev.
      * intros [d [Hd [_ ->]]]. now injection Hd as <-.
    + apply Z.eqb_neq in E. split; [reflexivity|]. intros r. split.
      * discriminate.
      * intros [d [Hd [Hz _]]]. injection Hd as <-. contradiction.
  - simpl. split; [reflexivity|]. intros r. split.
    + discriminate.
    + intros [d [Hd _]]. discriminate.
Qed.

(** ** A lock, seen from the other routes *)

Lemma verifyClientAuth_intro cfg now t id ts sig dev :
  get_client_device t id = Some dev ->
  verify_hmac cfg now (token dev) ts sig = Return true ->
  verifyClientAuth cfg now t id ts sig = Return dev.
Proof. unfold verifyClientAuth. intros -> ->. reflexivity. Qed.

Lemma mobileLock_applied cfg now t dev t' :
  mobileLock cfg now t dev = (t', Return (JSONDetail 200 "Device locked (stolen)")) ->
  exists f,
    t' = update (by_deviceId (deviceId dev)) f t
    /\ forall d, emergencyState (f d) = 1 /\ token (f d) = token d
                 /\ deviceId (f d) = deviceId d /\ emergencyId (f d) = emergencyId d.
Proof.
  unfold mobileLock, lock_pending.
  destruct (find _ t) as [row|]; [|discriminate].
  destruct (needLockApproval cfg);
    [destruct (pendingLockTime row) as [prev|];
     [destruct (seconds_le _ _)|]|];
    intros H; try discriminate; injection H as <-;
    eexists; (split; [reflexivity|]); intros d; repeat split.
Qed.

Lemma client_row_after_key_update (t : db) (dev : device) (f : device -> device) :
  (forall d, deviceId (f d) = deviceId d) ->
  primary_key t -> In dev t ->
  get_client_device (update (by_deviceId (deviceId dev)) f t) (deviceId dev)
  = Some (f dev).
Proof.
  intros Hf Hk Hin. apply client_row_after_update; [exact Hf|].
  now apply primary_key_find.
Qed.

(** X7: once [/mobile/lock] has answered 200, the device's next
    authenticated request, served on the table the lock left, sees the
    lock: [/mobile/check] reports [emergencyState] true, [/client/decrypt]
    withholds the token with 403, and [/client/AmIOk] answers 403. *)
Theorem applied_lock_is_seen_everywhere cfg t eid dev t_auth now ts sig t'
    t_auth2 now2 ts2 sig2 :
  primary_key t ->
  verifyMobileAuth cfg t_auth t eid ts sig = Return dev ->
  serve MobileLock cfg t_auth now t eid ts sig
  = (t', Return (JSONDetail 200 "Device locked (stolen)")) ->
  verify_hmac cfg t_auth2 (token dev) ts2 sig2 = Return true ->
  serve MobileCheck cfg t_auth2 now2 t' eid ts2 sig2
  = (t', Return (JSONCheck true (needLockApproval cfg) (lockApprovalTimeSecond cfg)))
  /\ serve ClientDecrypt cfg t_auth2 now2 t' (deviceId dev) ts2 sig2
     = (t', Raise (HTTPException 403 "Device marked as stolen"))
  /\ snd (serve ClientAmIOk cfg t_auth2 now2 t' (deviceId dev) ts2 sig2)
     = Raise (HTTPException 403 "Device marked as stolen").
Proof.
  intros Hk Hauth Hlock Hsig.
  rewrite (serve_authenticated_mobile MobileLock _ _ _ _ _ _ _ dev eq_refl Hauth)
    in Hlock.
  simpl handler in Hlock. apply mobileLock_applied in Hlock.
  destruct Hlock as [f [-> Hf]].
  destruct (verifyMobileAuth_Return _ _ _ _ _ _ _ Hauth) as [Hfind _].
  destruct (find_by_emergencyId_In _ _ _ Hfind) as [Hin _].
  assert (Hm : get_mobile_device_by_emergency
                 (update (by_deviceId (deviceId dev)) f t) eid = Some (f dev))
    by (apply mobile_row_after_update; [apply Hf | exact Hfind]).
  assert (Hc : get_client_device
                 (update (by_deviceId (deviceId dev)) f t) (deviceId dev) = Some (f dev))
    by (apply client_row_after_key_update; [apply Hf | exact Hk | exact Hin]).
  destruct (Hf dev) as [Harmed [Htok [Hid _]]].
  rewrite <- Htok in Hsig.
  split; [|split].
  - rewrite (serve_authenticated_mobile MobileCheck _ _ _ _ _ _ _ (f dev) eq_refl
               (verifyMobileAuth_intro _ _ _ _ _ _ _ Hm Hsig)).
    simpl. unfold mobileCheck. now rewrite Harmed.
  - rewrite (serve_authenticated_client ClientDecrypt _ _ _ _ _ _ _ (f dev) eq_refl
               (verifyClientAuth_intro _ _ _ _ _ _ _ Hc Hsig)).
    simpl. unfold clientDecrypt. now rewrite Harmed.
  - rewrite (serve_authenticated_client ClientAmIOk _ _ _ _ _ _ _ (f dev) eq_refl
               (verifyClientAuth_intro _ _ _ _ _ _ _ Hc Hsig)).
    simpl handler. unfold clientAmIOk. rewrite Hid.
    pose proof (client_row_after_update _ _ _ (set_lastSeen (Some now2))
                  (fun _ => eq_refl) Hc) as Hrow.
    rewrite Hid in Hrow. unfold get_client_device in Hrow at 1. rewrite Hrow.
    simpl emergencyState. now rewrite Harmed.
Qed.

Lemma applied_lock_is_seen_everywhere_witness :
  exists t',
    serve MobileCheck default_config Scenario.t_auth' Scenario.now' t'
      "0a1b2c3d4e5f6071" "1700000020" Sample.sig_1700000020
    = (t', Return (JSONCheck true false 30))
    /\ serve ClientDecrypt default_config Scenario.t_auth' Scenario.now' t'
         "9f8e7d6c5b4a3921" "1700000020" Sample.sig_1700000020
       = (t', Raise (HTTPException 403 "Device marked as stolen"))
    /\ snd (serve ClientAmIOk default_config Scenario.t_auth' Scenario.now' t'
              "9f8e7d6c5b4a3921" "1700000020" Sample.sig_1700000020)
       = Raise (HTTPException 403 "Device marked as stolen").
Proof.
  eexists.
  apply (applied_lock_is_seen_everywhere default_config Sample.table
           "0a1b2c3d4e5f6071" Sample.laptop Scenario.t_auth Scenario.now
           "1700000000" Sample.sig_1700000000 _
           Scenario.t_auth' Scenario.now' "1700000020" Sample.sig_1700000020).
  - exact (proj1 sample_tables_keyed).
  - vm_compute; reflexivity.
  - vm_compute; reflexivity.
  - vm_compute; reflexivity.
Defined.

(** ** The admin routes *)

Lemma truthy_Some (s : string) : s <> EmptyString -> truthy (Some s) = Some s.
Proof. destruct s; [contradiction | reflexivity]. Qed.

Lemma admin_token_ok_iff cfg (admin_token : option string) :
  admin_token_ok cfg admin_token = true <-> admin_token = Some (adminToken cfg).
Proof.
  destruct admin_token as [s|]; simpl.
  - rewrite String.eqb_eq. split; congruence.
  - split; discriminate.
Qed.

(** X8: the admin routes refuse in this order, leaving the table alone each
    time: 401 for a missing or wrong [X-Admin-Token], whatever the body
    (the same exception [verifyAdmin] raises); then, for [/admin/unlock],
    400 when neither identifier is given or both are empty, and 404 when
    the chosen identifier matches no row. *)
Theorem admin_refusals cfg now t :
  (forall admin_token unlockRequest id eid tok,
      admin_token <> Some (adminToken cfg) ->
      adminUnlock cfg now t admin_token unlockRequest
      = (t, Raise (HTTPException 401 "Invalid admin token"))
      /\ adminRegister cfg now t admin_token id eid tok
         = (t, Raise (HTTPException 401 "Invalid admin token")))
  /\ (forall s ex,
        verifyAdmin cfg s = Raise ex ->
        ex = HTTPException 401 "Invalid admin token" /\ Some s <> Some (adminToken cfg))
  /\ (forall unlockRequest,
        truthy (unlock_emergencyId unlockRequest) = None ->
        truthy (unlock_deviceId unlockRequest) = None ->
        adminUnlock cfg now t (Some (adminToken cfg)) unlockRequest
        = (t, Raise (HTTPException 400 "Must provide deviceId or emergencyId")))
  /\ (forall unlockRequest where_,
        unlock_target unlockRequest = Some where_ ->
        (forall d, In d t -> where_ d = false) ->
        adminUnlock cfg now t (Some (adminToken cfg)) unlockRequest
        = (t, Raise (HTTPException 404 "Device not found"))).
Proof.
  repeat split.
  - unfold adminUnlock.
    destruct (admin_token_ok cfg admin_token) eqn:E; [|reflexivity].
    apply admin_token_ok_iff in E. contradiction.
  - unfold adminRegister.
    destruct (admin_token_ok cfg admin_token) eqn:E; [|reflexivity].
    apply admin_token_ok_iff in E. contradiction.
  - unfold verifyAdmin in H. destruct (s =? adminToken cfg)%string; congruence.
  - unfold verifyAdmin in H.
    destruct (s =? adminToken cfg)%string eqn:E; [discriminate|].
    apply String.eqb_neq in E. congruence.
  - intros unlockRequest He Hd. unfold adminUnlock, unlock_target.
    simpl admin_token_ok. rewrite String.eqb_refl. simpl. now rewrite He, Hd.
  - intros unlockRequest where_ Ht Hnone. unfold adminUnlock.
    simpl admin_token_ok. rewrite String.eqb_refl. simpl. rewrite Ht.
    replace (rowcount where_ t) with 0%nat; [reflexivity|].
    unfold rowcount. clear Ht.
    induction t as [|d t' IH]; simpl; [reflexivity|].
    rewrite (Hnone d (or_introl eq_refl)). apply IH.
    intros d0 Hin. apply Hnone. now right.
Qed.

Lemma admin_refusals_witness :
  adminUnlock default_config Scenario.now Sample.table None
    {| unlock_deviceId := Some "9f8e7d6c5b4a3921"; unlock_emergencyId := None |}
  = (Sample.table, Raise (HTTPException 401 "Invalid admin token"))
  /\ adminUnlock default_config Scenario.now Sample.table (Some "supersecretadmin")
       {| unlock_deviceId := Some ""; unlock_emergencyId := None |}
     = (Sample.table, Raise (HTTPException 400 "Must provide deviceId or emergencyId"))
  /\ adminUnlock default_config Scenario.now Sample.table (Some "supersecretadmin")
       {| unlock_deviceId := Some "9f8e7d6c5b4a3921";
          unlock_emergencyId := Some "0000000000000000" |}
     = (Sample.table, Raise (HTTPException 404 "Device not found")).
Proof.
  destruct (admin_refusals default_config Scenario.now Sample.table)
    as [H401 [_ [H400 H404]]].
  split; [|split].
  - apply (H401 None {| unlock_deviceId := Some "9f8e7d6c5b4a3921";
                        unlock_emergencyId := None |}
             EmptyString EmptyString EmptyString).
    discriminate.
  - apply H400; reflexivity.
  - apply (H404 _ (by_emergencyId "0000000000000000")); [reflexivity|].
    intros d [<-|[<-|[]]]; reflexivity.
Defined.

(** X9: when [/admin/unlock] is given a non-empty [emergencyId], the
    [deviceId] of the body plays no part; an empty [emergencyId] counts as
    none, and then an empty [deviceId] counts as none too. *)
Theorem adminUnlock_identifier_priority cfg now t admin_token id eid :
  eid <> EmptyString ->
  adminUnlock cfg now t admin_token
    {| unlock_deviceId := id; unlock_emergencyId := Some eid |}
  = adminUnlock cfg now t admin_token
      {| unlock_deviceId := None; unlock_emergencyId := Some eid |}
  /\ adminUnlock cfg now t admin_token
       {| unlock_deviceId := id; unlock_emergencyId := Some EmptyString |}
     = adminUnlock cfg now t admin_token
         {| unlock_deviceId := id; unlock_emergencyId := None |}
  /\ adminUnlock cfg now t admin_token
       {| unlock_deviceId := Some EmptyString; unlock_emergencyId := None |}
     = adminUnlock cfg now t admin_token
         {| unlock_deviceId := None; unlock_emergencyId := None |}.
Proof.
  intros He. unfold adminUnlock, unlock_target.
  cbn [unlock_emergencyId unlock_deviceId].
  rewrite (truthy_Some eid He). repeat split.
Qed.

Lemma adminUnlock_identifier_priority_witness :
  adminUnlock default_config Scenario.now Sample.table (Some "supersecretadmin")
    {| unlock_deviceId := Some "9f8e7d6c5b4a3921";
       unlock_emergencyId := Some "8877665544332211" |}
  = adminUnlock default_config Scenario.now Sample.table (Some "supersecretadmin")
      {| unlock_deviceId := None; unlock_emergencyId := Some "8877665544332211" |}.
Proof.
  apply (adminUnlock_identifier_priority default_config Scenario.now Sample.table
           (Some "supersecretadmin") (Some "9f8e7d6c5b4a3921") "8877665544332211").
  discriminate.
Defined.

Lemma adminUnlock_by_deviceId cfg now t dev :
  In dev t -> deviceId dev <> EmptyString ->
  adminUnlock cfg now t (Some (adminToken cfg))
    {| unlock_deviceId := Some (deviceId dev); unlock_emergencyId := None |}
  = (update (by_deviceId (deviceId dev))
       (fun d => set_lastSeen (Some now) (set_emergencyState 0 d)) t,
     Return (JSONDetail 200 "Device unlocked by admin")).
Proof.
  intros Hin Hne. unfold adminUnlock, unlock_target.
  simpl admin_token_ok. rewrite String.eqb_refl.
  cbn [negb unlock_emergencyId unlock_deviceId].
  rewrite (truthy_Some _ Hne). cbn [truthy].
  now rewrite (rowcount_pos _ _ dev Hin (by_deviceId_self dev)).
Qed.

(** X10: an admin unlock does not close a confirmation that is under way.
    In two-phase mode, if the row had a [pendingLockTime] when the admin
    cleared it, a single [/mobile/lock] request still inside the window is
    taken as the confirmation and arms the device at once. *)
Theorem admin_unlock_leaves_confirmation_open cfg t eid dev prevTime
    now_admin t_auth now ts sig :
  primary_key t ->
  needLockApproval cfg = true ->
  get_mobile_device_by_emergency t eid = Some dev ->
  deviceId dev <> EmptyString ->
  pendingLockTime dev = Some prevTime ->
  verify_hmac cfg t_auth (token dev) ts sig = Return true ->
  now - prevTime <= lockApprovalTimeSecond cfg * 1000000 ->
  exists t1 t2 d',
    adminUnlock cfg now_admin t (Some (adminToken cfg))
      {| unlock_deviceId := Some (deviceId dev); unlock_emergencyId := None |}
    = (t1, Return (JSONDetail 200 "Device unlocked by admin"))
    /\ serve MobileLock cfg t_auth now t1 eid ts sig
       = (t2, Return (JSONDetail 200 "Device locked (stolen)"))
    /\ get_mobile_device_by_emergency t2 eid = Some d'
    /\ emergencyState d' = 1.
Proof.
  intros Hk Hc Hfind Hne Hp Hsig Hw.
  destruct (find_by_emergencyId_In _ _ _ Hfind) as [Hin _].
  set (g := fun d => set_lastSeen (Some now_admin) (set_emergencyState 0 d)).
  set (t1 := update (by_deviceId (deviceId dev)) g t).
  assert (Hfind1 : get_mobile_device_by_emergency t1 eid = Some (g dev))
    by (apply mobile_row_after_update; [reflexivity | exact Hfind]).
  assert (Hk1 : primary_key t1)
    by (apply update_preserves_primary_key; [reflexivity | exact Hk]).
  pose proof (mobile_row_is_device _ _ _ Hk1 Hfind1) as Hrow1.
  assert (Hauth1 : verifyMobileAuth cfg t_auth t1 eid ts sig = Return (g dev))
    by (apply verifyMobileAuth_intro; [exact Hfind1 | exact Hsig]).
  exists t1. eexists. eexists.
  split; [now apply adminUnlock_by_deviceId|].
  rewrite (serve_authenticated_mobile MobileLock _ _ _ _ _ _ _ (g dev) eq_refl Hauth1).
  simpl handler.
  rewrite (mobileLock_confirmed cfg now t1 (g dev) (g dev) Hrow1 prevTime Hc Hp Hw).
  split; [reflexivity|].
  split; [apply mobile_row_after_update; [reflexivity | exact Hfind1]|].
  reflexivity.
Qed.

Lemma admin_unlock_leaves_confirmation_open_witness :
  exists t1 t2 d',
    adminUnlock Sample.two_phase 1700000010000000 Sample.table_pending
      (Some "supersecretadmin")
      {| unlock_deviceId := Some "9f8e7d6c5b4a3921"; unlock_emergencyId := None |}
    = (t1, Return (JSONDetail 200 "Device unlocked by admin"))
    /\ serve MobileLock Sample.two_phase Scenario.t_auth' Scenario.now' t1
         "0a1b2c3d4e5f6071" "1700000020" Sample.sig_1700000020
       = (t2, Return (JSONDetail 200 "Device locked (stolen)"))
    /\ get_mobile_device_by_emergency t2 "0a1b2c3d4e5f6071" = Some d'
    /\ emergencyState d' = 1.
Proof.
  apply (admin_unlock_leaves_confirmation_open Sample.two_phase Sample.table_pending
           "0a1b2c3d4e5f6071" Sample.laptop_pending 1700000000000000
           1700000010000000 Scenario.t_auth' Scenario.now' "1700000020"
           Sample.sig_1700000020).
  - exact (proj1 (proj2 sample_tables_keyed)).
  - reflexivity.
  - reflexivity.
  - discriminate.
  - reflexivity.
  - vm_compute; reflexivity.
  - unfold Scenario.now'. simpl. lia.
Defined.

(** X11: after a successful admin unlock by [deviceId], the device is
    served again: its authenticated [/client/decrypt] returns its token and
    its [/client/AmIOk] answers "ok", whatever its [emergencyState],
    [pendingLockTime] and [userCanUnlock] were. *)
Theorem admin_unlock_restores_service cfg t dev now_admin t_auth now ts sig :
  primary_key t ->
  In dev t ->
  deviceId dev <> EmptyString ->
  verify_hmac cfg t_auth (token dev) ts sig = Return true ->
  exists t1,
    adminUnlock cfg now_admin t (Some (adminToken cfg))
      {| unlock_deviceId := Some (deviceId dev); unlock_emergencyId := None |}
    = (t1, Return (JSONDetail 200 "Device unlocked by admin"))
    /\ serve ClientDecrypt cfg t_auth now t1 (deviceId dev) ts sig
       = (t1, Return (PlainText (token dev)))
    /\ snd (serve ClientAmIOk cfg t_auth now t1 (deviceId dev) ts sig)
       = Return (JSONStatus "ok").
Proof.
  intros Hk Hin Hne Hsig.
  set (g := fun d => set_lastSeen (Some now_admin) (set_emergencyState 0 d)).
  set (t1 := update (by_deviceId (deviceId dev)) g t).
  assert (Hc : get_client_device t1 (deviceId dev) = Some (g dev))
    by (apply client_row_after_key_update; [reflexivity | exact Hk | exact Hin]).
  assert (Hauth : verifyClientAuth cfg t_auth t1 (deviceId dev) ts sig = Return (g dev))
    by (apply verifyClientAuth_intro; [exact Hc | exact Hsig]).
  exists t1. split; [now apply adminUnlock_by_deviceId|]. split.
  - now rewrite (serve_authenticated_client ClientDecrypt _ _ _ _ _ _ _ (g dev)
                   eq_refl Hauth).
  - rewrite (serve_authenticated_client ClientAmIOk _ _ _ _ _ _ _ (g dev)
               eq_refl Hauth).
    simpl handler. unfold clientAmIOk.
    pose proof (client_row_after_update _ _ _ (set_lastSeen (Some now))
                  (fun _ => eq_refl) Hc) as Hrow.
    unfold get_client_device in Hrow at 1. simpl deviceId in *.
    now rewrite Hrow.
Qed.

Lemma admin_unlock_restores_service_witness :
  exists t1,
    adminUnlock default_config 1700000000500000 Sample.table (Some "supersecretadmin")
      {| unlock_deviceId := Some "1122334455667788"; unlock_emergencyId := None |}
    = (t1, Return (JSONDetail 200 "Device unlocked by admin"))
    /\ serve ClientDecrypt default_config Scenario.t_auth Scenario.now t1
         "1122334455667788" "1700000000" Sample.tablet_sig_1700000000
       = (t1, Return (PlainText (token Sample.tablet)))
    /\ snd (serve ClientAmIOk default_config Scenario.t_auth Scenario.now t1
              "1122334455667788" "1700000000" Sample.tablet_sig_1700000000)
       = Return (JSONStatus "ok").
Proof.
  apply (admin_unlock_restores_service default_config Sample.table Sample.tablet
           1700000000500000 Scenario.t_auth Scenario.now "1700000000"
           Sample.tablet_sig_1700000000).
  - exact (proj1 sample_tables_keyed).
  - simpl; auto.
  - discriminate.
  - vm_compute; reflexivity.
Defined.

(** ** Registration *)

Lemma find_app_last (p : device -> bool) (t : db) (row : device) :
  find p (t ++ [row])%list
  = match find p t with
    | Some d => Some d
    | None => if p row then Some row else None
    end.
Proof.
  induction t as [|d t IH]; simpl; [reflexivity|].
  destruct (p d); [reflexivity | exact IH].
Qed.

Lemma insert_fresh (row : device) (t : db) :
  get_client_device t (deviceId row) = None -> insert row t = Some (t ++ [row])%list.
Proof. unfold insert, get_client_device. now intros ->. Qed.

Lemma insert_taken (row : device) (t : db) :
  get_client_device t (deviceId row) <> None -> insert row t = None.
Proof.
  unfold insert, get_client_device. destruct (find _ t); [reflexivity | contradiction].
Qed.

(** The [hwid] a self-registration stores. *)
Lemma clientRegister_fresh cfg now t requestBody id eid tok :
  needRegistrationApproval cfg = false ->
  (needHWID cfg = true -> truthy (register_hwid requestBody) <> None) ->
  get_client_device t id = None ->
  clientRegister cfg now t requestBody id eid tok
  = ((t ++ [new_row id eid tok now
              (if needHWID cfg then register_hwid requestBody else None)])%list,
     Return (JSONRegister id eid tok)).
Proof.
  intros Hc Hh Hfresh. unfold clientRegister. rewrite Hc.
  assert (E : needHWID cfg
              && match truthy (register_hwid requestBody) with
                 | Some _ => false
                 | None => true
                 end = false).
  { destruct (needHWID cfg); [|reflexivity].
    destruct (truthy (register_hwid requestBody)); [reflexivity|].
    exfalso. now apply Hh. }
  rewrite E. now rewrite insert_fresh.
Qed.

(** X12: self-registration round trip.  With approval off, a hardware id
    supplied when one is required, and a [deviceId] not yet in the table,
    [/client/register] appends one row with [emergencyState] 0, no
    [pendingLockTime] and [userCanUnlock] 1, and answers with the three
    drawn values; the row is found again by its [deviceId], and a request
    signed with the returned token authenticates as that row on the
    client routes, and on the mobile routes too provided the drawn
    [emergencyId] was not already in the table. *)
Theorem self_registration_round_trip cfg now t requestBody id eid tok :
  needRegistrationApproval cfg = false ->
  (needHWID cfg = true -> truthy (register_hwid requestBody) <> None) ->
  get_client_device t id = None ->
  exists t' row,
    clientRegister cfg now t requestBody id eid tok
    = (t', Return (JSONRegister id eid tok))
    /\ t' = (t ++ [row])%list
    /\ credentials row = (id, eid, tok, 1)
    /\ emergencyState row = 0
    /\ pendingLockTime row = None
    /\ lastSeen row = Some now
    /\ get_client_device t' id = Some row
    /\ (forall t_auth ts sig,
          verify_hmac cfg t_auth tok ts sig = Return true ->
          verifyClientAuth cfg t_auth t' id ts sig = Return row)
    /\ (get_mobile_device_by_emergency t eid = None ->
        forall t_auth ts sig,
          verify_hmac cfg t_auth tok ts sig = Return true ->
          verifyMobileAuth cfg t_auth t' eid ts sig = Return row).
Proof.
  intros Hc Hh Hfresh.
  eexists. eexists.
  split; [now apply clientRegister_fresh|].
  split; [reflexivity|].
  set (row := new_row id eid tok now
                (if needHWID cfg then register_hwid requestBody else None)).
  assert (Hget : get_client_device (t ++ [row])%list id = Some row).
  { unfold get_client_device in *. rewrite find_app_last, Hfresh.
    unfold by_deviceId. simpl. now rewrite String.eqb_refl. }
  repeat split; [exact Hget | |].
  - intros t_auth ts sig Hsig. now apply verifyClientAuth_intro.
  - intros Hnew t_auth ts sig Hsig. apply verifyMobileAuth_intro; [|exact Hsig].
    unfold get_mobile_device_by_emergency in *. rewrite find_app_last, Hnew.
    unfold by_emergencyId. simpl. now rewrite String.eqb_refl.
Qed.

Lemma self_registration_round_trip_witness :
  exists t' row,
    clientRegister default_config Scenario.now Sample.table
      {| register_deviceId := None; register_hwid := None |}
      Scenario.newDeviceId "5566778899aabbcc" Scenario.newToken
    = (t', Return (JSONRegister Scenario.newDeviceId "5566778899aabbcc"
                     Scenario.newToken))
    /\ t' = (Sample.table ++ [row])%list
    /\ credentials row
       = (Scenario.newDeviceId, "5566778899aabbcc", Scenario.newToken, 1)
    /\ emergencyState row = 0
    /\ pendingLockTime row = None
    /\ lastSeen row = Some Scenario.now
    /\ get_client_device t' Scenario.newDeviceId = Some row
    /\ (forall t_auth ts sig,
          verify_hmac default_config t_auth Scenario.newToken ts sig = Return true ->
          verifyClientAuth default_config t_auth t' Scenario.newDeviceId ts sig
          = Return row)
    /\ (forall t_auth ts sig,
          verify_hmac default_config t_auth Scenario.newToken ts sig = Return true ->
          verifyMobileAuth default_config t_auth t' "5566778899aabbcc" ts sig
          = Return row).
Proof.
  destruct (self_registration_round_trip default_config Scenario.now Sample.table
              {| register_deviceId := None; register_hwid := None |}
              Scenario.newDeviceId "5566778899aabbcc" Scenario.newToken
              eq_refl ltac:(simpl; discriminate) eq_refl)
    as [t' [row [H1 [H2 [H3 [H4 [H5 [H6 [H7 [H8 H9]]]]]]]]]].
  exists t', row. repeat split; try assumption.
  apply H9. reflexivity.
Defined.

(** X13: what self-registration and admin registration refuse, leaving the
    table alone: with [needHWID] on, a missing or empty [hwid] gets 400
    before anything else is looked at; otherwise a drawn [deviceId] that
    is already taken gets 500, on both routes. *)
Theorem registration_refusals cfg now t requestBody id eid tok :
  needRegistrationApproval cfg = false ->
  (needHWID cfg = true ->
   truthy (register_hwid requestBody) = None ->
   clientRegister cfg now t requestBody id eid tok
   = (t, Raise (HTTPException 400 "HWID is required")))
  /\ ((needHWID cfg = true -> truthy (register_hwid requestBody) <> None) ->
      get_client_device t id <> None ->
      clientRegister cfg now t requestBody id eid tok
      = (t, Raise (HTTPException 500 "Database error")))
  /\ (get_client_device t id <> None ->
      adminRegister cfg now t (Some (adminToken cfg)) id eid tok
      = (t, Raise (HTTPException 500 "Database error"))).
Proof.
  intros Hc. repeat split.
  - intros Hh Hnone. unfold clientRegister. now rewrite Hc, Hh, Hnone.
  - intros Hh Htaken. unfold clientRegister. rewrite Hc.
    destruct (needHWID cfg).
    + destruct (truthy (register_hwid requestBody)) eqn:E;
        [|exfalso; now apply Hh].
      simpl. now rewrite insert_taken.
    + simpl. now rewrite insert_taken.
  - intros Htaken. unfold adminRegister.
    simpl admin_token_ok. rewrite String.eqb_refl. simpl.
    now rewrite insert_taken.
Qed.

Lemma registration_refusals_witness :
  clientRegister default_config Scenario.now Sample.table
    {| register_deviceId := None; register_hwid := None |}
    "9f8e7d6c5b4a3921" "0000000000000000" Scenario.newToken
  = (Sample.table, Raise (HTTPException 500 "Database error"))
  /\ adminRegister default_config Scenario.now Sample.table (Some "supersecretadmin")
       "9f8e7d6c5b4a3921" "0000000000000000" Scenario.newToken
     = (Sample.table, Raise (HTTPException 500 "Database error")).
Proof.
  destruct (registration_refusals default_config Scenario.now Sample.table
              {| register_deviceId := None; register_hwid := None |}
              "9f8e7d6c5b4a3921" "0000000000000000" Scenario.newToken eq_refl)
    as [_ [H1 H2]].
  split; [apply H1 | apply H2]; simpl; discriminate.
Defined.

(** X14: a registration that appends a row changes no existing lookup:
    every [deviceId] and every [emergencyId] that resolved before resolves
    to the same row afterwards.  In particular a device registered with an
    [emergencyId] already in use is accepted, and that [emergencyId] keeps
    resolving to the older row. *)
Theorem registration_keeps_existing_lookups cfg now t requestBody admin_token
    id eid tok :
  needRegistrationApproval cfg = false ->
  forall k d,
    (get_client_device t k = Some d ->
     get_client_device (fst (clientRegister cfg now t requestBody id eid tok)) k = Some d
     /\ get_client_device (fst (adminRegister cfg now t admin_token id eid tok)) k
        = Some d)
    /\ (get_mobile_device_by_emergency t k = Some d ->
        get_mobile_device_by_emergency
          (fst (clientRegister cfg now t requestBody id eid tok)) k = Some d
        /\ get_mobile_device_by_emergency
             (fst (adminRegister cfg now t admin_token id eid tok)) k = Some d).
Proof.
  intros Hc k d.
  assert (Hreg : fst (clientRegister cfg now t requestBody id eid tok) = t
                 \/ exists row, fst (clientRegister cfg now t requestBody id eid tok)
                                = (t ++ [row])%list).
  { unfold clientRegister. rewrite Hc.
    destruct (needHWID cfg && _); [now left|].
    destruct (insert _ t) as [t'|] eqn:E; [|now left].
    right. apply insert_Some in E. destruct E as [-> _]. now eexists. }
  assert (Hadm : fst (adminRegister cfg now t admin_token id eid tok) = t
                 \/ exists row, fst (adminRegister cfg now t admin_token id eid tok)
                                = (t ++ [row])%list).
  { unfold adminRegister. destruct (negb _); [now left|].
    destruct (insert _ t) as [t'|] eqn:E; [|now left].
    right. apply insert_Some in E. destruct E as [-> _]. now eexists. }
  unfold get_client_device, get_mobile_device_by_emergency.
  split; intros Hfind; split;
    first [ destruct Hreg as [-> | [row ->]] | destruct Hadm as [-> | [row ->]] ];
    first [ exact Hfind | now rewrite find_app_last, Hfind ].
Qed.

Lemma registration_keeps_existing_lookups_witness :
  get_mobile_device_by_emergency
    (fst (clientRegister default_config Scenario.now Sample.table
            {| register_deviceId := None; register_hwid := None |}
            Scenario.newDeviceId "0a1b2c3d4e5f6071" Scenario.newToken))
    "0a1b2c3d4e5f6071"
  = Some Sample.laptop
  /\ List.length
       (fst (clientRegister default_config Scenario.now Sample.table
               {| register_deviceId := None; register_hwid := None |}
               Scenario.newDeviceId "0a1b2c3d4e5f6071" Scenario.newToken))
     = 3%nat.
Proof.
  split; [|reflexivity].
  apply (registration_keeps_existing_lookups default_config Scenario.now Sample.table
           {| register_deviceId := None; register_hwid := None |} None
           Scenario.newDeviceId "0a1b2c3d4e5f6071" Scenario.newToken eq_refl
           "0a1b2c3d4e5f6071" Sample.laptop).
  reflexivity.
Defined.

(** One registration under approval. *)
Lemma clientRegister_approved cfg now t requestBody k dev id eid tok :
  needRegistrationApproval cfg = true ->
  truthy (register_deviceId requestBody) = Some k ->
  get_client_device t k = Some dev ->
  (needHWID cfg = true -> truthy (register_hwid requestBody) <> None) ->
  exists g,
    clientRegister cfg now t requestBody id eid tok
    = (update (by_deviceId k) g t,
       Return (JSONRegister k (emergencyId dev) (token dev)))
    /\ get_client_device (update (by_deviceId k) g t) k = Some (g dev)
    /\ (forall d,
          credentials (g d) = credentials d
          /\ emergencyState (g d) = emergencyState d
          /\ pendingLockTime (g d) = pendingLockTime d
          /\ lastSeen (g d) = Some now
          /\ hwid (g d) = if needHWID cfg then truthy (register_hwid requestBody)
                          else hwid d).
Proof.
  intros Hc Hk Hfind Hh.
  destruct (find_by_deviceId_In _ _ _ Hfind) as [_ Hid].
  assert (Hrow : forall g, (forall d, deviceId (g d) = deviceId d) ->
                           get_client_device (update (by_deviceId k) g t) k = Some (g dev)).
  { intros g Hg. rewrite <- Hid. apply client_row_after_update; [exact Hg|].
    now rewrite Hid. }
  unfold clientRegister. rewrite Hc, Hk.
  unfold get_client_device in Hfind. rewrite Hfind.
  destruct (needHWID cfg).
  - destruct (truthy (register_hwid requestBody)) as [h|] eqn:Eh;
      [|exfalso; now apply Hh].
    exists (fun d => set_hwid (Some h) (set_lastSeen (Some now) d)).
    rewrite (Hrow (fun d => set_hwid (Some h) (set_lastSeen (Some now) d))
               (fun _ => eq_refl)).
    simpl. rewrite Hid. repeat split.
  - exists (set_lastSeen (Some now)).
    rewrite (Hrow (set_lastSeen (Some now)) (fun _ => eq_refl)).
    simpl. rewrite Hid. repeat split.
Qed.

(** X15: registration under approval can be repeated.  For a pre-registered
    [deviceId] it hands out the stored [emergencyId] and token and ignores
    the values just drawn; it stamps [lastSeen], and with [needHWID] on it
    replaces the stored [hwid] by the one submitted; the same request sent
    again is answered with the same credentials. *)
Theorem approved_registration_reissues cfg now t requestBody k dev id eid tok :
  needRegistrationApproval cfg = true ->
  truthy (register_deviceId requestBody) = Some k ->
  get_client_device t k = Some dev ->
  (needHWID cfg = true -> truthy (register_hwid requestBody) <> None) ->
  exists t' row,
    clientRegister cfg now t requestBody id eid tok
    = (t', Return (JSONRegister k (emergencyId dev) (token dev)))
    /\ get_client_device t' k = Some row
    /\ credentials row = credentials dev
    /\ emergencyState row = emergencyState dev
    /\ lastSeen row = Some now
    /\ hwid row = (if needHWID cfg then truthy (register_hwid requestBody)
                   else hwid dev)
    /\ (forall now2 id2 eid2 tok2,
          snd (clientRegister cfg now2 t' requestBody id2 eid2 tok2)
          = Return (JSONRegister k (emergencyId dev) (token dev))).
Proof.
  intros Hc Hk Hfind Hh.
  destruct (clientRegister_approved cfg now t requestBody k dev id eid tok
              Hc Hk Hfind Hh) as [g [Hreg [Hrow Hg]]].
  destruct (Hg dev) as [Hcred [Harmed [_ [Hseen Hhw]]]].
  exists (update (by_deviceId k) g t), (g dev).
  repeat split; try assumption.
  intros now2 id2 eid2 tok2.
  destruct (clientRegister_approved cfg now2 _ requestBody k (g dev) id2 eid2 tok2
              Hc Hk Hrow Hh) as [g2 [-> _]].
  simpl. unfold credentials in Hcred. now injection Hcred as _ -> ->.
Qed.

Lemma approved_registration_reissues_witness :
  exists t' row,
    clientRegister Scenario.approval Scenario.now Sample.table
      {| register_deviceId := Some "9f8e7d6c5b4a3921"; register_hwid := Some "board-7" |}
      "aaaaaaaaaaaaaaaa" "bbbbbbbbbbbbbbbb" "cccc"
    = (t', Return (JSONRegister "9f8e7d6c5b4a3921" (emergencyId Sample.laptop)
                     (token Sample.laptop)))
    /\ get_client_device t' "9f8e7d6c5b4a3921" = Some row
    /\ credentials row = credentials Sample.laptop
    /\ emergencyState row = emergencyState Sample.laptop
    /\ lastSeen row = Some Scenario.now
    /\ hwid row = Some "board-7"
    /\ (forall now2 id2 eid2 tok2,
          snd (clientRegister Scenario.approval now2 t'
                 {| register_deviceId := Some "9f8e7d6c5b4a3921";
                    register_hwid := Some "board-7" |} id2 eid2 tok2)
          = Return (JSONRegister "9f8e7d6c5b4a3921" (emergencyId Sample.laptop)
                      (token Sample.laptop))).
Proof.
  apply (approved_registration_reissues Scenario.approval Scenario.now Sample.table
           {| register_deviceId := Some "9f8e7d6c5b4a3921";
              register_hwid := Some "board-7" |}
           "9f8e7d6c5b4a3921" Sample.laptop "aaaaaaaaaaaaaaaa" "bbbbbbbbbbbbbbbb" "cccc").
  - reflexivity.
  - reflexivity.
  - reflexivity.
  - simpl. discriminate.
Defined.

(** X16: what registration under approval refuses, leaving the table
    alone: a missing or empty [deviceId] gets 400, a [deviceId] that was
    not pre-registered gets 404, and with [needHWID] on a missing or empty
    [hwid] for a known device gets 400. *)
Theorem approved_registration_refusals cfg now t requestBody id eid tok :
  needRegistrationApproval cfg = true ->
  (truthy (register_deviceId requestBody) = None ->
   clientRegister cfg now t requestBody id eid tok
   = (t, Raise (HTTPException 400 "deviceId is required for registration approval")))
  /\ (forall k,
        truthy (register_deviceId requestBody) = Some k ->
        get_client_device t k = None ->
        clientRegister cfg now t requestBody id eid tok
        = (t, Raise (HTTPException 404 "Device not pre-registered")))
  /\ (forall k,
        truthy (register_deviceId requestBody) = Some k ->
        get_client_device t k <> None ->
        needHWID cfg = true ->
        truthy (register_hwid requestBody) = None ->
        clientRegister cfg now t requestBody id eid tok
        = (t, Raise (HTTPException 400 "HWID is required"))).
Proof.
  intros Hc. unfold clientRegister, get_client_device. rewrite Hc. repeat split.
  - now intros ->.
  - intros k -> Hnone. now rewrite Hnone.
  - intros k -> Hsome Hh Hnone. rewrite Hh, Hnone.
    destruct (find (by_deviceId k) t); [reflexivity | contradiction].
Qed.

Lemma approved_registration_refusals_witness :
  clientRegister Scenario.approval Scenario.now Sample.table
    {| register_deviceId := Some ""; register_hwid := Some "board-7" |}
    "aaaaaaaaaaaaaaaa" "bbbbbbbbbbbbbbbb" "cccc"
  = (Sample.table,
     Raise (HTTPException 400 "deviceId is required for registration approval"))
  /\ clientRegister Scenario.approval Scenario.now Sample.table
       {| register_deviceId := Some "aaaaaaaaaaaaaaaa"; register_hwid := Some "board-7" |}
       "aaaaaaaaaaaaaaaa" "bbbbbbbbbbbbbbbb" "cccc"
     = (Sample.table, Raise (HTTPException 404 "Device not pre-registered"))
  /\ clientRegister Scenario.approval Scenario.now Sample.table
       {| register_deviceId := Some "9f8e7d6c5b4a3921"; register_hwid := Some "" |}
       "aaaaaaaaaaaaaaaa" "bbbbbbbbbbbbbbbb" "cccc"
     = (Sample.table, Raise (HTTPException 400 "HWID is required")).
Proof.
  split; [|split].
  - apply (proj1 (approved_registration_refusals Scenario.approval Scenario.now
                    Sample.table _ _ _ _ eq_refl)).
    reflexivity.
  - apply (proj1 (proj2 (approved_registration_refusals Scenario.approval Scenario.now
                           Sample.table _ _ _ _ eq_refl)) "aaaaaaaaaaaaaaaa");
      reflexivity.
  - apply (proj2 (proj2 (approved_registration_refusals Scenario.approval Scenario.now
                           Sample.table _ _ _ _ eq_refl)) "9f8e7d6c5b4a3921");
      try reflexivity.
    simpl. discriminate.
Defined.

(** X17: the path of a token under approval.  [/admin/register] with the
    right admin token and a fresh [deviceId] answers with the [deviceId]
    alone; a later [/client/register] naming that [deviceId] is answered
    with the [emergencyId] and the token the admin call drew. *)
Theorem admin_then_client_registration cfg t requestBody id eid tok
    now now2 id2 eid2 tok2 :
  needRegistrationApproval cfg = true ->
  get_client_device t id = None ->
  id <> EmptyString ->
  register_deviceId requestBody = Some id ->
  (needHWID cfg = true -> truthy (register_hwid requestBody) <> None) ->
  exists t1 t2,
    adminRegister cfg now t (Some (adminToken cfg)) id eid tok
    = (t1, Return (AdminRegisterResponse id))
    /\ clientRegister cfg now2 t1 requestBody id2 eid2 tok2
       = (t2, Return (JSONRegister id eid tok)).
Proof.
  intros Hc Hfresh Hne Hbody Hh.
  set (row := new_row id eid tok now None).
  assert (Hget : get_client_device (t ++ [row])%list id = Some row).
  { unfold get_client_device in *. rewrite find_app_last, Hfresh.
    unfold by_deviceId. simpl. now rewrite String.eqb_refl. }
  assert (Hk : truthy (register_deviceId requestBody) = Some id)
    by (rewrite Hbody; now apply truthy_Some).
  destruct (clientRegister_approved cfg now2 _ requestBody id row id2 eid2 tok2
              Hc Hk Hget Hh) as [g [Hreg _]].
  exists (t ++ [row])%list. eexists. split; [|exact Hreg].
  unfold adminRegister. simpl admin_token_ok. rewrite String.eqb_refl. simpl.
  now rewrite insert_fresh.
Qed.

Lemma admin_then_client_registration_witness :
  exists t1 t2,
    adminRegister Scenario.approval Scenario.now Sample.table (Some "supersecretadmin")
      Scenario.newDeviceId "5566778899aabbcc" Scenario.newToken
    = (t1, Return (AdminRegisterResponse Scenario.newDeviceId))
    /\ clientRegister Scenario.approval Scenario.now' t1
         {| register_deviceId := Some Scenario.newDeviceId;
            register_hwid := Some "board-7" |}
         "aaaaaaaaaaaaaaaa" "bbbbbbbbbbbbbbbb" "cccc"
       = (t2, Return (JSONRegister Scenario.newDeviceId "5566778899aabbcc"
                        Scenario.newToken)).
Proof.
  apply (admin_then_client_registration Scenario.approval Sample.table
           {| register_deviceId := Some Scenario.newDeviceId;
              register_hwid := Some "board-7" |}
           Scenario.newDeviceId "5566778899aabbcc" Scenario.newToken
           Scenario.now Scenario.now' "aaaaaaaaaaaaaaaa" "bbbbbbbbbbbbbbbb" "cccc").
  - reflexivity.
  - reflexivity.
  - discriminate.
  - reflexivity.
  - simpl. discriminate.
Defined.

(** ** More on the verifier *)


Lemma verify_hmac_stage cfg now secret ts sig :
  (exists n, py_int ts = Some n
             /\ MIN_TIMESTAMP <= n <= MAX_TIMESTAMP
             /\ abs_seconds_gt (now - n * 1000000) (hmacWindow cfg) = false
             /\ verify_hmac cfg now secret ts sig
                = compare_digest (HMAC.hexdigest (encode secret) (encode ts)) sig)
  \/ verify_hmac cfg now secret ts sig = Return false.
Proof.
  unfold verify_hmac.
  destruct (py_int ts) as [n|]; [|now right].
  destruct (fromtimestamp n) as [req|] eqn:Ef; [|now right].
  apply fromtimestamp_Some in Ef. destruct Ef as [Hr ->].
  destruct (abs_seconds_gt (now - n * 1000000) (hmacWindow cfg)) eqn:Ew;
    [now right|].
  left. exists n. now repeat split.
Qed.





Lemma be_bytes_length (n : nat) (x : Z) : List.length (SHA256.be_bytes n x) = n.
Proof.
  revert x. induction n as [|n IH]; intros x; simpl; [reflexivity|].
  rewrite length_app, IH. simpl. lia.
Qed.

Lemma sha256_digest_length (msg : list Z) : List.length (SHA256.digest msg) = 32%nat.
Proof.
  unfold SHA256.digest.
  destruct (SHA256.blocks _ _ _) as [[[[[[[a b] c] d] e] f] g] h].
  cbn [flat_map]. rewrite !length_app, !be_bytes_length. reflexivity.
Qed.

Lemma hex_length (bs : list Z) : String.length (hex bs) = (2 * List.length bs)%nat.
Proof. induction bs as [|b bs IH]; simpl; [reflexivity|]. rewrite IH. lia. Qed.

(** X20: an accepted signature is a string of exactly 64 ASCII characters;
    a signature of any other length is never accepted, whatever the secret
    and the timestamp. *)
Theorem accepted_signature_has_64_characters cfg now secret ts sig :
  verify_hmac cfg now secret ts sig = Return true ->
  String.length sig = 64%nat /\ isascii sig = true.
Proof.
  intros H.
  destruct (verify_hmac_stage cfg now secret ts sig)
    as [[n [_ [_ [_ E]]]] | Hf]; [|congruence].
  rewrite E in H. apply compare_digest_true in H; [|apply hexdigest_ascii].
  subst sig. split; [|apply hexdigest_ascii].
  unfold HMAC.hexdigest, HMAC.digest.
  now rewrite hex_length, sha256_digest_length.
Qed.

Lemma accepted_signature_has_64_characters_witness :
  String.length Sample.sig_1700000000 = 64%nat
  /\ isascii Sample.sig_1700000000 = true.
Proof.
  apply (accepted_signature_has_64_characters default_config Scenario.t_auth
           (token Sample.laptop) "1700000000" Sample.sig_1700000000).
  vm_compute; reflexivity.
Defined.



(** ** Two-phase sequences *)

Section TwoPhase.

Variable cfg : config.
Variable t : db.
Variable eid : string.
Variable dev : device.
Hypothesis keyed : primary_key t.
Hypothesis two_phase : needLockApproval cfg = true.
Hypothesis resolves : get_mobile_device_by_emergency t eid = Some dev.

(** The table after the caller's rows went through [f], and what the next
    request finds there. *)
Lemma after_rewrite (f : device -> device) :
  (forall d, deviceId (f d) = deviceId d) ->
  (forall d, emergencyId (f d) = emergencyId d) ->
  let t' := update (by_deviceId (deviceId dev)) f t in
  primary_key t'
  /\ get_mobile_device_by_emergency t' eid = Some (f dev)
  /\ find (by_deviceId (deviceId (f dev))) t' = Some (f dev).
Proof.
  intros Hid Heid t'.
  assert (Hk' : primary_key t') by now apply update_preserves_primary_key.
  assert (Hm : get_mobile_device_by_emergency t' eid = Some (f dev))
    by now apply mobile_row_after_update.
  repeat split; try assumption.
  now apply (mobile_row_is_device t' eid).
Qed.

Lemma next_request_authenticates (f : device -> device) t_auth ts sig :
  (forall d, deviceId (f d) = deviceId d) ->
  (forall d, emergencyId (f d) = emergencyId d) ->
  token (f dev) = token dev ->
  verify_hmac cfg t_auth (token dev) ts sig = Return true ->
  verifyMobileAuth cfg t_auth (update (by_deviceId (deviceId dev)) f t) eid ts sig
  = Return (f dev).
Proof.
  intros Hid Heid Htok Hsig.
  apply verifyMobileAuth_intro; [now apply after_rewrite | now rewrite Htok].
Qed.

End TwoPhase.

(** X22: in two-phase mode the first request of either kind only records
    its time: the caller's row comes back with [pendingLockTime] set to
    now and with [emergencyState], [lastSeen] and everything else as
    before. *)
Theorem first_phase_only_records_time cfg t_auth now t eid ts sig dev :
  primary_key t ->
  needLockApproval cfg = true ->
  verifyMobileAuth cfg t_auth t eid ts sig = Return dev ->
  pendingLockTime dev = None ->
  (exists t',
      serve MobileLock cfg t_auth now t eid ts sig = (t', Return lock_pending)
      /\ get_mobile_device_by_emergency t' eid
         = Some (set_pendingLockTime (Some now) dev))
  /\ (userCanUnlock dev <> 0 ->
      exists t',
        serve MobileUnlock cfg t_auth now t eid ts sig = (t', Return unlock_pending)
        /\ get_mobile_device_by_emergency t' eid
           = Some (set_pendingLockTime (Some now) dev)).
Proof.
  intros Hk Hc Hauth Hp.
  destruct (verifyMobileAuth_Return _ _ _ _ _ _ _ Hauth) as [Hfind _].
  pose proof (mobile_row_is_device _ _ _ Hk Hfind) as Hrow.
  split; [|intros Hu]; eexists.
  - rewrite (serve_authenticated_mobile MobileLock _ _ _ _ _ _ _ dev eq_refl Hauth).
    simpl handler. rewrite (mobileLock_first_phase _ _ _ _ _ Hrow Hc Hp).
    split; [reflexivity|].
    apply mobile_row_after_update; [reflexivity | exact Hfind].
  - rewrite (serve_authenticated_mobile MobileUnlock _ _ _ _ _ _ _ dev eq_refl Hauth).
    simpl handler. rewrite (mobileUnlock_first_phase _ _ _ _ _ Hrow Hu Hc Hp).
    split; [reflexivity|].
    apply mobile_row_after_update; [reflexivity | exact Hfind].
Qed.

Lemma first_phase_only_records_time_witness :
  (exists t',
      serve MobileLock Sample.two_phase Scenario.t_auth Scenario.now Sample.table
        "0a1b2c3d4e5f6071" "1700000000" Sample.sig_1700000000
      = (t', Return lock_pending)
      /\ get_mobile_device_by_emergency t' "0a1b2c3d4e5f6071"
         = Some (set_pendingLockTime (Some Scenario.now) Sample.laptop))
  /\ (exists t',
        serve MobileUnlock Sample.two_phase Scenario.t_auth Scenario.now Sample.table
          "0a1b2c3d4e5f6071" "1700000000" Sample.sig_1700000000
        = (t', Return unlock_pending)
        /\ get_mobile_device_by_emergency t' "0a1b2c3d4e5f6071"
           = Some (set_pendingLockTime (Some Scenario.now) Sample.laptop)).
Proof.
  destruct (first_phase_only_records_time Sample.two_phase Scenario.t_auth
              Scenario.now Sample.table "0a1b2c3d4e5f6071" "1700000000"
              Sample.sig_1700000000 Sample.laptop (proj1 sample_tables_keyed)
              eq_refl ltac:(vm_compute; reflexivity) eq_refl) as [H1 H2].
  split; [exact H1 | apply H2; simpl; lia].
Defined.

(** X23: the confirmation need not be a new request.  In two-phase mode, a
    lock request that opened the first phase, sent again unchanged while
    its timestamp is still fresh and the approval window open, is taken as
    the confirmation and arms the device. *)
Theorem replayed_lock_request_confirms_itself cfg t eid dev ts sig
    t_auth1 now1 t_auth2 now2 :
  primary_key t ->
  needLockApproval cfg = true ->
  verifyMobileAuth cfg t_auth1 t eid ts sig = Return dev ->
  pendingLockTime dev = None ->
  verify_hmac cfg t_auth2 (token dev) ts sig = Return true ->
  now2 - now1 <= lockApprovalTimeSecond cfg * 1000000 ->
  exists t1 t2 d',
    serve MobileLock cfg t_auth1 now1 t eid ts sig = (t1, Return lock_pending)
    /\ serve MobileLock cfg t_auth2 now2 t1 eid ts sig
       = (t2, Return (JSONDetail 200 "Device locked (stolen)"))
    /\ get_mobile_device_by_emergency t2 eid = Some d'
    /\ emergencyState d' = 1
    /\ pendingLockTime d' = None.
Proof.
  intros Hk Hc Hauth Hp Hsig Hw.
  destruct (verifyMobileAuth_Return _ _ _ _ _ _ _ Hauth) as [Hfind _].
  pose proof (mobile_row_is_device _ _ _ Hk Hfind) as Hrow.
  set (f := set_pendingLockTime (Some now1)).
  destruct (after_rewrite t eid dev Hk Hfind f (fun _ => eq_refl) (fun _ => eq_refl))
    as [Hk1 [Hfind1 Hrow1]].
  pose proof (next_request_authenticates cfg t eid dev Hk Hfind f t_auth2 ts sig
                (fun _ => eq_refl) (fun _ => eq_refl) eq_refl Hsig) as Hauth1.
  exists (update (by_deviceId (deviceId dev)) f t). eexists. eexists.
  split.
  - rewrite (serve_authenticated_mobile MobileLock _ _ _ _ _ _ _ dev eq_refl Hauth).
    simpl handler. now rewrite (mobileLock_first_phase _ _ _ _ _ Hrow Hc Hp).
  - rewrite (serve_authenticated_mobile MobileLock _ _ _ _ _ _ _ (f dev) eq_refl Hauth1).
    simpl handler.
    rewrite (mobileLock_confirmed cfg now2 _ (f dev) (f dev) Hrow1 now1 Hc eq_refl Hw).
    split; [reflexivity|].
    split; [apply mobile_row_after_update; [reflexivity | exact Hfind1]|].
    split; reflexivity.
Qed.

Lemma replayed_lock_request_confirms_itself_witness :
  exists t1 t2 d',
    serve MobileLock Sample.two_phase Scenario.t_auth Scenario.now Sample.table
      "0a1b2c3d4e5f6071" "1700000000" Sample.sig_1700000000
    = (t1, Return lock_pending)
    /\ serve MobileLock Sample.two_phase 1700000003000000 1700000003000200 t1
         "0a1b2c3d4e5f6071" "1700000000" Sample.sig_1700000000
       = (t2, Return (JSONDetail 200 "Device locked (stolen)"))
    /\ get_mobile_device_by_emergency t2 "0a1b2c3d4e5f6071" = Some d'
    /\ emergencyState d' = 1
    /\ pendingLockTime d' = None.
Proof.
  apply (replayed_lock_request_confirms_itself Sample.two_phase Sample.table
           "0a1b2c3d4e5f6071" Sample.laptop "1700000000" Sample.sig_1700000000
           Scenario.t_auth Scenario.now 1700000003000000 1700000003000200).
  - exact (proj1 sample_tables_keyed).
  - reflexivity.
  - vm_compute; reflexivity.
  - reflexivity.
  - vm_compute; reflexivity.
  - unfold Scenario.now. simpl. lia.
Defined.

(** X24: after the window has run out, as the code tests it (the
    rounded [total_seconds()] exceeds [lockApprovalTimeSecond]; for a
    window from 0 to below 2^34 s, exactly when more than
    [lockApprovalTimeSecond] went by).  A late lock request restarts the
    window from its own time, so the next lock request within
    [lockApprovalTimeSecond] of it arms the device, however long ago the
    first one was.  A late unlock request from a device that may unlock is
    refused with 408, and the next unlock request only opens a new first
    phase. *)
Theorem after_the_window_expired cfg t eid dev prevTime
    t_auth2 now2 ts2 sig2 t_auth3 now3 ts3 sig3 :
  primary_key t ->
  needLockApproval cfg = true ->
  verifyMobileAuth cfg t_auth2 t eid ts2 sig2 = Return dev ->
  pendingLockTime dev = Some prevTime ->
  seconds_le (now2 - prevTime) (lockApprovalTimeSecond cfg) = false
  \/ (0 <= lockApprovalTimeSecond cfg < 2 ^ 34
      /\ lockApprovalTimeSecond cfg * 1000000 < now2 - prevTime) ->
  verify_hmac cfg t_auth3 (token dev) ts3 sig3 = Return true ->
  (now3 - now2 <= lockApprovalTimeSecond cfg * 1000000 ->
   exists t2 t3 d',
     serve MobileLock cfg t_auth2 now2 t eid ts2 sig2 = (t2, Return lock_pending)
     /\ serve MobileLock cfg t_auth3 now3 t2 eid ts3 sig3
        = (t3, Return (JSONDetail 200 "Device locked (stolen)"))
     /\ get_mobile_device_by_emergency t3 eid = Some d'
     /\ emergencyState d' = 1)
  /\ (userCanUnlock dev <> 0 ->
      exists t2 t3,
        serve MobileUnlock cfg t_auth2 now2 t eid ts2 sig2
        = (t2, Raise (HTTPException 408 "Unlock approval timeout. Please try again."))
        /\ serve MobileUnlock cfg t_auth3 now3 t2 eid ts3 sig3
           = (t3, Return unlock_pending)
        /\ get_mobile_device_by_emergency t3 eid
           = Some (set_pendingLockTime (Some now3) dev)).
Proof.
  intros Hk Hc Hauth Hp Hexp Hsig.
  assert (Hlate : seconds_le (now2 - prevTime) (lockApprovalTimeSecond cfg) = false)
    by (destruct Hexp as [H | [Hs H]]; [exact H | now apply seconds_le_beyond]).
  destruct (verifyMobileAuth_Return _ _ _ _ _ _ _ Hauth) as [Hfind _].
  pose proof (mobile_row_is_device _ _ _ Hk Hfind) as Hrow.
  split.
  - intros Hw.
    set (f := set_pendingLockTime (Some now2)).
    destruct (after_rewrite t eid dev Hk Hfind f (fun _ => eq_refl) (fun _ => eq_refl))
      as [Hk1 [Hfind1 Hrow1]].
    pose proof (next_request_authenticates cfg t eid dev Hk Hfind f t_auth3 ts3 sig3
                  (fun _ => eq_refl) (fun _ => eq_refl) eq_refl Hsig) as Hauth1.
    exists (update (by_deviceId (deviceId dev)) f t). eexists. eexists.
    split.
    + rewrite (serve_authenticated_mobile MobileLock _ _ _ _ _ _ _ dev eq_refl Hauth).
      simpl handler. now rewrite (mobileLock_expired _ _ _ _ _ Hrow _ Hc Hp Hlate).
    + rewrite (serve_authenticated_mobile MobileLock _ _ _ _ _ _ _ (f dev) eq_refl
                 Hauth1).
      simpl handler.
      rewrite (mobileLock_confirmed cfg now3 _ (f dev) (f dev) Hrow1 now2 Hc eq_refl Hw).
      split; [reflexivity|].
      split; [apply mobile_row_after_update; [reflexivity | exact Hfind1]|].
      reflexivity.
  - intros Hu.
    set (f := set_pendingLockTime None).
    destruct (after_rewrite t eid dev Hk Hfind f (fun _ => eq_refl) (fun _ => eq_refl))
      as [Hk1 [Hfind1 Hrow1]].
    pose proof (next_request_authenticates cfg t eid dev Hk Hfind f t_auth3 ts3 sig3
                  (fun _ => eq_refl) (fun _ => eq_refl) eq_refl Hsig) as Hauth1.
    exists (update (by_deviceId (deviceId dev)) f t). eexists.
    split.
    + rewrite (serve_authenticated_mobile MobileUnlock _ _ _ _ _ _ _ dev eq_refl Hauth).
      simpl handler.
      now rewrite (mobileUnlock_expired _ _ _ _ _ Hrow _ Hu Hc Hp Hlate).
    + rewrite (serve_authenticated_mobile MobileUnlock _ _ _ _ _ _ _ (f dev) eq_refl
                 Hauth1).
      simpl handler.
      rewrite (mobileUnlock_first_phase cfg now3 _ (f dev) (f dev) Hrow1 Hu Hc eq_refl).
      split; [reflexivity|].
      exact (mobile_row_after_update _ eid (f dev) (set_pendingLockTime (Some now3))
               (fun _ => eq_refl) Hfind1).
Qed.

Lemma after_the_window_expired_witness :
  (exists t2 t3 d',
     serve MobileLock Sample.two_phase Scenario.t_auth' Scenario.now' Sample.table_stale
       "0a1b2c3d4e5f6071" "1700000020" Sample.sig_1700000020
     = (t2, Return lock_pending)
     /\ serve MobileLock Sample.two_phase 1700000041000000 1700000041000300 t2
          "0a1b2c3d4e5f6071" "1700000040"
          (HMAC.hexdigest (encode (token Sample.laptop)) (encode "1700000040"))
        = (t3, Return (JSONDetail 200 "Device locked (stolen)"))
     /\ get_mobile_device_by_emergency t3 "0a1b2c3d4e5f6071" = Some d'
     /\ emergencyState d' = 1)
  /\ (exists t2 t3,
        serve MobileUnlock Sample.two_phase Scenario.t_auth' Scenario.now'
          Sample.table_stale "0a1b2c3d4e5f6071" "1700000020" Sample.sig_1700000020
        = (t2, Raise (HTTPException 408 "Unlock approval timeout. Please try again."))
        /\ serve MobileUnlock Sample.two_phase 1700000041000000 1700000041000300 t2
             "0a1b2c3d4e5f6071" "1700000040"
             (HMAC.hexdigest (encode (token Sample.laptop)) (encode "1700000040"))
           = (t3, Return unlock_pending)
        /\ get_mobile_device_by_emergency t3 "0a1b2c3d4e5f6071"
           = Some (set_pendingLockTime (Some 1700000041000300) Sample.laptop_stale)).
Proof.
  destruct (after_the_window_expired Sample.two_phase Sample.table_stale
              "0a1b2c3d4e5f6071" Sample.laptop_stale 1699999980000000
              Scenario.t_auth' Scenario.now' "1700000020" Sample.sig_1700000020
              1700000041000000 1700000041000300 "1700000040"
              (HMAC.hexdigest (encode (token Sample.laptop)) (encode "1700000040"))
              (proj2 (proj2 sample_tables_keyed)) eq_refl
              ltac:(vm_compute; reflexivity) eq_refl
              ltac:(right; unfold Scenario.now'; simpl; lia)
              ltac:(vm_compute; reflexivity)) as [Hlock Hunlock].
  split.
  - apply Hlock. unfold Scenario.now'. simpl. lia.
  - apply Hunlock. simpl. lia.
Defined.

(** ** Branches no request reaches *)

(** X25: behind its dependency a handler always finds the caller's row:
    no route answers 404 "Device not found", and a [TypeError] can only
    come from the signature comparison of the dependency, never from a
    handler reading a missing row. *)
Theorem handlers_always_find_the_caller e cfg t_auth now t x_id ts sig :
  snd (serve e cfg t_auth now t x_id ts sig)
  <> Raise (HTTPException 404 "Device not found")
  /\ (snd (serve e cfg t_auth now t x_id ts sig) = Raise TypeError ->
      dependency e cfg t_auth t x_id ts sig = Raise TypeError).
Proof.
  destruct (serve_cases e cfg t_auth now t x_id ts sig)
    as [[ex [Hdep ->]] | [dev [Hauth ->]]].
  - simpl. split; [|intros H; injection H as ->; exact Hdep].
    intros H. injection H as ->.
    destruct e; simpl in Hdep; unfold verifyClientAuth, verifyMobileAuth in Hdep;
      match type of Hdep with
      | context [match ?o with Some _ => _ | None => _ end] => destruct o as [d|]
      end; try discriminate;
      destruct (verify_hmac cfg t_auth (token d) ts sig) as [[|]|ex] eqn:E;
      try discriminate;
      injection Hdep as ->;
      destruct (verify_hmac_stage cfg t_auth (token d) ts sig)
        as [[n [_ [_ [_ E']]]] | Hf]; try congruence;
      rewrite E' in E; unfold compare_digest in E;
      destruct (isascii _ && isascii sig); discriminate.
  - pose proof (dependency_In _ _ _ _ _ _ _ _ Hauth) as Hin.
    destruct (In_find_by_deviceId _ _ Hin) as [row Hrow].
    destruct e; simpl handler.
    + unfold clientAmIOk.
      destruct (find _ (update _ _ t)) as [r|]; [destruct (emergencyState r =? 0)|];
        simpl; split; discriminate.
    + unfold clientDecrypt. destruct (negb _); simpl; split; discriminate.
    + unfold mobileCheck. simpl. split; discriminate.
    + unfold mobileLock, lock_pending. rewrite Hrow.
      destruct (needLockApproval cfg);
        [destruct (pendingLockTime row) as [prev|];
         [destruct (seconds_le _ _)|]|];
        simpl; split; discriminate.
    + unfold mobileUnlock, unlock_pending.
      destruct (userCanUnlock dev =? 0); [simpl; split; discriminate|].
      destruct (needLockApproval cfg); [|simpl; split; discriminate].
      rewrite Hrow.
      destruct (pendingLockTime row) as [prev|];
        [destruct (seconds_le _ _)|];
        simpl; split; discriminate.
Qed.

(** ** An unlock, seen from the device *)

Lemma mobileUnlock_applied cfg now t dev t' :
  mobileUnlock cfg now t dev = (t', Return (JSONDetail 200 "Device unlocked")) ->
  exists f,
    t' = update (by_deviceId (deviceId dev)) f t
    /\ forall d, emergencyState (f d) = 0 /\ token (f d) = token d
                 /\ deviceId (f d) = deviceId d.
Proof.
  unfold mobileUnlock, unlock_pending.
  destruct (userCanUnlock dev =? 0); [discriminate|].
  destruct (needLockApproval cfg).
  - destruct (find _ t) as [row|]; [|discriminate].
    destruct (pendingLockTime row) as [prev|]; [destruct (seconds_le _ _)|];
      intros H; try discriminate; injection H as <-;
      eexists; (split; [reflexivity|]); intros d; repeat split.
  - intros H. injection H as <-.
    eexists; (split; [reflexivity|]); intros d; repeat split.
Qed.

(** X26: once [/mobile/unlock] has answered 200, the device's next
    authenticated [/client/decrypt] returns its token and its next
    [/client/AmIOk] answers "ok". *)
Theorem applied_unlock_restores_service cfg t eid dev t_auth now ts sig t'
    t_auth2 now2 ts2 sig2 :
  primary_key t ->
  verifyMobileAuth cfg t_auth t eid ts sig = Return dev ->
  serve MobileUnlock cfg t_auth now t eid ts sig
  = (t', Return (JSONDetail 200 "Device unlocked")) ->
  verify_hmac cfg t_auth2 (token dev) ts2 sig2 = Return true ->
  serve ClientDecrypt cfg t_auth2 now2 t' (deviceId dev) ts2 sig2
  = (t', Return (PlainText (token dev)))
  /\ snd (serve ClientAmIOk cfg t_auth2 now2 t' (deviceId dev) ts2 sig2)
     = Return (JSONStatus "ok").
Proof.
  intros Hk Hauth Hun Hsig.
  rewrite (serve_authenticated_mobile MobileUnlock _ _ _ _ _ _ _ dev eq_refl Hauth)
    in Hun.
  simpl handler in Hun. apply mobileUnlock_applied in Hun.
  destruct Hun as [f [-> Hf]].
  destruct (verifyMobileAuth_Return _ _ _ _ _ _ _ Hauth) as [Hfind _].
  destruct (find_by_emergencyId_In _ _ _ Hfind) as [Hin _].
  assert (Hc : get_client_device
                 (update (by_deviceId (deviceId dev)) f t) (deviceId dev) = Some (f dev))
    by (apply client_row_after_key_update; [apply Hf | exact Hk | exact Hin]).
  destruct (Hf dev) as [Hclear [Htok Hid]].
  rewrite <- Htok in Hsig.
  pose proof (verifyClientAuth_intro _ _ _ _ _ _ _ Hc Hsig) as Hauth2.
  split.
  - rewrite (serve_authenticated_client ClientDecrypt _ _ _ _ _ _ _ (f dev) eq_refl
               Hauth2).
    simpl. unfold clientDecrypt. now rewrite Hclear, Htok.
  - rewrite (serve_authenticated_client ClientAmIOk _ _ _ _ _ _ _ (f dev) eq_refl
               Hauth2).
    simpl handler. unfold clientAmIOk. rewrite Hid.
    pose proof (client_row_after_update _ _ _ (set_lastSeen (Some now2))
                  (fun _ => eq_refl) Hc) as Hrow.
    rewrite Hid in Hrow. unfold get_client_device in Hrow at 1. rewrite Hrow.
    simpl emergencyState. now rewrite Hclear.
Qed.

Lemma applied_unlock_restores_service_witness :
  exists t',
    serve ClientDecrypt default_config Scenario.t_auth' Scenario.now' t'
      "9f8e7d6c5b4a3921" "1700000020" Sample.sig_1700000020
    = (t', Return (PlainText (token Sample.laptop_pending)))
    /\ snd (serve ClientAmIOk default_config Scenario.t_auth' Scenario.now' t'
              "9f8e7d6c5b4a3921" "1700000020" Sample.sig_1700000020)
       = Return (JSONStatus "ok").
Proof.
  eexists.
  apply (applied_unlock_restores_service default_config Sample.table_pending
           "0a1b2c3d4e5f6071" Sample.laptop_pending Scenario.t_auth Scenario.now
           "1700000000" Sample.sig_1700000000 _
           Scenario.t_auth' Scenario.now' "1700000020" Sample.sig_1700000020).
  - exact (proj1 (proj2 sample_tables_keyed)).
  - vm_compute; reflexivity.
  - vm_compute; reflexivity.
  - vm_compute; reflexivity.
Defined.
